(** * TS4ModFolderBuilder: settings store, naming rules and mod scaffolder

    A shallow embedding of [TS4ModFolderBuilderog.py]: the functions
    [load_settings], [save_settings], [safe_operation],
    [ModBuilderApp.apply_naming_rules] and [ModBuilderApp.generate_mod],
    over an explicit model of the Python objects they share (the nested
    dictionaries of [DEFAULT_SETTINGS]), of the file system and of the
    dialogs they open; then the callbacks of the windows: the traces on
    the variables of the main window, [SettingsWindow.save_settings_local]
    and the two functions that close a prompt, and [center_window].

    Python dictionaries are finite maps ([gmap]); text is [string], one
    [ascii] per character.  [logger] calls are left out: they write to the
    log file only and never change the control flow.  What the platform
    and the libraries decide ([os.path], [json], whether the operating
    system carries out an operation) is a parameter of the program. *)

From Stdlib Require Import Ascii String.
From stdpp Require Import base option gmap strings list fin_maps.

Set Warnings "-register-all,-clear-no-such-hyp".

Open Scope string_scope.

(** ** Python values *)

(** What [json.load] can return.  A float literal [m * 10^e] keeps its
    mantissa and its exponent, which decide its truth value. *)
Inductive jval : Type :=
| JNull
| JBool (b : bool)
| JInt (z : Z)
| JFloat (m e : Z)
| JStr (s : string)
| JList (l : list jval)
| JObj (d : gmap string jval).

(** The two dictionary objects that the [DEFAULT_SETTINGS] literal
    allocates.  They are the only objects of the program that are reachable
    from two places at once, so they are the only ones kept in a store. *)
Inductive loc : Type := NamingRulesObj | BackupOptionsObj.

#[global] Instance loc_eq_dec : EqDecision loc.
Proof. solve_decision. Defined.

(** A value held by a top-level settings dictionary: an unshared value, or
    a reference to one of the two shared dictionary objects. *)
Inductive slot : Type :=
| Imm (v : jval)
| Ref (l : loc).

Record store : Type := Store {
  naming_rules_obj : gmap string jval;
  backup_options_obj : gmap string jval
}.

Definition deref (st : store) (l : loc) : gmap string jval :=
  match l with
  | NamingRulesObj => naming_rules_obj st
  | BackupOptionsObj => backup_options_obj st
  end.

Definition store_set (st : store) (l : loc) (d : gmap string jval) : store :=
  match l with
  | NamingRulesObj => Store d (backup_options_obj st)
  | BackupOptionsObj => Store (naming_rules_obj st) d
  end.

(** ** File system, dialogs, exceptions *)

Inductive fsop : Type :=
| OpMakedirs (p : string)
| OpRead (p : string)
| OpWrite (p : string)
| OpCopy (src dst : string).

Inductive exn : Type :=
| KeyError (k : string)
| TypeError
| AttributeError
| JSONDecodeError
| UnicodeDecodeError
| ValueError
| RecursionError
| OSError (op : fsop).

(** Text of a dialog: a literal, or a literal followed by [str(e)]. *)
Inductive message : Type :=
| Msg (s : string)
| MsgExn (s : string) (e : exn).

(** What the program did to the outside world, oldest event first: the
    file system operations that succeeded and the dialogs shown. *)
Inductive event : Type :=
| FsMakedirs (p : string)
| FsWrite (p : string) (text : string)
| FsCopy (src dst : string)
| ShowError (title : string) (m : message)
| ShowWarning (title : string) (m : message)
| ShowInfo (title : string) (m : message)
| OpenLocationPrompt (folder : string).

Record filesystem : Type := Fs {
  files : gmap string string;
  dirs : gset string
}.

Record world : Type := World {
  objs : store;
  settings_data : gmap string slot;
  fs : filesystem;
  trace : list event
}.

Definition set_objs (st : store) (w : world) : world :=
  World st (settings_data w) (fs w) (trace w).
Definition set_settings_data (s : gmap string slot) (w : world) : world :=
  World (objs w) s (fs w) (trace w).
Definition set_fs (f : filesystem) (w : world) : world :=
  World (objs w) (settings_data w) f (trace w).

(** The file system once an operation has succeeded; dialogs leave it as
    it is. *)
Definition fs_after (e : event) (f : filesystem) : filesystem :=
  match e with
  | FsMakedirs p => Fs (files f) ({[ p ]} ∪ dirs f)
  | FsWrite p text => Fs (<[ p := text ]> (files f)) (dirs f)
  | FsCopy src dst =>
      match files f !! src with
      | Some text => Fs (<[ dst := text ]> (files f)) (dirs f)
      | None => f
      end
  | _ => f
  end.

(** The world once event [e] has happened. *)
Definition emit (e : event) (w : world) : world :=
  World (objs w) (settings_data w) (fs_after e (fs w)) (trace w ++ [e]).

Definition replay (es : list event) (w : world) : world :=
  foldl (λ w e, emit e w) w es.

(** ** The monad of statements: state and exceptions

    A raised exception keeps the state reached so far: nothing is rolled
    back. *)

Inductive result (A : Type) : Type :=
| Ok (a : A)
| Raise (e : exn).
Arguments Ok {A} a.
Arguments Raise {A} e.

Definition M (A : Type) : Type := world → result A * world.

Definition ret {A} (a : A) : M A := λ w, (Ok a, w).
Definition bind {A B} (m : M A) (k : A → M B) : M B := λ w,
  match m w with
  | (Ok a, w') => k a w'
  | (Raise e, w') => (Raise e, w')
  end.
Definition raise {A} (e : exn) : M A := λ w, (Raise e, w).
Definition lift {A} (r : result A) : M A := λ w, (r, w).
Definition get_world : M world := λ w, (Ok w, w).
Definition modify (f : world → world) : M unit := λ w, (Ok tt, f w).

(** [try: m except e: h e] *)
Definition try_except {A} (m : M A) (h : exn → M A) : M A := λ w,
  match m w with
  | (Ok a, w') => (Ok a, w')
  | (Raise e, w') => h e w'
  end.

Declare Scope py_scope.
Delimit Scope py_scope with py.
Notation "x <- m ;; k" := (bind m (λ x, k))
  (at level 100, m at next level, right associativity) : py_scope.
Notation "m ;; k" := (bind m (λ _, k))
  (at level 100, right associativity) : py_scope.
Open Scope py_scope.

Definition when (b : bool) (m : M unit) : M unit := if b then m else ret tt.

(** ** Strings *)

Definition dquote : string := String "034"%char "".
Definition newline : string := String "010"%char "".

(** [str.isspace] on one character (code points below 256). *)
Definition is_space (c : ascii) : bool :=
  let n := nat_of_ascii c in
  ((9 <=? n)%nat && (n <=? 13)%nat) || ((28 <=? n)%nat && (n <=? 32)%nat)
  || (n =? 133)%nat || (n =? 160)%nat.

Fixpoint lstrip (s : string) : string :=
  match s with
  | "" => ""
  | String c s' => if is_space c then lstrip s' else s
  end.

Fixpoint rstrip (s : string) : string :=
  match s with
  | "" => ""
  | String c s' =>
      match rstrip s' with
      | "" => if is_space c then "" else String c ""
      | r => String c r
      end
  end.

(** [s.strip()] *)
Definition strip (s : string) : string := rstrip (lstrip s).

(** [s.replace(old, new)] for a one-character [old]. *)
Fixpoint replace (old : ascii) (new : string) (s : string) : string :=
  match s with
  | "" => ""
  | String c s' =>
      if Ascii.eqb c old then new ++ replace old new s'
      else String c (replace old new s')
  end.

Definition space : ascii := " "%char.

(** ** Truth testing and subscripting *)

(** A float literal [m * 10^e] is read as the nearest double, ties to
    even: it is [0.0] when [m] is 0 and when it underflows, which is when
    its magnitude is at most [2^-1075], half the least positive double. *)
Definition reads_as_zero (m e : Z) : bool :=
  (m =? 0)%Z || ((e <? 0)%Z && (Z.abs m * 2 ^ 1075 <=? 10 ^ (- e))%Z).

(** [bool(v)] *)
Definition truthy (v : jval) : bool :=
  match v with
  | JNull => false
  | JBool b => b
  | JInt z => negb (z =? 0)%Z
  | JFloat m e => negb (reads_as_zero m e)
  | JStr s => negb (String.eqb s "")
  | JList l => match l with [] => false | _ => true end
  | JObj d => negb (size d =? 0)%nat
  end.

Definition is_dict (v : jval) : bool :=
  match v with JObj _ => true | _ => false end.

(** [isinstance(x, dict)] for a value held by a settings dictionary *)
Definition slot_is_dict (s : slot) : bool :=
  match s with
  | Ref _ => true
  | Imm v => is_dict v
  end.

Definition truthy_slot (st : store) (s : slot) : bool :=
  match s with
  | Imm v => truthy v
  | Ref l => negb (size (deref st l) =? 0)%nat
  end.

(** The value a slot stands for, shared objects read from the store. *)
Definition resolve (st : store) (s : slot) : jval :=
  match s with
  | Imm v => v
  | Ref l => JObj (deref st l)
  end.

(** [d[k]] on a top-level settings dictionary *)
Definition getitem (d : gmap string slot) (k : string) : result slot :=
  match d !! k with
  | Some s => Ok s
  | None => Raise (KeyError k)
  end.

(** [x[k]] for a string key [k]: only dictionaries accept it *)
Definition subscript (st : store) (s : slot) (k : string) : result jval :=
  match resolve st s with
  | JObj d =>
      match d !! k with
      | Some v => Ok v
      | None => Raise (KeyError k)
      end
  | _ => Raise TypeError
  end.

(** [x.get(k, dflt)]: only dictionaries have the method *)
Definition get_method (st : store) (s : slot) (k : string) (dflt : jval)
  : result jval :=
  match resolve st s with
  | JObj d => Ok (default dflt (d !! k))
  | _ => Raise AttributeError
  end.

(** [settings_data[k1][k2]] *)
Definition setting2 (w : world) (k1 k2 : string) : result jval :=
  match getitem (settings_data w) k1 with
  | Ok s => subscript (objs w) s k2
  | Raise e => Raise e
  end.

(** [settings_data.get(k, True)], truth tested *)
Definition setting_flag (w : world) (k : string) : bool :=
  truthy_slot (objs w) (default (Imm (JBool true)) (settings_data w !! k)).

(** What [settings_data[k]] currently denotes, if the key is there. *)
Definition setting (w : world) (k : string) : option jval :=
  resolve (objs w) <$> settings_data w !! k.

(** ** Module constants *)

Definition SETTINGS_FILE : string := "settings.json".

(** The nested dictionaries of the [DEFAULT_SETTINGS] literal, as they are
    when the module has just been loaded. *)
Definition pristine_store : store :=
  Store
    {[ "no_spaces_folders" := JBool false;
       "no_spaces_files" := JBool false;
       "convert_spaces_underscores" := JBool false ]}
    {[ "always_backup" := JBool true ]}.

(** ** Reference transformations, following the specification

    Section 4.2 of the specification words the naming rules as removing
    and replacing space characters; here they are a filter and a map over
    the characters of the name. *)

Definition remove_spaces (s : string) : string :=
  string_of_list_ascii
    (filter (λ c, c ≠ space) (list_ascii_of_string s)).

Definition spaces_to_underscores (s : string) : string :=
  string_of_list_ascii
    ((λ c, if Ascii.eqb c space then "_"%char else c)
       <$> list_ascii_of_string s).

Record naming_rules : Type := NamingRules {
  no_spaces_folders : bool;
  no_spaces_files : bool;
  convert_spaces_underscores : bool
}.

Definition naming_reference (rules : naming_rules) (name : string)
    (is_folder : bool) : string :=
  let step1 :=
    if is_folder && no_spaces_folders rules
    then remove_spaces name else name in
  let step2 :=
    if negb is_folder && no_spaces_files rules
    then remove_spaces step1 else step1 in
  if convert_spaces_underscores rules
  then spaces_to_underscores step2 else step2.

(** ** Environments for the examples

    The program is modelled over the platform's path functions, the JSON
    codec and the behaviour of the operating system.  The examples run it
    with POSIX paths, a codec that knows a few documents, and operating
    systems that refuse chosen operations. *)

Fixpoint has_slash (p : string) : bool :=
  match p with
  | "" => false
  | String c p' => Ascii.eqb c "/" || has_slash p'
  end.

Fixpoint ends_with_slash (p : string) : bool :=
  match p with
  | "" => false
  | String c "" => Ascii.eqb c "/"
  | String _ p' => ends_with_slash p'
  end.

(** [posixpath.join(a, b)] *)
Definition posix_join (a b : string) : string :=
  if String.prefix "/" b then b
  else if String.eqb a "" || ends_with_slash a then a ++ b
  else a ++ "/" ++ b.

(** [posixpath.basename(p)]: what follows the last slash *)
Fixpoint posix_basename (p : string) : string :=
  match p with
  | "" => ""
  | String c p' =>
      if Ascii.eqb c "/" || has_slash p' then posix_basename p' else p
  end.

Definition quoted (s : string) : string := dquote ++ s ++ dquote.

(** The text [{"naming_rules": {"no_spaces_folders": true}}] *)
Definition no_spaces_folders_text : string :=
  "{" ++ quoted "naming_rules" ++ ": {"
  ++ quoted "no_spaces_folders" ++ ": true}}".

Definition demo_json_load (text : string) : option jval :=
  if String.eqb text "{}" then Some (JObj ∅)
  else if String.eqb text no_spaces_folders_text then
    Some (JObj {[ "naming_rules" :=
                    JObj {[ "no_spaces_folders" := JBool true ]} ]})
  else if String.eqb text "[]" then Some (JList [])
  else None.

(** Bytes that are not UTF-8: the byte order mark of UTF-16, then text. *)
Definition not_utf8_text : string :=
  String "255"%char (String "254"%char "{}").

(** What [json.load] raises on a text [demo_json_load] does not load. *)
Definition demo_json_raises (text : string) : exn :=
  if String.prefix (String "255"%char "") text then UnicodeDecodeError
  else JSONDecodeError.

(** A stand-in for [json.dump]: the examples only need its output to be
    told apart from the text it replaces. *)
Definition demo_json_dump (v : jval) : string :=
  match v with
  | JObj d => if (size d =? 0)%nat then "{}" else "{<settings>}"
  | _ => "null"
  end.

Definition never_refuses : filesystem → fsop → bool := λ _ _, false.


Definition refuses_makedirs_of (p : string) : filesystem → fsop → bool :=
  λ _ op,
  match op with
  | OpMakedirs q => String.eqb p q
  | _ => false
  end.

Definition empty_fs : filesystem := Fs ∅ ∅.

Definition fs_with_settings (text : string) : filesystem :=
  Fs {[ "settings.json" := text ]} ∅.

Definition refuses_writes_of (p : string) : filesystem → fsop → bool :=
  λ _ op,
  match op with
  | OpWrite q => String.eqb p q
  | _ => false
  end.

(** The default settings with "Mods" as main mods folder, as a JSON
    document, and a codec that knows this document besides those of
    [demo_json_load]. *)
Definition mods_defaults : jval :=
  JObj {[ "main_mods_folder" := JStr "Mods";
          "generated_mods_enabled" := JBool false;
          "temp_mod_timer" := JStr "Disabled";
          "naming_rules" :=
            JObj {[ "no_spaces_folders" := JBool false;
                    "no_spaces_files" := JBool false;
                    "convert_spaces_underscores" := JBool false ]};
          "show_open_location_prompt" := JBool true;
          "show_save_success" := JBool true;
          "backup_options" := JObj {[ "always_backup" := JBool true ]};
          "init_py_in_scripts" := JBool true ]}.

Definition mods_defaults_text : string := "{<defaults>}".

Definition mods_json_load (text : string) : option jval :=
  if String.eqb text mods_defaults_text then Some mods_defaults
  else demo_json_load text.

(** A stand-in for [json.dump] again: a document of eight keys is taken
    for the defaults. *)
Definition mods_json_dump (v : jval) : string :=
  match v with
  | JObj d => if (size d =? 8)%nat then mods_defaults_text
              else demo_json_dump v
  | _ => demo_json_dump v
  end.

(** The text [5], and a codec that knows the document
    [{"naming_rules": 5}]. *)
Definition naming_rules_5_text : string :=
  "{" ++ quoted "naming_rules" ++ ": 5}".

Definition odd_json_load (text : string) : option jval :=
  if String.eqb text naming_rules_5_text
  then Some (JObj {[ "naming_rules" := JInt 5 ]})
  else demo_json_load text.

(** ** The program, over its environment *)

Section Program.

(** [str(Path.home() / "Documents/Electronic Arts/The Sims 4/Mods")] *)
Variable DEFAULT_MAIN_MOD_FOLDER : string.
(** [os.path.join] and [os.path.basename] of the platform *)
Variable path_join : string → string → string.
Variable basename : string → string.
(** [json.load] on the text of a file, [None] when it raises, and the
    exception it raises then: [JSONDecodeError] on text that is not JSON,
    [UnicodeDecodeError] on bytes that are not UTF-8, [ValueError] or
    [RecursionError] on some documents it cannot build. *)
Variable json_load : string → option jval.
Variable json_load_raises : string → exn.
(** The text [json.dump(_, indent=4)] writes *)
Variable json_dump : jval → string.
(** Whether the operating system refuses an operation in a given state of
    the file system (permissions, missing parents, ...).  An operation is
    refused as a whole; what an operation interrupted half way leaves
    behind is not modelled. *)
Variable os_refuses : filesystem → fsop → bool.

Definition DEFAULT_SETTINGS : gmap string slot :=
  {[ "main_mods_folder" := Imm (JStr DEFAULT_MAIN_MOD_FOLDER);
     "generated_mods_enabled" := Imm (JBool false);
     "temp_mod_timer" := Imm (JStr "Disabled");
     "naming_rules" := Ref NamingRulesObj;
     "show_open_location_prompt" := Imm (JBool true);
     "show_save_success" := Imm (JBool true);
     "backup_options" := Ref BackupOptionsObj;
     "init_py_in_scripts" := Imm (JBool true) ]}.

(** The state right after the module is loaded:
    [settings_data = DEFAULT_SETTINGS.copy()], a copy of the top level
    only. *)
Definition initial_world (f : filesystem) : world :=
  World pristine_store DEFAULT_SETTINGS f [].

(** *** File system operations *)

(** [os.makedirs(p, exist_ok=True)] *)
Definition makedirs (p : string) : M unit := λ w,
  if os_refuses (fs w) (OpMakedirs p) then (Raise (OSError (OpMakedirs p)), w)
  else (Ok tt, emit (FsMakedirs p) w).

(** [with open(p, "w") as f: f.write(text)] *)
Definition write_file (p text : string) : M unit := λ w,
  if os_refuses (fs w) (OpWrite p) then (Raise (OSError (OpWrite p)), w)
  else (Ok tt, emit (FsWrite p text) w).

(** [shutil.copyfile(src, dst)]; [shutil.copy2] is the same on contents *)
Definition copyfile (src dst : string) : M unit := λ w,
  if os_refuses (fs w) (OpCopy src dst)
  then (Raise (OSError (OpCopy src dst)), w)
  else match files (fs w) !! src with
       | Some _ => (Ok tt, emit (FsCopy src dst) w)
       | None => (Raise (OSError (OpCopy src dst)), w)
       end.

(** [with open(p, "r") as f: f.read()] *)
Definition read_file (p : string) : M string := λ w,
  if os_refuses (fs w) (OpRead p) then (Raise (OSError (OpRead p)), w)
  else match files (fs w) !! p with
       | Some text => (Ok text, w)
       | None => (Raise (OSError (OpRead p)), w)
       end.

(** [Path(p).exists()] *)
Definition path_exists (f : filesystem) (p : string) : bool :=
  bool_decide (is_Some (files f !! p)) || bool_decide (p ∈ dirs f).

(** *** Dialogs *)

Definition showerror (title : string) (m : message) : M unit :=
  modify (emit (ShowError title m)).
Definition showwarning (title : string) (m : message) : M unit :=
  modify (emit (ShowWarning title m)).
Definition showinfo (title : string) (m : message) : M unit :=
  modify (emit (ShowInfo title m)).

(** *** [safe_operation]

    The decorator: the wrapped function's value, or an error dialog and
    [None] when it raised. *)
Definition safe_operation {A} (func : M A) : M (option A) := λ w,
  match func w with
  | (Ok a, w') => (Ok (Some a), w')
  | (Raise e, w') =>
      (Ok None, emit (ShowError "Error" (MsgExn "Operation failed: " e)) w')
  end.

(** *** [load_settings] *)

(** One turn of [for key, value in loaded_settings.items()]. *)
Definition merge_item (key : string) (value : jval) (w : world) : world :=
  match settings_data w !! key, value with
  | Some (Ref l), JObj dv =>
      (* settings_data[key].update(value), on a shared object *)
      set_objs (store_set (objs w) l (dv ∪ deref (objs w) l)) w
  | Some (Imm (JObj d)), JObj dv =>
      (* settings_data[key].update(value), on an object of its own *)
      set_settings_data (<[ key := Imm (JObj (dv ∪ d)) ]> (settings_data w)) w
  | _, _ =>
      (* settings_data[key] = value *)
      set_settings_data (<[ key := Imm value ]> (settings_data w)) w
  end.

(** [settings_data = DEFAULT_SETTINGS.copy()] *)
Definition reset_to_defaults : M unit :=
  modify (set_settings_data DEFAULT_SETTINGS).

Definition load_settings_body : M unit := λ w,
  if path_exists (fs w) SETTINGS_FILE then
    try_except
      (text <- read_file SETTINGS_FILE ;;
       loaded_settings <-
         match json_load text with
         | Some v => ret v
         | None => raise (json_load_raises text)
         end ;;
       reset_to_defaults ;;
       items <-
         match loaded_settings with
         | JObj d => ret d
         | _ => raise AttributeError
         end ;;
       modify (λ w, map_fold merge_item w items))
      (λ e,
         match e with
         | JSONDecodeError | OSError _ =>
             showerror "Error"
               (Msg "Settings file is corrupted. Resetting to defaults.") ;;
             reset_to_defaults
         | _ => raise e
         end) w
  else reset_to_defaults w.

Definition load_settings : M (option unit) := safe_operation load_settings_body.

(** *** [save_settings] *)

(** The value [json.dump] serialises for [settings_data]. *)
Definition settings_json (w : world) : jval :=
  JObj (resolve (objs w) <$> settings_data w).

Definition save_settings_body : M unit :=
  try_except
    (w <- get_world ;;
     when (path_exists (fs w) SETTINGS_FILE)
       (copyfile SETTINGS_FILE (SETTINGS_FILE ++ ".bak")) ;;
     w <- get_world ;;
     write_file SETTINGS_FILE (json_dump (settings_json w)))
    (λ e, raise e).

Definition save_settings : M (option unit) := safe_operation save_settings_body.

(** *** [ModBuilderApp] *)

(** The Tk variables [generate_mod] reads. *)
Record request : Type := Request {
  folder_name_var : string;
  file_name_var : string;
  script_var : bool;
  tuning_var : bool;
  package_var : bool;
  all_var : bool
}.

(** [try: m except Exception as e: logger.error(...); raise] *)
Definition logged {A} (m : M A) : M A := try_except m (λ e, raise e).

(** [for x in l: body x] *)
Fixpoint for_each {A} (l : list A) (body : A → M unit) : M unit :=
  match l with
  | [] => ret tt
  | x :: l' => body x ;; for_each l' body
  end.

(** [apply_naming_rules(name, is_folder)] *)
Definition apply_naming_rules (name : string) (is_folder : bool) : M string :=
  w <- get_world ;;
  no_spaces_folders <- lift (setting2 w "naming_rules" "no_spaces_folders") ;;
  let name :=
    if truthy no_spaces_folders && is_folder
    then replace space "" name else name in
  no_spaces_files <- lift (setting2 w "naming_rules" "no_spaces_files") ;;
  let name :=
    if truthy no_spaces_files && negb is_folder
    then replace space "" name else name in
  convert_spaces_underscores <-
    lift (setting2 w "naming_rules" "convert_spaces_underscores") ;;
  let name :=
    if truthy convert_spaces_underscores
    then replace space "_" name else name in
  ret name.

Definition init_text : string :=
  "# __init__.py - Marks this folder as a Python package." ++ newline.

Definition modinfo_text (cleaned_file_name : string) : string :=
  "modinfo = {" ++ newline
  ++ "    " ++ dquote ++ "Name" ++ dquote ++ ": "
  ++ dquote ++ cleaned_file_name ++ dquote ++ "," ++ newline
  ++ "    " ++ dquote ++ "Author" ++ dquote ++ ": "
  ++ dquote ++ "YourNameHere" ++ dquote ++ "," ++ newline
  ++ "    " ++ dquote ++ "Version" ++ dquote ++ ": "
  ++ dquote ++ "1.0" ++ dquote ++ "," ++ newline
  ++ "}" ++ newline.

Definition script_text : string := "# Placeholder script file" ++ newline.
Definition tuning_text : string := "<!-- Placeholder tuning file -->" ++ newline.
Definition package_text : string := "".

(** The closures of [generate_mod].  Each takes the list [created_files]
    it appends to and returns the extended list. *)

Definition create_init_py (full_folder_path : string)
    (created_files : list string) : M (list string) :=
  logged
    (w <- get_world ;;
     init_file_path <-
       (if setting_flag w "init_py_in_scripts" then
          let scripts_subfolder := path_join full_folder_path "Scripts" in
          makedirs scripts_subfolder ;;
          ret (path_join scripts_subfolder "__init__.py")
        else ret (path_join full_folder_path "__init__.py")) ;;
     write_file init_file_path init_text ;;
     ret (created_files ++ [init_file_path])%list).

Definition create_modinfo_py (full_folder_path cleaned_file_name : string)
    (created_files : list string) : M (list string) :=
  logged
    (let modinfo_file_path := path_join full_folder_path "modinfo.py" in
     write_file modinfo_file_path (modinfo_text cleaned_file_name) ;;
     ret (created_files ++ [modinfo_file_path])%list).

Definition create_script (full_folder_path file_name : string)
    (created_files : list string) : M (list string) :=
  logged
    (let scripts_subfolder := path_join full_folder_path "Scripts" in
     makedirs scripts_subfolder ;;
     script_file_name <- apply_naming_rules file_name false ;;
     let script_file_path :=
       path_join scripts_subfolder (script_file_name ++ ".py") in
     write_file script_file_path script_text ;;
     ret (created_files ++ [script_file_path])%list).

Definition create_tuning (full_folder_path file_name : string)
    (created_files : list string) : M (list string) :=
  logged
    (let tuning_subfolder := path_join full_folder_path "Tuning" in
     makedirs tuning_subfolder ;;
     tuning_file_name <- apply_naming_rules file_name false ;;
     let tuning_file_path :=
       path_join tuning_subfolder (tuning_file_name ++ ".xml") in
     write_file tuning_file_path tuning_text ;;
     ret (created_files ++ [tuning_file_path])%list).

Definition create_package (full_folder_path file_name : string)
    (created_files : list string) : M (list string) :=
  logged
    (package_file_name <- apply_naming_rules file_name false ;;
     let package_file_path :=
       path_join full_folder_path (package_file_name ++ ".package") in
     write_file package_file_path package_text ;;
     ret (created_files ++ [package_file_path])%list).

(** [open_file_location_prompt(folder_path)]: a modal window of the
    presentation layer, itself under [safe_operation].  The model records
    that it is opened, and a generation is modelled up to there: what the
    user answers is not part of it.  The handlers of the buttons end in
    [close_prompt], which is modelled on its own. *)
Definition open_file_location_prompt (folder_path : string) : M unit :=
  modify (emit (OpenLocationPrompt folder_path)).

(** [generate_mod] returns [None] on every path.  The model returns which
    path was taken and, at the end, the local list [created_files]. *)
Inductive outcome : Type :=
| NoFolderName
| NoFileName
| Generated (created_files : list string).

(** The target directory: [os.path.join(settings_data["main_mods_folder"],
    cleaned_folder_name)]; [os.path.join] accepts strings only. *)
Definition target_folder (cleaned_folder_name : string) : M string :=
  w <- get_world ;;
  main_mods_folder <- lift (getitem (settings_data w) "main_mods_folder") ;;
  match main_mods_folder with
  | Imm (JStr root) => ret (path_join root cleaned_folder_name)
  | _ => raise TypeError
  end.

(** The statements that create the files, lines 954 to 969. *)
Definition create_files (rq : request) (full_folder_path file_name
    cleaned_file_name : string) : M (list string) :=
  created_files <- create_modinfo_py full_folder_path cleaned_file_name [] ;;
  w <- get_world ;;
  created_files <-
    (if all_var rq || script_var rq || setting_flag w "init_py_in_scripts"
     then create_init_py full_folder_path created_files
     else ret created_files) ;;
  if all_var rq then
    created_files <- create_script full_folder_path file_name created_files ;;
    created_files <- create_tuning full_folder_path file_name created_files ;;
    create_package full_folder_path file_name created_files
  else
    created_files <-
      (if script_var rq
       then create_script full_folder_path file_name created_files
       else ret created_files) ;;
    created_files <-
      (if tuning_var rq
       then create_tuning full_folder_path file_name created_files
       else ret created_files) ;;
    if package_var rq
    then create_package full_folder_path file_name created_files
    else ret created_files.

(** The backup step, lines 971 to 984. *)
Definition backup_files (full_folder_path : string)
    (created_files : list string) : M unit :=
  w <- get_world ;;
  backup_options <- lift (getitem (settings_data w) "backup_options") ;;
  backup_always <-
    lift (get_method (objs w) backup_options "always_backup" (JBool true)) ;;
  when (truthy backup_always)
    (try_except
       (let backup_folder := full_folder_path ++ "_Backup" in
        makedirs backup_folder ;;
        for_each created_files (λ fpath,
          let fname := basename fpath in
          let backup_path := path_join backup_folder fname in
          copyfile fpath backup_path))
       (λ e, showwarning "Warning" (MsgExn "Could not create backup: " e))).

Definition generate_mod_body (rq : request) : M outcome :=
  let folder_name := strip (folder_name_var rq) in
  let file_name := strip (file_name_var rq) in
  if String.eqb folder_name "" then
    showerror "Error" (Msg "No Folder Name specified.") ;;
    ret NoFolderName
  else if String.eqb file_name "" then
    showerror "Error" (Msg "No File Name specified.") ;;
    ret NoFileName
  else
    cleaned_folder_name <- apply_naming_rules folder_name true ;;
    cleaned_file_name <- apply_naming_rules file_name false ;;
    full_folder_path <- target_folder cleaned_folder_name ;;
    makedirs full_folder_path ;;
    created_files <-
      create_files rq full_folder_path file_name cleaned_file_name ;;
    backup_files full_folder_path created_files ;;
    match created_files with
    | [] =>
        showinfo "Generate Mod"
          (Msg "No file type selected. No files created.") ;;
        ret (Generated created_files)
    | _ =>
        w <- get_world ;;
        when (setting_flag w "show_open_location_prompt")
          (open_file_location_prompt full_folder_path) ;;
        ret (Generated created_files)
    end.

Definition generate_mod (rq : request) : M (option outcome) :=
  safe_operation (logged (generate_mod_body rq)).

(** *** Notions used by the statements *)

(** The flags [apply_naming_rules] reads from [settings_data], truth
    tested as its [if] statements do. *)
Definition rules_of (w : world) (rules : naming_rules) : Prop :=
  ∃ v1 v2 v3,
    setting2 w "naming_rules" "no_spaces_folders" = Ok v1
    ∧ setting2 w "naming_rules" "no_spaces_files" = Ok v2
    ∧ setting2 w "naming_rules" "convert_spaces_underscores" = Ok v3
    ∧ no_spaces_folders rules = truthy v1
    ∧ no_spaces_files rules = truthy v2
    ∧ convert_spaces_underscores rules = truthy v3.

(** The record the [DEFAULT_SETTINGS] literal denotes. *)
Definition default_record : gmap string jval :=
  {[ "main_mods_folder" := JStr DEFAULT_MAIN_MOD_FOLDER;
     "generated_mods_enabled" := JBool false;
     "temp_mod_timer" := JStr "Disabled";
     "naming_rules" :=
       JObj {[ "no_spaces_folders" := JBool false;
               "no_spaces_files" := JBool false;
               "convert_spaces_underscores" := JBool false ]};
     "show_open_location_prompt" := JBool true;
     "show_save_success" := JBool true;
     "backup_options" := JObj {[ "always_backup" := JBool true ]};
     "init_py_in_scripts" := JBool true ]}.

(** What [DEFAULT_SETTINGS[k]] denotes in a given store. *)
Definition default_value (st : store) (k : string) : option jval :=
  resolve st <$> DEFAULT_SETTINGS !! k.

(** The key under which [DEFAULT_SETTINGS] holds a shared object. *)
Definition ref_key (l : loc) : string :=
  match l with
  | NamingRulesObj => "naming_rules"
  | BackupOptionsObj => "backup_options"
  end.

(** [d1 | d2] read key by key: the entries of [d1] win. *)
Definition merged_lookup (d1 d2 : gmap string jval) (k : string)
  : option jval :=
  match d1 !! k with
  | Some x => Some x
  | None => d2 !! k
  end.

(** The settings file cannot be loaded: the read fails, or its text is not
    JSON ([json.load] raises [JSONDecodeError]). *)
Definition settings_file_corrupt (f : filesystem) : Prop :=
  path_exists f SETTINGS_FILE = true
  ∧ (os_refuses f (OpRead SETTINGS_FILE) = true
     ∨ files f !! SETTINGS_FILE = None
     ∨ ∃ text, files f !! SETTINGS_FILE = Some text ∧ json_load text = None
               ∧ json_load_raises text = JSONDecodeError).

(** The exceptions the handler of [load_settings] names. *)
Definition caught_by_load_settings (e : exn) : bool :=
  match e with
  | JSONDecodeError | OSError _ => true
  | _ => false
  end.

(** The settings file is there, readable, and holds a JSON object. *)
Definition settings_file_holds (f : filesystem) (d : gmap string jval) : Prop :=
  os_refuses f (OpRead SETTINGS_FILE) = false
  ∧ ∃ text, files f !! SETTINGS_FILE = Some text
            ∧ json_load text = Some (JObj d).

(** The dialog of [safe_operation], and the one of [load_settings]. *)
Definition failed_dialog (e : exn) : event :=
  ShowError "Error" (MsgExn "Operation failed: " e).

Definition corrupt_dialog : event :=
  ShowError "Error" (Msg "Settings file is corrupted. Resetting to defaults.").

(** What the loop of [load_settings] has done once it has gone through the
    items [m], started from a fresh copy of the defaults. *)
Definition merged_into (w : world) (m : gmap string jval) (r : world) : Prop :=
  fs r = fs w ∧ trace r = trace w
  ∧ (∀ l, deref (objs r) l
          = match m !! ref_key l with
            | Some (JObj dv) => dv ∪ deref (objs w) l
            | _ => deref (objs w) l
            end)
  ∧ (∀ k, settings_data r !! k
          = match m !! k with
            | None => DEFAULT_SETTINGS !! k
            | Some v =>
                match DEFAULT_SETTINGS !! k with
                | Some (Ref l) => Some (if is_dict v then Ref l else Imm v)
                | _ => Some (Imm v)
                end
            end).


(** Both names are given: non-empty once stripped. *)
Definition names_given (rq : request) : Prop :=
  strip (folder_name_var rq) ≠ "" ∧ strip (file_name_var rq) ≠ "".

(** [settings_data["main_mods_folder"]] is the string [root]. *)
Definition main_mods_folder_is (w : world) (root : string) : Prop :=
  settings_data w !! "main_mods_folder" = Some (Imm (JStr root)).

(** The operating system refuses nothing. *)
Definition permissive : Prop := ∀ f op, os_refuses f op = false.

(** [settings_data["backup_options"].get("always_backup", True)], truth
    tested *)
Definition backup_always (w : world) : result bool :=
  match getitem (settings_data w) "backup_options" with
  | Ok s =>
      match get_method (objs w) s "always_backup" (JBool true) with
      | Ok v => Ok (truthy v)
      | Raise e => Raise e
      end
  | Raise e => Raise e
  end.

(** Where the package marker goes (specification, 4.3 step 4). *)
Definition init_py_path (full : string) (in_scripts : bool) : string :=
  if in_scripts then path_join (path_join full "Scripts") "__init__.py"
  else path_join full "__init__.py".

(** The paths of the files a list of events writes, in order. *)
Definition written_paths (es : list event) : list string :=
  omap (λ e, match e with FsWrite p _ => Some p | _ => None end) es.

(** Steps 3 to 5 of the algorithm of the specification (4.3), with the
    layout of its section 6: the events of creating the files when nothing
    fails, for target directory [full] and cleaned file name [cleaned]. *)
Definition files_plan (rq : request) (in_scripts : bool)
    (full cleaned : string) : list event :=
  let scripts := path_join full "Scripts" in
  let tuning := path_join full "Tuning" in
  ([FsWrite (path_join full "modinfo.py") (modinfo_text cleaned)]
   ++ (if all_var rq || script_var rq || in_scripts then
         (if in_scripts then [FsMakedirs scripts] else [])
         ++ [FsWrite (init_py_path full in_scripts) init_text]
       else [])
   ++ (if all_var rq || script_var rq then
         [FsMakedirs scripts;
          FsWrite (path_join scripts (cleaned ++ ".py")) script_text]
       else [])
   ++ (if all_var rq || tuning_var rq then
         [FsMakedirs tuning;
          FsWrite (path_join tuning (cleaned ++ ".xml")) tuning_text]
       else [])
   ++ (if all_var rq || package_var rq then
         [FsWrite (path_join full (cleaned ++ ".package")) package_text]
       else []))%list.

(** Step 2, then steps 3 to 5. *)
Definition creation_plan (rq : request) (in_scripts : bool)
    (full cleaned : string) : list event :=
  FsMakedirs full :: files_plan rq in_scripts full cleaned.

(** Step 7: the backup folder, then one flat copy per created file. *)
Definition backup_events (full : string) (created : list string)
  : list event :=
  let backup_folder := full ++ "_Backup" in
  FsMakedirs backup_folder
  :: ((λ fpath, FsCopy fpath (path_join backup_folder (basename fpath)))
        <$> created).

Definition backup_warning (e : exn) : event :=
  ShowWarning "Warning" (MsgExn "Could not create backup: " e).

(** The whole of a generation in which nothing fails. *)
Definition generation_plan (rq : request) (in_scripts backup prompt : bool)
    (full cleaned : string) : list event :=
  let creation := creation_plan rq in_scripts full cleaned in
  (creation
   ++ (if backup then backup_events full (written_paths creation) else [])
   ++ (if prompt then [OpenLocationPrompt full] else []))%list.

(** The events of [w'] that [w] does not have yet. *)
Definition events_since (w w' : world) : list event :=
  drop (length (trace w)) (trace w').

(** The result sequence of the specification. *)
Definition result_sequence (o : outcome) : list string :=
  match o with
  | Generated created => created
  | _ => []
  end.

(** The generation got as far as the backup step: the names are given,
    the target directory is [full], and the files [created] were created,
    which led to the world [w2]. *)
Definition reaches_backup (rq : request) (w : world) (full : string)
    (created : list string) (w2 : world) : Prop :=
  names_given rq
  ∧ ∃ cleaned_folder cleaned_file w1,
      apply_naming_rules (strip (folder_name_var rq)) true w
      = (Ok cleaned_folder, w)
      ∧ apply_naming_rules (strip (file_name_var rq)) false w
        = (Ok cleaned_file, w)
      ∧ target_folder cleaned_folder w = (Ok full, w)
      ∧ makedirs full w = (Ok tt, w1)
      ∧ create_files rq full (strip (file_name_var rq)) cleaned_file w1
        = (Ok created, w2).

(** What the last statements of [generate_mod] add: the prompt to open
    the folder, unless it is switched off. *)
Definition with_prompt (full : string) (w : world) : world :=
  if setting_flag w "show_open_location_prompt"
  then emit (OpenLocationPrompt full) w else w.

(** A file is there. *)
Definition file_in (w : world) (p : string) : Prop :=
  is_Some (files (fs w) !! p).

(** From [(l, w)] to [(l', w')] the list of created files has only been
    extended, and if all of [l] were there then all of [l'] are. *)
Definition grows (l : list string) (w : world) (l' : list string)
    (w' : world) : Prop :=
  l `prefix_of` l' ∧ (Forall (file_in w) l → Forall (file_in w') l').

(** The settings [generate_mod] reads are well formed: the three naming
    flags can be read and give [rules], the main mods folder is the string
    [root], and the backup flag can be read and is [backup]. *)
Definition settings_readable (w : world) (rules : naming_rules)
    (root : string) (backup : bool) : Prop :=
  rules_of w rules ∧ main_mods_folder_is w root ∧ backup_always w = Ok backup.

(** The event is the writing of a file. *)
Definition is_write (e : event) : bool :=
  match e with
  | FsWrite _ _ => true
  | _ => false
  end.

(** *** The main window's variables and their traces

    [ModBuilderApp.create_variables] puts a write trace on four of the
    variables.  Writing a variable runs its trace at once, except that Tcl
    keeps the trace of a variable switched off while that very trace is
    running.  The traces write other variables, so they nest; [fuel] bounds
    the nesting, and [None] means that it ran out. *)

Record form : Type := Form {
  vars : request;
  match_filename_var : bool;
  syncing : bool
}.

(** The variables as [create_variables] makes them, [self.syncing] as
    [__init__] sets it. *)
Definition initial_form : form :=
  Form (Request "" "" false false false false) false false.

Inductive traced : Type :=
| FolderNameVar
| FileNameVar
| MatchFilenameVar
| AllVar.

#[global] Instance traced_eq_dec : EqDecision traced.
Proof. solve_decision. Defined.

Definition put_folder_name (s : string) (rq : request) : request :=
  Request s (file_name_var rq) (script_var rq) (tuning_var rq)
    (package_var rq) (all_var rq).
Definition put_file_name (s : string) (rq : request) : request :=
  Request (folder_name_var rq) s (script_var rq) (tuning_var rq)
    (package_var rq) (all_var rq).
Definition put_script (b : bool) (rq : request) : request :=
  Request (folder_name_var rq) (file_name_var rq) b (tuning_var rq)
    (package_var rq) (all_var rq).
Definition put_tuning (b : bool) (rq : request) : request :=
  Request (folder_name_var rq) (file_name_var rq) (script_var rq) b
    (package_var rq) (all_var rq).
Definition put_package (b : bool) (rq : request) : request :=
  Request (folder_name_var rq) (file_name_var rq) (script_var rq)
    (tuning_var rq) b (all_var rq).
Definition put_all (b : bool) (rq : request) : request :=
  Request (folder_name_var rq) (file_name_var rq) (script_var rq)
    (tuning_var rq) (package_var rq) b.

Definition with_vars (f : request → request) (st : form) : form :=
  Form (f (vars st)) (match_filename_var st) (syncing st).
Definition put_match_filename (b : bool) (st : form) : form :=
  Form (vars st) b (syncing st).
Definition put_syncing (b : bool) (st : form) : form :=
  Form (vars st) (match_filename_var st) b.

(** The four callbacks.  Each takes the operation [var.set] of the traced
    variable it writes, which stores the value and runs the trace. *)

Definition on_folder_name_change
    (file_name_var_set : string → form → option form) (st : form)
  : option form :=
  if syncing st then Some st
  else if match_filename_var st then
    st ← file_name_var_set (folder_name_var (vars st)) (put_syncing true st);
    Some (put_syncing false st)
  else Some st.

Definition on_file_name_change
    (folder_name_var_set : string → form → option form) (st : form)
  : option form :=
  if syncing st then Some st
  else if match_filename_var st then
    st ← folder_name_var_set (file_name_var (vars st)) (put_syncing true st);
    Some (put_syncing false st)
  else Some st.

Definition on_match_filename_toggle
    (file_name_var_set : string → form → option form) (st : form)
  : option form :=
  if match_filename_var st then
    st ← file_name_var_set (folder_name_var (vars st)) (put_syncing true st);
    Some (put_syncing false st)
  else file_name_var_set "" st.

(** [script_var], [tuning_var] and [package_var] carry no trace. *)
Definition on_all_toggle (st : form) : form :=
  if all_var (vars st) then
    with_vars (put_package true)
      (with_vars (put_tuning true) (with_vars (put_script true) st))
  else
    with_vars (put_package false)
      (with_vars (put_tuning false) (with_vars (put_script false) st)).

(** Run the trace of [v], which has just been written, while the traces of
    [running] are running. *)
Fixpoint fire (fuel : nat) (running : list traced) (v : traced) (st : form)
  : option form :=
  if bool_decide (v ∈ running) then Some st
  else
    match fuel with
    | 0 => None
    | S fuel =>
        let file_name_var_set s st :=
          fire fuel (v :: running) FileNameVar (with_vars (put_file_name s) st) in
        let folder_name_var_set s st :=
          fire fuel (v :: running) FolderNameVar
            (with_vars (put_folder_name s) st) in
        match v with
        | FolderNameVar => on_folder_name_change file_name_var_set st
        | FileNameVar => on_file_name_change folder_name_var_set st
        | MatchFilenameVar => on_match_filename_toggle file_name_var_set st
        | AllVar => Some (on_all_toggle st)
        end
    end.

(** What the user does in the main window: edit one of the two entries
    (typing or pasting gives the new text), or set a check box. *)
Inductive action : Type :=
| EditFolderName (s : string)
| EditFileName (s : string)
| SetMatchFilename (b : bool)
| SetScript (b : bool)
| SetTuning (b : bool)
| SetPackage (b : bool)
| SetAll (b : bool).

Definition act (fuel : nat) (a : action) (st : form) : option form :=
  match a with
  | EditFolderName s =>
      fire fuel [] FolderNameVar (with_vars (put_folder_name s) st)
  | EditFileName s =>
      fire fuel [] FileNameVar (with_vars (put_file_name s) st)
  | SetMatchFilename b =>
      fire fuel [] MatchFilenameVar (put_match_filename b st)
  | SetScript b => Some (with_vars (put_script b) st)
  | SetTuning b => Some (with_vars (put_tuning b) st)
  | SetPackage b => Some (with_vars (put_package b) st)
  | SetAll b => fire fuel [] AllVar (with_vars (put_all b) st)
  end.

(** A session: the actions one after the other. *)
Fixpoint acts (fuel : nat) (l : list action) (st : form) : option form :=
  match l with
  | [] => Some st
  | a :: l' => st' ← act fuel a st; acts fuel l' st'
  end.

(** Between two actions no trace is running, and while "match file name
    to folder name" is ticked the two names are the same. *)
Definition settled (st : form) : Prop :=
  syncing st = false
  ∧ (match_filename_var st = true →
     file_name_var (vars st) = folder_name_var (vars st)).

(** *** The settings window and the prompts *)

(** [settings_data[k] = v] *)
Definition setitem (k : string) (v : jval) : M unit :=
  modify (λ w, set_settings_data (<[ k := Imm v ]> (settings_data w)) w).

(** [settings_data[k1][k2] = v]: item assignment needs a dictionary; on a
    shared one it changes the object itself. *)
Definition setitem2 (k1 k2 : string) (v : jval) : M unit := λ w,
  match settings_data w !! k1 with
  | None => (Raise (KeyError k1), w)
  | Some (Ref l) =>
      (Ok tt,
       set_objs (store_set (objs w) l (<[ k2 := v ]> (deref (objs w) l))) w)
  | Some (Imm (JObj d)) =>
      (Ok tt,
       set_settings_data
         (<[ k1 := Imm (JObj (<[ k2 := v ]> d)) ]> (settings_data w)) w)
  | Some (Imm _) => (Raise TypeError, w)
  end.

(** The Tk variables of [SettingsWindow], as [get()] returns them. *)
Record settings_vars : Type := SettingsVars {
  generated_mods_var : bool;
  temp_mod_timer_var : string;
  main_mods_folder_var : string;
  no_spaces_folders_var : bool;
  no_spaces_files_var : bool;
  convert_spaces_underscores_var : bool;
  always_backup_var : bool;
  init_py_in_scripts_var : bool
}.

(** [SettingsWindow.close_save_prompt(window, save_setting)]: whatever is
    raised inside is logged and dropped. *)
Definition close_save_prompt (save_setting : bool) : M unit :=
  try_except
    (when save_setting
       (setitem "show_save_success" (JBool false) ;;
        _ <- save_settings ;;
        ret tt))
    (λ _, ret tt).

(** [SettingsWindow.save_settings_local].  The success prompt waits for
    the user, who leaves it with "Don't show again" ticked or not
    ([dont_show_again]; closing the window counts as not ticked).  The
    function returns [None]; the model returns whether the prompt was
    shown. *)
Definition save_settings_local_body (v : settings_vars)
    (dont_show_again : bool) : M bool :=
  logged
    (setitem "generated_mods_enabled" (JBool (generated_mods_var v)) ;;
     setitem "temp_mod_timer" (JStr (temp_mod_timer_var v)) ;;
     setitem "main_mods_folder" (JStr (main_mods_folder_var v)) ;;
     setitem2 "naming_rules" "no_spaces_folders"
       (JBool (no_spaces_folders_var v)) ;;
     setitem2 "naming_rules" "no_spaces_files"
       (JBool (no_spaces_files_var v)) ;;
     setitem2 "naming_rules" "convert_spaces_underscores"
       (JBool (convert_spaces_underscores_var v)) ;;
     setitem2 "backup_options" "always_backup"
       (JBool (always_backup_var v)) ;;
     setitem "init_py_in_scripts" (JBool (init_py_in_scripts_var v)) ;;
     _ <- save_settings ;;
     w <- get_world ;;
     if setting_flag w "show_save_success"
     then close_save_prompt dont_show_again ;; ret true
     else ret false).

Definition save_settings_local (v : settings_vars) (dont_show_again : bool)
  : M (option bool) :=
  safe_operation (save_settings_local_body v dont_show_again).

(** [ModBuilderApp.close_prompt(window, save_setting)], which ends the
    prompt "Open file location?" *)
Definition close_prompt (save_setting : bool) : M unit :=
  try_except
    (when save_setting
       (setitem "show_open_location_prompt" (JBool false) ;;
        _ <- save_settings ;;
        ret tt))
    (λ _, ret tt).

(** *** Further notions used by the statements *)

(** [settings_data[k]] is a dictionary. *)
Definition holds_dict (w : world) (k : string) : Prop :=
  ∃ s, settings_data w !! k = Some s ∧ slot_is_dict s = true.

(** A statement [m], run in a world where [I] holds, changes the world by
    events only, all of them in [Ev], and when it returns a value the
    value is in [Q]. *)
Definition effects {A} (I : world → Prop) (Ev : event → Prop)
    (Q : A → Prop) (m : M A) : Prop :=
  ∀ w r w', I w → m w = (r, w') →
    (∃ es, w' = replay es w ∧ Forall Ev es) ∧ (∀ a, r = Ok a → Q a).

(** The events a generation can produce from a world [w0]: no
    information dialog, and the prompt only if it is switched on. *)
Definition generation_event (w0 : world) (e : event) : Prop :=
  match e with
  | ShowInfo _ _ => False
  | OpenLocationPrompt _ => setting_flag w0 "show_open_location_prompt" = true
  | _ => True
  end.

(** A shared dictionary is referred to under its own key only. *)
Definition refs_in_place (w : world) : Prop :=
  ∀ k l, settings_data w !! k = Some (Ref l) → k = ref_key l.

(** The settings have every default key: at the top level, and inside
    each of the two nested dictionaries as long as the key still holds a
    dictionary. *)
Definition has_defaults (w : world) : Prop :=
  (∀ k, is_Some (DEFAULT_SETTINGS !! k) → is_Some (setting w k))
  ∧ (∀ l dv k2, setting w (ref_key l) = Some (JObj dv) →
                is_Some (deref pristine_store l !! k2) → is_Some (dv !! k2)).

(** The assignments of [save_settings_local], lines 441 to 452. *)
Definition store_settings_vars (v : settings_vars) : M unit :=
  setitem "generated_mods_enabled" (JBool (generated_mods_var v)) ;;
  setitem "temp_mod_timer" (JStr (temp_mod_timer_var v)) ;;
  setitem "main_mods_folder" (JStr (main_mods_folder_var v)) ;;
  setitem2 "naming_rules" "no_spaces_folders"
    (JBool (no_spaces_folders_var v)) ;;
  setitem2 "naming_rules" "no_spaces_files"
    (JBool (no_spaces_files_var v)) ;;
  setitem2 "naming_rules" "convert_spaces_underscores"
    (JBool (convert_spaces_underscores_var v)) ;;
  setitem2 "backup_options" "always_backup"
    (JBool (always_backup_var v)) ;;
  setitem "init_py_in_scripts" (JBool (init_py_in_scripts_var v)).

(** What follows them, lines 454 to 478. *)
Definition save_and_confirm (dont_show_again : bool) : M bool :=
  _ <- save_settings ;;
  w <- get_world ;;
  if setting_flag w "show_save_success"
  then close_save_prompt dont_show_again ;; ret true
  else ret false.

(** The naming rules ticked in the settings window. *)
Definition rules_of_vars (v : settings_vars) : naming_rules :=
  NamingRules (no_spaces_folders_var v) (no_spaces_files_var v)
    (convert_spaces_underscores_var v).

(** What an assignment leaves as it was: the file system, the trace, the
    keys of the shared dictionaries, and under which keys they are. *)
Definition assigned (w w1 : world) : Prop :=
  fs w1 = fs w ∧ trace w1 = trace w
  ∧ refs_in_place w1
  ∧ (∀ l, settings_data w !! ref_key l = Some (Ref l) →
          settings_data w1 !! ref_key l = Some (Ref l))
  ∧ (∀ l k2, is_Some (deref (objs w) l !! k2) →
             is_Some (deref (objs w1) l !! k2)).

(** What each key denotes once [save_settings_local] has stored the
    variables of the window, [d1] and [d2] being the dictionaries of
    naming rules and backup options before. *)
Definition window_view (v : settings_vars) (d1 d2 : gmap string jval)
    (old : string → option jval) (k : string) : option jval :=
  if decide (k = "init_py_in_scripts")
  then Some (JBool (init_py_in_scripts_var v))
  else if decide (k = "backup_options")
  then Some (JObj (<[ "always_backup" := JBool (always_backup_var v) ]> d2))
  else if decide (k = "naming_rules")
  then Some (JObj
               (<[ "convert_spaces_underscores" :=
                     JBool (convert_spaces_underscores_var v) ]>
                  (<[ "no_spaces_files" := JBool (no_spaces_files_var v) ]>
                     (<[ "no_spaces_folders" :=
                           JBool (no_spaces_folders_var v) ]> d1))))
  else if decide (k = "main_mods_folder")
  then Some (JStr (main_mods_folder_var v))
  else if decide (k = "temp_mod_timer")
  then Some (JStr (temp_mod_timer_var v))
  else if decide (k = "generated_mods_enabled")
  then Some (JBool (generated_mods_var v))
  else old k.


(** The events of saving the settings: the copy to the [.bak] sibling,
    the writing of the settings file, and error dialogs. *)
Definition save_event (e : event) : Prop :=
  match e with
  | FsCopy src dst => src = SETTINGS_FILE ∧ dst = SETTINGS_FILE ++ ".bak"
  | FsWrite p _ => p = SETTINGS_FILE
  | ShowError _ _ => True
  | _ => False
  end.

(** From [w] to [w'] the events [es] have happened, and settings may have
    been assigned in between: the file system and the trace are those of
    the events, and the shared dictionaries are kept as [assigned] has
    it. *)
Definition evolved (es : list event) (w w' : world) : Prop :=
  fs w' = fs (replay es w) ∧ trace w' = (trace w ++ es)%list
  ∧ refs_in_place w'
  ∧ (∀ l, settings_data w !! ref_key l = Some (Ref l) →
          settings_data w' !! ref_key l = Some (Ref l))
  ∧ (∀ l k2, is_Some (deref (objs w) l !! k2) →
             is_Some (deref (objs w') l !! k2)).

(** The event does not change the file [p]. *)
Definition leaves (p : string) (e : event) : Prop :=
  match e with
  | FsWrite q _ => q ≠ p
  | FsCopy _ dst => dst ≠ p
  | _ => True
  end.

(** The string has no space character. *)
Definition no_space (s : string) : Prop := space ∉ list_ascii_of_string s.

(** The rule on spaces that applies to a folder name, or to a file
    name. *)
Definition removes_spaces (rules : naming_rules) (is_folder : bool) : bool :=
  if is_folder then no_spaces_folders rules else no_spaces_files rules.

(** The settings are well formed: shared dictionaries are where
    [DEFAULT_SETTINGS] has them, and no default key is missing. *)
Definition well_formed (w : world) : Prop :=
  refs_in_place w ∧ has_defaults w.

(** Whatever its outcome, the statement [m] keeps [J]. *)
Definition preserves {A} (J : world → Prop) (m : M A) : Prop :=
  ∀ w r w', J w → m w = (r, w') → J w'.

(** The files a list of events sets, laid over those [o] set before it;
    [None] when one of its copies reads a file that nothing before the
    copy has set, so that the outcome depends on what was on disk. *)
Fixpoint overlay (es : list event) (o : gmap string string)
  : option (gmap string string) :=
  match es with
  | [] => Some o
  | FsWrite p text :: es => overlay es (<[ p := text ]> o)
  | FsCopy src dst :: es =>
      match o !! src with
      | Some text => overlay es (<[ dst := text ]> o)
      | None => None
      end
  | _ :: es => overlay es o
  end.

(** The directories a list of events makes. *)
Fixpoint made_dirs (es : list event) : gset string :=
  match es with
  | [] => ∅
  | FsMakedirs p :: es => {[ p ]} ∪ made_dirs es
  | _ :: es => made_dirs es
  end.

(** The event is not a copy. *)
Definition is_copy (e : event) : bool :=
  match e with
  | FsCopy _ _ => true
  | _ => false
  end.

(** *** [center_window] *)

(** The argument of [window.geometry]: ["{width}x{height}+{x}+{y}"], or
    ["{width}x{height}"] alone. *)
Record geometry : Type := Geometry {
  geometry_width : Z;
  geometry_height : Z;
  geometry_position : option (Z * Z)
}.

(** [center_window(window, width, height)].  [screen] is what
    [winfo_screenwidth()] and [winfo_screenheight()] answer, or the
    exception Tk raises before the geometry is set; the result is the
    geometry the window is given. *)
Definition center_window (screen : result (Z * Z)) (width height : Z)
  : geometry :=
  match screen with
  | Ok (screen_width, screen_height) =>
      let x := (screen_width / 2 - width / 2)%Z in
      let y := (screen_height / 2 - height / 2)%Z in
      Geometry width height (Some (x, y))
  | Raise _ => Geometry width height None
  end.

(** The window [lo, lo + size) lies within [0, room) and its two margins
    differ by one at most. *)
Definition centred (room size lo : Z) : Prop :=
  (0 ≤ lo ∧ lo + size ≤ room ∧ -1 ≤ (room - (lo + size)) - lo ≤ 1)%Z.

(** Run in a world where [I] holds, the statement [m] carries out the
    plan [plan]: when it returns, the events of the plan have happened,
    all of them and nothing else, and the value is in [Q]; when it
    raises, only some first events of the plan have happened, not all. *)
Definition performs {A} (I : world → Prop) (plan : list event)
    (Q : A → Prop) (m : M A) : Prop :=
  ∀ w r w', I w → m w = (r, w') →
    match r with
    | Ok a => w' = replay plan w ∧ Q a
    | Raise _ => ∃ n, (n < length plan)%nat ∧ w' = replay (take n plan) w
    end.

(** When [m] raises, only some first events of [plan] have happened. *)
Definition fails_within {A} (I : world → Prop) (plan : list event)
    (m : M A) : Prop :=
  ∀ w e w', I w → m w = (Raise e, w') →
    ∃ n, (n < length plan)%nat ∧ w' = replay (take n plan) w.

(** The settings a generation reads are these. *)
Definition generation_settings (rules : naming_rules) (root : string)
    (backup in_scripts : bool) (w : world) : Prop :=
  settings_readable w rules root backup
  ∧ setting_flag w "init_py_in_scripts" = in_scripts.
(** ** Properties *)

(** *** Naming rules *)

Lemma replace_space_empty (s : string) : replace space "" s = remove_spaces s.
Proof.
  unfold remove_spaces. induction s as [|c s IH]; [done|].
  cbn [replace list_ascii_of_string]. rewrite filter_cons.
  destruct (Ascii.eqb_spec c space) as [->|Hne].
  - rewrite decide_False by (intros H; by apply H). exact IH.
  - rewrite decide_True by done. cbn. by rewrite IH.
Qed.

Lemma replace_space_underscore (s : string) :
  replace space "_" s = spaces_to_underscores s.
Proof.
  unfold spaces_to_underscores. induction s as [|c s IH]; [done|].
  cbn [replace list_ascii_of_string]. rewrite fmap_cons.
  cbn [string_of_list_ascii]. rewrite <- IH.
  by destruct (Ascii.eqb c space).
Qed.

Lemma apply_naming_rules_run (w : world) (rules : naming_rules)
    (name : string) (is_folder : bool) :
  rules_of w rules →
  apply_naming_rules name is_folder w
  = (Ok (naming_reference rules name is_folder), w).
Proof.
  intros (v1 & v2 & v3 & H1 & H2 & H3 & E1 & E2 & E3).
  unfold apply_naming_rules, bind, get_world, lift, ret.
  rewrite H1, H2, H3. unfold naming_reference.
  rewrite E1, E2, E3, <- !replace_space_empty, <- !replace_space_underscore.
  by destruct (truthy v1), (truthy v2), (truthy v3), is_folder.
Qed.

(** C2. Whatever the name, the [is_folder] flag and the three rule flags
    held by [settings_data], [apply_naming_rules] returns what the three
    steps of the reference transformation return, applied in order:
    spaces removed from a folder name under [no_spaces_folders], spaces
    removed from a file name under [no_spaces_files], then the remaining
    spaces turned into underscores under [convert_spaces_underscores].
    In particular "My Mod" as a folder name becomes "MyMod" when both
    [no_spaces_folders] and [convert_spaces_underscores] are set and
    "My_Mod" when only the latter is, and a file name is returned
    unchanged when only [no_spaces_folders] is set. *)
Theorem apply_naming_rules_reference (w : world) (rules : naming_rules)
    (name : string) (is_folder : bool) :
  rules_of w rules →
  apply_naming_rules name is_folder w
  = (Ok (naming_reference rules name is_folder), w)
  ∧ (no_spaces_folders rules = true →
     convert_spaces_underscores rules = true →
     apply_naming_rules "My Mod" true w = (Ok "MyMod", w))
  ∧ (no_spaces_folders rules = false →
     convert_spaces_underscores rules = true →
     apply_naming_rules "My Mod" true w = (Ok "My_Mod", w))
  ∧ (no_spaces_files rules = false →
     convert_spaces_underscores rules = false →
     apply_naming_rules name false w = (Ok name, w)).
Proof.
  intros Hw. split_and!.
  - by apply apply_naming_rules_run.
  - intros E1 E3. rewrite (apply_naming_rules_run w rules) by done.
    unfold naming_reference. by rewrite E1, E3.
  - intros E1 E3. rewrite (apply_naming_rules_run w rules) by done.
    unfold naming_reference. rewrite E1, E3.
    by destruct (no_spaces_files rules).
  - intros E2 E3. rewrite (apply_naming_rules_run w rules) by done.
    unfold naming_reference. by rewrite E2, E3.
Qed.

(** *** Loading the settings *)

Lemma default_record_pristine :
  resolve pristine_store <$> DEFAULT_SETTINGS = default_record.
Proof. reflexivity. Qed.

Lemma default_value_pristine (st : store) (k : string) :
  st = pristine_store → default_value st k = default_record !! k.
Proof.
  intros ->. unfold default_value.
  by rewrite <- default_record_pristine, lookup_fmap.
Qed.

Lemma DEFAULT_SETTINGS_cases (k : string) (s : slot) :
  DEFAULT_SETTINGS !! k = Some s →
  (∃ l, s = Ref l ∧ k = ref_key l) ∨ (∃ v, s = Imm v ∧ is_dict v = false).
Proof.
  unfold DEFAULT_SETTINGS. intros H.
  repeat (apply lookup_insert_Some in H as [[<- <-]|[_ H]];
          [first [ left; by eexists _ | right; by eexists _ ] |]).
  apply lookup_singleton_Some in H as [<- <-]. right; by eexists _.
Qed.

Lemma DEFAULT_SETTINGS_ref (l : loc) :
  DEFAULT_SETTINGS !! ref_key l = Some (Ref l).
Proof. by destruct l. Qed.

Lemma lookup_union_merged (d1 d2 : gmap string jval) (k : string) :
  (d1 ∪ d2) !! k = merged_lookup d1 d2 k.
Proof.
  unfold merged_lookup. rewrite lookup_union.
  by destruct (d1 !! k), (d2 !! k).
Qed.

Lemma ref_key_inj (l1 l2 : loc) : ref_key l1 = ref_key l2 → l1 = l2.
Proof. by destruct l1, l2. Qed.

Lemma deref_store_set (st : store) (l l' : loc) (d : gmap string jval) :
  deref (store_set st l d) l' = if decide (l = l') then d else deref st l'.
Proof. by destruct l, l'. Qed.

Lemma merged_into_assign (w r : world) (m : gmap string jval)
    (i : string) (x : jval) :
  m !! i = None →
  (∀ l, DEFAULT_SETTINGS !! i = Some (Ref l) → is_dict x = false) →
  merged_into w m r →
  merged_into w (<[i:=x]> m)
    (set_settings_data (<[i:=Imm x]> (settings_data r)) r).
Proof.
  intros Hi Hx (Hfs & Htr & Hst & Hsd). split_and!; [done|done|..].
  - intros l. cbn. rewrite Hst. destruct (decide (i = ref_key l)) as [->|Hne].
    + rewrite lookup_insert_eq, Hi.
      specialize (Hx l (DEFAULT_SETTINGS_ref l)). by destruct x.
    + by rewrite lookup_insert_ne.
  - intros k. cbn. destruct (decide (i = k)) as [->|Hne].
    + rewrite !lookup_insert_eq.
      destruct (DEFAULT_SETTINGS !! k) as [[v|l]|] eqn:Hd; [done| |done].
      by rewrite (Hx l).
    + rewrite !lookup_insert_ne by done. apply Hsd.
Qed.

Lemma merged_into_update (w r : world) (m : gmap string jval)
    (l : loc) (dv : gmap string jval) :
  m !! ref_key l = None →
  merged_into w m r →
  merged_into w (<[ref_key l:=JObj dv]> m)
    (set_objs (store_set (objs r) l (dv ∪ deref (objs r) l)) r).
Proof.
  intros Hi (Hfs & Htr & Hst & Hsd). split_and!; [done|done|..].
  - intros l'. cbn. rewrite deref_store_set, !Hst.
    destruct (decide (l = l')) as [<-|Hne].
    + by rewrite lookup_insert_eq, Hi.
    + rewrite lookup_insert_ne; [done|]. intros E. by apply ref_key_inj in E.
  - intros k. cbn. rewrite Hsd. destruct (decide (ref_key l = k)) as [<-|Hne].
    + by rewrite lookup_insert_eq, Hi, DEFAULT_SETTINGS_ref.
    + by rewrite lookup_insert_ne.
Qed.

Lemma merge_loop (w : world) (m : gmap string jval) :
  merged_into w m (map_fold merge_item (set_settings_data DEFAULT_SETTINGS w) m).
Proof.
  apply (map_fold_weak_ind (λ r m, merged_into w m r)).
  - repeat split; intros; by rewrite ?lookup_empty.
  - clear m. intros i x m r Hi Hr.
    pose proof Hr as (_ & _ & _ & Hsd).
    pose proof (Hsd i) as Hsi. rewrite Hi in Hsi.
    unfold merge_item. rewrite Hsi.
    destruct (DEFAULT_SETTINGS !! i) as [s|] eqn:Hd.
    + destruct (DEFAULT_SETTINGS_cases _ _ Hd) as [(l & -> & ->)|(v & -> & Hv)].
      * destruct x; try (apply merged_into_assign; [done| |done];
                         intros l' E; by rewrite DEFAULT_SETTINGS_ref in E).
        by apply merged_into_update.
      * assert (merged_into w (<[i:=x]> m)
                  (set_settings_data (<[i:=Imm x]> (settings_data r)) r)).
        { apply merged_into_assign; [done| |done]. intros l E. congruence. }
        destruct v; try done.
    + apply merged_into_assign; [done| |done]. intros l E. congruence.
Qed.

Lemma path_exists_file (f : filesystem) (p text : string) :
  files f !! p = Some text → path_exists f p = true.
Proof.
  intros H. unfold path_exists. rewrite bool_decide_eq_true_2; [done|].
  by rewrite H.
Qed.

Lemma load_settings_object (w : world) (d : gmap string jval) :
  settings_file_holds (fs w) d →
  load_settings w
  = (Ok (Some tt),
     map_fold merge_item (set_settings_data DEFAULT_SETTINGS w) d).
Proof.
  intros (Hos & text & Hf & Hj).
  unfold load_settings, safe_operation, load_settings_body.
  rewrite (path_exists_file _ _ _ Hf).
  unfold try_except, bind, read_file. rewrite Hos, Hf, Hj. done.
Qed.

Lemma load_settings_corrupt (w : world) :
  settings_file_corrupt (fs w) →
  load_settings w
  = (Ok (Some tt), set_settings_data DEFAULT_SETTINGS (emit corrupt_dialog w)).
Proof.
  intros (Hex & H).
  unfold load_settings, safe_operation, load_settings_body. rewrite Hex.
  unfold try_except, bind, read_file.
  destruct (os_refuses (fs w) (OpRead SETTINGS_FILE)) eqn:Hos; [done|].
  destruct H as [H|[H|(text & Hf & Hj & Hr)]]; [done|by rewrite H|].
  rewrite Hf, Hj. cbn. by rewrite Hr.
Qed.

Lemma load_settings_uncaught (w : world) (text : string) :
  os_refuses (fs w) (OpRead SETTINGS_FILE) = false →
  files (fs w) !! SETTINGS_FILE = Some text →
  json_load text = None →
  caught_by_load_settings (json_load_raises text) = false →
  load_settings w = (Ok None, emit (failed_dialog (json_load_raises text)) w).
Proof.
  intros Hos Hf Hj Hr.
  unfold load_settings, safe_operation, load_settings_body.
  rewrite (path_exists_file _ _ _ Hf).
  unfold try_except, bind, read_file. rewrite Hos, Hf, Hj. cbn.
  by destruct (json_load_raises text).
Qed.

Lemma load_settings_missing (w : world) :
  path_exists (fs w) SETTINGS_FILE = false →
  load_settings w = (Ok (Some tt), set_settings_data DEFAULT_SETTINGS w).
Proof.
  intros Hex.
  unfold load_settings, safe_operation, load_settings_body. by rewrite Hex.
Qed.

(** C1. When the settings file holds a JSON object, [load_settings] ends
    without an error and leaves in [settings_data] the defaults merged one
    level deep with the loaded values: every key of the default schema is
    there; for a key of the file, when the default and the loaded value are
    both dictionaries the result is the dictionary in which each loaded
    entry overrides the default entry of the same key and the other default
    entries stay, otherwise the loaded value stands alone (this covers
    the keys the defaults do not have); a key the file does not have keeps
    its default value. *)
Theorem load_settings_merges_defaults (w : world) (d : gmap string jval) :
  settings_file_holds (fs w) d →
  ∃ w', load_settings w = (Ok (Some tt), w')
    ∧ fs w' = fs w ∧ trace w' = trace w
    ∧ (∀ k, is_Some (DEFAULT_SETTINGS !! k) → is_Some (setting w' k))
    ∧ (∀ k v, d !! k = Some v →
         match default_value (objs w) k, v with
         | Some (JObj dd), JObj dv =>
             ∃ m, setting w' k = Some (JObj m)
                  ∧ ∀ k2, m !! k2 = merged_lookup dv dd k2
         | _, _ => setting w' k = Some v
         end)
    ∧ (∀ k, d !! k = None → setting w' k = default_value (objs w) k)
    ∧ (objs w = pristine_store →
       ∀ k, default_value (objs w) k = default_record !! k).
Proof.
  intros Hf. eexists. split; [by apply load_settings_object|].
  destruct (merge_loop w d) as (Hfs & Htr & Hst & Hsd).
  set (w' := map_fold merge_item _ d) in *.
  split_and!; [done|done|..|by intros E k; apply default_value_pristine].
  - intros k [s Hs]. unfold setting. rewrite Hsd, Hs.
    destruct (d !! k); [by destruct s|done].
  - intros k v Hv. unfold setting, default_value. rewrite Hsd, Hv.
    destruct (DEFAULT_SETTINGS !! k) as [s|] eqn:Hd; [|by destruct v].
    destruct (DEFAULT_SETTINGS_cases _ _ Hd) as [(l & -> & ->)|(x & -> & Hx)].
    + cbn. destruct v; try done. cbn. exists (d0 ∪ deref (objs w) l).
      split; [|apply lookup_union_merged].
      by rewrite Hst, Hv.
    + cbn. destruct x; try done; by destruct v.
  - intros k Hk. unfold setting, default_value. rewrite Hsd, Hk.
    destruct (DEFAULT_SETTINGS !! k) as [s|] eqn:Hd; [|done].
    destruct (DEFAULT_SETTINGS_cases _ _ Hd) as [(l & -> & ->)|(x & -> & Hx)];
      [|done].
    cbn. by rewrite Hst, Hk.
Qed.

(** C6, where the code departs from it.  The handler of [load_settings]
    names [JSONDecodeError] and [OSError] only.  When [json.load] raises
    anything else on the settings file, as it does with
    [UnicodeDecodeError] on a file that is not UTF-8, the file is not
    treated as corrupted: the dialog "Settings file is corrupted" is not
    shown, [settings_data] is not assigned, and [safe_operation] reports
    "Operation failed" and returns [None]. *)
Theorem load_settings_misses_decode_errors (w : world) (text : string) :
  os_refuses (fs w) (OpRead SETTINGS_FILE) = false →
  files (fs w) !! SETTINGS_FILE = Some text →
  json_load text = None →
  caught_by_load_settings (json_load_raises text) = false →
  ∃ w', load_settings w = (Ok None, w')
    ∧ events_since w w' = [failed_dialog (json_load_raises text)]
    ∧ (corrupt_dialog ∉ events_since w w')
    ∧ settings_data w' = settings_data w
    ∧ objs w' = objs w
    ∧ fs w' = fs w.
Proof.
  intros Hos Hf Hj Hr. eexists.
  split; [by apply load_settings_uncaught|].
  assert (events_since w (emit (failed_dialog (json_load_raises text)) w)
          = [failed_dialog (json_load_raises text)]) as Hev.
  { unfold events_since. cbn. by rewrite drop_app_length. }
  rewrite Hev. split_and!; try done.
  intros Hin. apply elem_of_cons in Hin as [Hin|Hin]; [done|].
  by apply elem_of_nil in Hin.
Qed.

(** X25. Where the code does what C6 says: when the settings file cannot
    be read or [json.load] rejects its text as invalid JSON,
    [load_settings] raises nothing: it shows the "Settings file is
    corrupted" dialog and leaves in [settings_data] a copy of
    [DEFAULT_SETTINGS], touching neither the shared dictionaries nor the
    file system.  As long as the shared dictionaries hold what the literal
    gave them, this is exactly the default record. *)
Theorem load_settings_corrupt_gives_defaults (w : world) :
  settings_file_corrupt (fs w) →
  ∃ w', load_settings w = (Ok (Some tt), w')
    ∧ settings_data w' = DEFAULT_SETTINGS
    ∧ objs w' = objs w
    ∧ fs w' = fs w
    ∧ trace w' = (trace w ++ [corrupt_dialog])%list
    ∧ (objs w = pristine_store → settings_json w' = JObj default_record).
Proof.
  intros H. eexists. split; [by apply load_settings_corrupt|].
  split_and!; try done.
  intros E. unfold settings_json. cbn. by rewrite E, default_record_pristine.
Qed.

(** C10. [load_settings] copies only the top level of [DEFAULT_SETTINGS]:
    after a load whose file overrides an entry of a nested dictionary,
    [settings_data] still refers to the dictionary object of
    [DEFAULT_SETTINGS], and that object itself holds the loaded entry.  So
    a later load that finds the settings file missing or corrupt returns
    the loaded entry again; when the entry differs from the one in the
    literal, what that later load returns is not the pristine default. *)
Theorem load_settings_shares_nested_defaults (w : world)
    (d dv : gmap string jval) (l : loc) (k2 : string) (x : jval)
    (f2 : filesystem) :
  settings_file_holds (fs w) d →
  d !! ref_key l = Some (JObj dv) →
  dv !! k2 = Some x →
  path_exists f2 SETTINGS_FILE = false ∨ settings_file_corrupt f2 →
  ∃ w1 w2 m,
    load_settings w = (Ok (Some tt), w1)
    ∧ DEFAULT_SETTINGS !! ref_key l = Some (Ref l)
    ∧ settings_data w1 !! ref_key l = Some (Ref l)
    ∧ deref (objs w1) l !! k2 = Some x
    ∧ load_settings (set_fs f2 w1) = (Ok (Some tt), w2)
    ∧ setting w2 (ref_key l) = Some (JObj m)
    ∧ default_value (objs w2) (ref_key l) = Some (JObj m)
    ∧ m !! k2 = Some x
    ∧ (∀ m0, default_record !! ref_key l = Some (JObj m0) →
             m0 !! k2 ≠ Some x →
             setting w2 (ref_key l) ≠ default_record !! ref_key l).
Proof.
  intros Hf Hd Hx H2.
  destruct (merge_loop w d) as (Hfs & Htr & Hst & Hsd).
  set (w1 := map_fold merge_item _ d) in *.
  assert (Hobj : deref (objs w1) l = dv ∪ deref (objs w) l)
    by (by rewrite Hst, Hd).
  assert (Hk2 : deref (objs w1) l !! k2 = Some x).
  { rewrite Hobj, lookup_union_merged. unfold merged_lookup. by rewrite Hx. }
  assert (∃ w2, load_settings (set_fs f2 w1) = (Ok (Some tt), w2)
                ∧ settings_data w2 = DEFAULT_SETTINGS
                ∧ objs w2 = objs w1) as (w2 & Hl2 & Hs2 & Ho2).
  { destruct H2 as [H2|H2].
    - eexists. split; [by apply load_settings_missing|done].
    - eexists. split; [by apply load_settings_corrupt|done]. }
  exists w1, w2, (deref (objs w1) l).
  split_and!; try done.
  - by apply load_settings_object.
  - apply DEFAULT_SETTINGS_ref.
  - by rewrite Hsd, Hd, DEFAULT_SETTINGS_ref.
  - unfold setting. by rewrite Hs2, DEFAULT_SETTINGS_ref, Ho2.
  - unfold default_value. by rewrite DEFAULT_SETTINGS_ref, Ho2.
  - intros m0 Hm0 Hne E. apply Hne.
    unfold setting in E. rewrite Hs2, DEFAULT_SETTINGS_ref, Hm0, Ho2 in E.
    cbn in E. injection E as <-. done.
Qed.

(** *** Saving the settings *)



(** *** Generating a mod *)

Lemma bind_Ok {A B} (m : M A) (k : A → M B) (w w1 : world) (a : A) :
  m w = (Ok a, w1) → bind m k w = k a w1.
Proof. intros H. unfold bind. by rewrite H. Qed.

Lemma bind_Raise {A B} (m : M A) (k : A → M B) (w w1 : world) (e : exn) :
  m w = (Raise e, w1) → bind m k w = (Raise e, w1).
Proof. intros H. unfold bind. by rewrite H. Qed.

Lemma bind_Ok_inv {A B} (m : M A) (k : A → M B) (w w' : world) (b : B) :
  bind m k w = (Ok b, w') → ∃ a w1, m w = (Ok a, w1) ∧ k a w1 = (Ok b, w').
Proof.
  unfold bind. destruct (m w) as [[a|e] w1]; [|done]. intros H. by exists a, w1.
Qed.

Lemma logged_eq {A} (m : M A) (w : world) : logged m w = m w.
Proof. unfold logged, try_except, raise. by destruct (m w) as [[a|e] w1]. Qed.

Lemma replay_app (es1 es2 : list event) (w : world) :
  replay (es1 ++ es2) w = replay es2 (replay es1 w).
Proof. apply foldl_app. Qed.

Lemma replay_snoc (es : list event) (e : event) (w : world) :
  replay (es ++ [e]) w = emit e (replay es w).
Proof. by rewrite replay_app. Qed.

Lemma replay_cons (e : event) (es : list event) (w : world) :
  replay (e :: es) w = replay es (emit e w).
Proof. done. Qed.

Lemma replay_trace (es : list event) (w : world) :
  trace (replay es w) = (trace w ++ es)%list.
Proof.
  revert w. induction es as [|e es IH]; intros w.
  - cbn. by rewrite app_nil_r.
  - rewrite replay_cons, IH. cbn. by rewrite <- app_assoc.
Qed.

Lemma replay_settings (es : list event) (w : world) :
  settings_data (replay es w) = settings_data w ∧ objs (replay es w) = objs w.
Proof.
  revert w. induction es as [|e es IH]; intros w; [done|].
  rewrite replay_cons. destruct (IH (emit e w)) as [-> ->]. done.
Qed.

Lemma events_since_replay (es : list event) (w : world) :
  events_since w (replay es w) = es.
Proof. unfold events_since. by rewrite replay_trace, drop_app_length. Qed.

(** Files are never removed. *)
Lemma emit_keeps_file (e : event) (w : world) (p : string) :
  is_Some (files (fs w) !! p) → is_Some (files (fs (emit e w)) !! p).
Proof.
  intros Hp. destruct e; cbn; try done.
  - rewrite lookup_insert. by case_decide.
  - destruct (files (fs w) !! src); [|done]. cbn.
    rewrite lookup_insert. by case_decide.
Qed.

Lemma replay_keeps_file (es : list event) (w : world) (p : string) :
  is_Some (files (fs w) !! p) → is_Some (files (fs (replay es w)) !! p).
Proof.
  revert w. induction es as [|e es IH]; intros w Hp; [done|].
  rewrite replay_cons. by apply IH, emit_keeps_file.
Qed.

Lemma replay_written (es : list event) (w : world) (p : string) :
  p ∈ written_paths es → is_Some (files (fs (replay es w)) !! p).
Proof.
  revert w. induction es as [|e es IH]; intros w Hp; [by inversion Hp|].
  rewrite replay_cons. unfold written_paths in Hp. cbn in Hp.
  destruct e; try by apply IH.
  cbn in Hp. apply elem_of_cons in Hp as [->|Hp]; [|by apply IH].
  apply replay_keeps_file. cbn. by rewrite lookup_insert_eq.
Qed.

Lemma rules_of_frame (w w' : world) (rules : naming_rules) :
  settings_data w' = settings_data w → objs w' = objs w →
  rules_of w rules → rules_of w' rules.
Proof.
  intros Hs Ho (v1 & v2 & v3 & H). exists v1, v2, v3.
  unfold setting2 in *. by rewrite Hs, Ho.
Qed.

Lemma rules_of_emit (e : event) (w : world) (rules : naming_rules) :
  rules_of w rules → rules_of (emit e w) rules.
Proof. by apply rules_of_frame. Qed.

Section Permissive.

Hypothesis Hperm : permissive.
Variable rules : naming_rules.

Lemma makedirs_ok (p : string) (w : world) :
  makedirs p w = (Ok tt, emit (FsMakedirs p) w).
Proof. unfold makedirs. by rewrite Hperm. Qed.

Lemma write_file_ok (p text : string) (w : world) :
  write_file p text w = (Ok tt, emit (FsWrite p text) w).
Proof. unfold write_file. by rewrite Hperm. Qed.

Lemma copyfile_ok (src dst : string) (w : world) :
  is_Some (files (fs w) !! src) →
  copyfile src dst w = (Ok tt, emit (FsCopy src dst) w).
Proof. intros [t Ht]. unfold copyfile. by rewrite Hperm, Ht. Qed.

Lemma create_modinfo_py_ok (full cleaned : string) (l : list string)
    (w : world) :
  create_modinfo_py full cleaned l w
  = (Ok (l ++ [path_join full "modinfo.py"])%list,
     emit (FsWrite (path_join full "modinfo.py") (modinfo_text cleaned)) w).
Proof.
  unfold create_modinfo_py. rewrite logged_eq. unfold bind.
  by rewrite write_file_ok.
Qed.

Lemma create_init_py_ok (full : string) (l : list string) (w : world) :
  let in_scripts := setting_flag w "init_py_in_scripts" in
  create_init_py full l w
  = (Ok (l ++ [init_py_path full in_scripts])%list,
     emit (FsWrite (init_py_path full in_scripts) init_text)
       (if in_scripts then emit (FsMakedirs (path_join full "Scripts")) w
        else w)).
Proof.
  intros in_scripts. unfold create_init_py. rewrite logged_eq.
  unfold bind, get_world. fold in_scripts. unfold init_py_path.
  destruct in_scripts.
  - unfold bind. rewrite makedirs_ok. unfold ret. by rewrite write_file_ok.
  - unfold ret. by rewrite write_file_ok.
Qed.

Lemma create_script_ok (full file_name : string) (l : list string)
    (w : world) :
  rules_of w rules →
  let scripts := path_join full "Scripts" in
  let p := path_join scripts (naming_reference rules file_name false ++ ".py") in
  create_script full file_name l w
  = (Ok (l ++ [p])%list, emit (FsWrite p script_text) (emit (FsMakedirs scripts) w)).
Proof.
  intros Hr scripts p. unfold create_script. rewrite logged_eq.
  unfold bind. rewrite makedirs_ok.
  rewrite (apply_naming_rules_run _ rules) by by apply rules_of_emit.
  by rewrite write_file_ok.
Qed.

Lemma create_tuning_ok (full file_name : string) (l : list string)
    (w : world) :
  rules_of w rules →
  let tuning := path_join full "Tuning" in
  let p := path_join tuning (naming_reference rules file_name false ++ ".xml") in
  create_tuning full file_name l w
  = (Ok (l ++ [p])%list, emit (FsWrite p tuning_text) (emit (FsMakedirs tuning) w)).
Proof.
  intros Hr tuning p. unfold create_tuning. rewrite logged_eq.
  unfold bind. rewrite makedirs_ok.
  rewrite (apply_naming_rules_run _ rules) by by apply rules_of_emit.
  by rewrite write_file_ok.
Qed.

Lemma create_package_ok (full file_name : string) (l : list string)
    (w : world) :
  rules_of w rules →
  let p :=
    path_join full (naming_reference rules file_name false ++ ".package") in
  create_package full file_name l w
  = (Ok (l ++ [p])%list, emit (FsWrite p package_text) w).
Proof.
  intros Hr p. unfold create_package. rewrite logged_eq.
  unfold bind. rewrite (apply_naming_rules_run _ rules) by done.
  by rewrite write_file_ok.
Qed.

Lemma create_files_ok (rq : request) (full file_name : string) (w : world) :
  rules_of w rules →
  let cleaned := naming_reference rules file_name false in
  let plan := files_plan rq (setting_flag w "init_py_in_scripts") full cleaned in
  create_files rq full file_name cleaned w
  = (Ok (written_paths plan), replay plan w).
Proof.
  intros Hr cleaned plan. unfold create_files.
  unfold bind at 1. rewrite create_modinfo_py_ok.
  unfold bind at 1, get_world.
  change (setting_flag (emit _ w) ?k) with (setting_flag w k).
  subst plan. unfold files_plan.
  destruct rq as [fo fi sv tv pv av].
  cbn [all_var script_var tuning_var package_var].
  destruct (setting_flag w "init_py_in_scripts") eqn:Hflag;
    destruct av, sv, tv, pv; cbn [orb];
    repeat (first [ rewrite create_init_py_ok; cbv zeta;
                    change (setting_flag (emit _ w) ?k) with (setting_flag w k);
                    rewrite Hflag
                  | rewrite create_script_ok
                      by (repeat apply rules_of_emit; exact Hr); cbv zeta
                  | rewrite create_tuning_ok
                      by (repeat apply rules_of_emit; exact Hr); cbv zeta
                  | rewrite create_package_ok
                      by (repeat apply rules_of_emit; exact Hr); cbv zeta
                  | unfold bind at 1
                  | unfold ret at 1 ]);
    reflexivity.
Qed.

Lemma backup_loop_ok (dst : string → string) (l : list string) (w : world) :
  Forall (file_in w) l →
  for_each l (λ fpath, copyfile fpath (dst fpath)) w
  = (Ok tt, replay ((λ fpath, FsCopy fpath (dst fpath)) <$> l) w).
Proof.
  revert w. induction l as [|x l IH]; intros w Hl; [done|].
  apply Forall_cons in Hl as [Hx Hl].
  cbn [for_each]. unfold bind. rewrite copyfile_ok by done.
  rewrite fmap_cons, replay_cons. apply IH.
  eapply Forall_impl; [exact Hl|]. intros q. apply emit_keeps_file.
Qed.

Lemma backup_files_ok (full : string) (created : list string) (w : world) :
  backup_always w = Ok true →
  Forall (file_in w) created →
  backup_files full created w
  = (Ok tt, replay (backup_events full created) w).
Proof.
  intros Hb Hl. unfold backup_always in Hb.
  unfold backup_files, bind, get_world, lift.
  destruct (getitem (settings_data w) "backup_options") as [s|]; [|done].
  destruct (get_method (objs w) s "always_backup" (JBool true)) as [v|];
    [|done].
  injection Hb as ->. unfold when, try_except, bind.
  rewrite makedirs_ok, backup_loop_ok; [done|].
  eapply Forall_impl; [exact Hl|]. intros q. apply emit_keeps_file.
Qed.

End Permissive.

Lemma copyfile_cases (src dst : string) (w : world) :
  copyfile src dst w = (Ok tt, emit (FsCopy src dst) w)
  ∨ copyfile src dst w = (Raise (OSError (OpCopy src dst)), w).
Proof.
  unfold copyfile. destruct (os_refuses (fs w) (OpCopy src dst)); [by right|].
  destruct (files (fs w) !! src); [by left|by right].
Qed.

(** The backup loop under any operating system: all the copies, or the
    copies before the first failure. *)
Lemma backup_loop_cases (dst : string → string) (l : list string)
    (w : world) :
  let copies := (λ fpath, FsCopy fpath (dst fpath)) <$> l in
  let loop := for_each l (λ fpath, copyfile fpath (dst fpath)) in
  loop w = (Ok tt, replay copies w)
  ∨ ∃ e n, n < length copies ∧ loop w = (Raise e, replay (take n copies) w).
Proof.
  revert w. induction l as [|x l IH]; intros w; [by left|].
  cbn zeta in *. cbn [for_each]. rewrite fmap_cons. unfold bind.
  destruct (copyfile_cases x (dst x) w) as [->| ->].
  - destruct (IH (emit (FsCopy x (dst x)) w)) as [->|(e & n & Hn & ->)].
    + by left.
    + right. exists e, (S n). split; [cbn; lia|done].
  - right. exists (OSError (OpCopy x (dst x))), 0. split; [cbn; lia|done].
Qed.

Lemma backup_files_cases (full : string) (created : list string) (w : world) :
  backup_always w = Ok true →
  ∃ w', backup_files full created w = (Ok tt, w')
    ∧ (w' = replay (backup_events full created) w
       ∨ ∃ e n, n < length (backup_events full created)
           ∧ w' = emit (backup_warning e)
                    (replay (take n (backup_events full created)) w)).
Proof.
  intros Hb. unfold backup_always in Hb.
  unfold backup_files, bind, get_world, lift.
  destruct (getitem (settings_data w) "backup_options") as [s|]; [|done].
  destruct (get_method (objs w) s "always_backup" (JBool true)) as [v|];
    [|done].
  injection Hb as ->. unfold when, try_except, bind, makedirs.
  destruct (os_refuses (fs w) (OpMakedirs (full ++ "_Backup"))).
  { eexists. split; [done|]. right.
    exists (OSError (OpMakedirs (full ++ "_Backup"))), 0.
    split; [cbn; lia|done]. }
  destruct (backup_loop_cases
              (λ fpath, path_join (full ++ "_Backup") (basename fpath))
              created (emit (FsMakedirs (full ++ "_Backup")) w))
    as [H|(e & n & Hn & H)]; cbv zeta in H; rewrite H.
  - eexists. split; [done|]. by left.
  - eexists. split; [done|]. right. exists e, (S n).
    split; [|done]. unfold backup_events. cbn. lia.
Qed.

Lemma backup_files_off (full : string) (created : list string) (w : world) :
  backup_always w = Ok false → backup_files full created w = (Ok tt, w).
Proof.
  intros Hb. unfold backup_always in Hb.
  unfold backup_files, bind, get_world, lift.
  destruct (getitem (settings_data w) "backup_options") as [s|]; [|done].
  destruct (get_method (objs w) s "always_backup" (JBool true)) as [v|];
    [|done].
  injection Hb as ->. done.
Qed.

Lemma names_given_eqb (rq : request) :
  names_given rq →
  String.eqb (strip (folder_name_var rq)) "" = false
  ∧ String.eqb (strip (file_name_var rq)) "" = false.
Proof. intros [H1 H2]. by rewrite !String.eqb_neq. Qed.

Lemma generate_mod_after_creation (rq : request) (w w2 w3 : world)
    (full : string) (created : list string) :
  reaches_backup rq w full created w2 →
  created ≠ [] →
  backup_files full created w2 = (Ok tt, w3) →
  generate_mod rq w = (Ok (Some (Generated created)), with_prompt full w3).
Proof.
  intros (Hn & cfo & cfi & w1 & H1 & H2 & H3 & H4 & H5) Hne Hb.
  apply names_given_eqb in Hn as [E1 E2].
  unfold generate_mod, safe_operation. rewrite logged_eq.
  unfold generate_mod_body. rewrite E1, E2.
  rewrite (bind_Ok _ _ _ _ _ H1), (bind_Ok _ _ _ _ _ H2),
    (bind_Ok _ _ _ _ _ H3), (bind_Ok _ _ _ _ _ H4), (bind_Ok _ _ _ _ _ H5),
    (bind_Ok _ _ _ _ _ Hb).
  destruct created as [|c created]; [done|].
  unfold bind, get_world, with_prompt, when, open_file_location_prompt, modify.
  by destruct (setting_flag w3 "show_open_location_prompt").
Qed.

(** *** Creation under any operating system *)

Lemma makedirs_inv (p : string) (w w' : world) (u : unit) :
  makedirs p w = (Ok u, w') → w' = emit (FsMakedirs p) w.
Proof.
  unfold makedirs. destruct (os_refuses (fs w) (OpMakedirs p)); [done|].
  by intros [= _ <-].
Qed.

Lemma write_file_inv (p text : string) (w w' : world) (u : unit) :
  write_file p text w = (Ok u, w') → w' = emit (FsWrite p text) w.
Proof.
  unfold write_file. destruct (os_refuses (fs w) (OpWrite p)); [done|].
  by intros [= _ <-].
Qed.

Lemma apply_naming_rules_world (name : string) (is_folder : bool)
    (w w' : world) (r : result string) :
  apply_naming_rules name is_folder w = (r, w') → w' = w.
Proof.
  unfold apply_naming_rules, bind, get_world, lift, ret.
  repeat match goal with
         | |- context [setting2 w ?a ?b] => destruct (setting2 w a b)
         end; by intros [= _ <-].
Qed.

Lemma grows_refl (l : list string) (w : world) : grows l w l w.
Proof. by split. Qed.

Lemma grows_trans (l1 l2 l3 : list string) (w1 w2 w3 : world) :
  grows l1 w1 l2 w2 → grows l2 w2 l3 w3 → grows l1 w1 l3 w3.
Proof. intros [P1 F1] [P2 F2]. split; [by etrans|auto]. Qed.

Lemma grows_write (l : list string) (w w1 : world) (p text : string) :
  (∀ q, file_in w q → file_in w1 q) →
  grows l w (l ++ [p]) (emit (FsWrite p text) w1).
Proof.
  intros Hk. split; [by apply prefix_app_r|]. intros Hl.
  apply Forall_app. split.
  - eapply Forall_impl; [exact Hl|]. intros q Hq.
    by apply emit_keeps_file, Hk.
  - apply Forall_singleton. unfold file_in. cbn. by rewrite lookup_insert_eq.
Qed.

Lemma create_modinfo_py_inv (full cleaned : string) (l l' : list string)
    (w w' : world) :
  create_modinfo_py full cleaned l w = (Ok l', w') →
  l' = (l ++ [path_join full "modinfo.py"])%list
  ∧ w' = emit (FsWrite (path_join full "modinfo.py") (modinfo_text cleaned)) w.
Proof.
  unfold create_modinfo_py. rewrite logged_eq. intros H.
  apply bind_Ok_inv in H as (u & w1 & H1 & H).
  apply write_file_inv in H1 as ->. by injection H as <- <-.
Qed.

Lemma create_init_py_grows (full : string) (l l' : list string)
    (w w' : world) :
  create_init_py full l w = (Ok l', w') → grows l w l' w'.
Proof.
  unfold create_init_py. rewrite logged_eq. intros H.
  apply bind_Ok_inv in H as (w0 & w1 & [= <- <-] & H).
  apply bind_Ok_inv in H as (p & w1 & H1 & H).
  apply bind_Ok_inv in H as (u & w2 & H2 & [= <- <-]).
  apply write_file_inv in H2 as ->. apply grows_write.
  destruct (setting_flag w "init_py_in_scripts").
  - apply bind_Ok_inv in H1 as (u' & w3 & H3 & [= _ <-]).
    apply makedirs_inv in H3 as ->. intros q. apply emit_keeps_file.
  - by injection H1 as _ <-.
Qed.

Lemma create_script_grows (full file_name : string) (l l' : list string)
    (w w' : world) :
  create_script full file_name l w = (Ok l', w') → grows l w l' w'.
Proof.
  unfold create_script. rewrite logged_eq. intros H.
  apply bind_Ok_inv in H as (u & w1 & H1 & H).
  apply bind_Ok_inv in H as (n & w2 & H2 & H).
  apply bind_Ok_inv in H as (u' & w3 & H3 & [= <- <-]).
  apply makedirs_inv in H1 as ->. apply apply_naming_rules_world in H2 as ->.
  apply write_file_inv in H3 as ->. apply grows_write.
  intros q. apply emit_keeps_file.
Qed.

Lemma create_tuning_grows (full file_name : string) (l l' : list string)
    (w w' : world) :
  create_tuning full file_name l w = (Ok l', w') → grows l w l' w'.
Proof.
  unfold create_tuning. rewrite logged_eq. intros H.
  apply bind_Ok_inv in H as (u & w1 & H1 & H).
  apply bind_Ok_inv in H as (n & w2 & H2 & H).
  apply bind_Ok_inv in H as (u' & w3 & H3 & [= <- <-]).
  apply makedirs_inv in H1 as ->. apply apply_naming_rules_world in H2 as ->.
  apply write_file_inv in H3 as ->. apply grows_write.
  intros q. apply emit_keeps_file.
Qed.

Lemma create_package_grows (full file_name : string) (l l' : list string)
    (w w' : world) :
  create_package full file_name l w = (Ok l', w') → grows l w l' w'.
Proof.
  unfold create_package. rewrite logged_eq. intros H.
  apply bind_Ok_inv in H as (n & w2 & H2 & H).
  apply bind_Ok_inv in H as (u' & w3 & H3 & [= <- <-]).
  apply apply_naming_rules_world in H2 as ->.
  apply write_file_inv in H3 as ->. by apply grows_write.
Qed.

Lemma optional_grows (b : bool) (step : list string → M (list string))
    (l l' : list string) (w w' : world) :
  (∀ l l' w w', step l w = (Ok l', w') → grows l w l' w') →
  (if b then step l else ret l) w = (Ok l', w') → grows l w l' w'.
Proof.
  intros Hs. destruct b; [apply Hs|]. intros [= <- <-]. apply grows_refl.
Qed.

(** Whenever the creation statements end without an exception, the list
    of created files starts with the path of [modinfo.py], and all its
    files are there. *)
Lemma create_files_inv (rq : request) (full file_name cleaned : string)
    (created : list string) (w w' : world) :
  create_files rq full file_name cleaned w = (Ok created, w') →
  (∃ rest, created = path_join full "modinfo.py" :: rest)
  ∧ Forall (file_in w') created.
Proof.
  unfold create_files. intros H.
  apply bind_Ok_inv in H as (l1 & w1 & H1 & H).
  apply create_modinfo_py_inv in H1 as [-> ->].
  apply bind_Ok_inv in H as (w0 & w1 & [= <- <-] & H).
  apply bind_Ok_inv in H as (l2 & w2 & H2 & H).
  apply optional_grows in H2; [|apply create_init_py_grows].
  assert (grows l2 w2 created w') as H3.
  { destruct (all_var rq).
    - apply bind_Ok_inv in H as (l3 & w3 & Hs & H).
      apply bind_Ok_inv in H as (l4 & w4 & Ht & H).
      eapply grows_trans; [by eapply create_script_grows|].
      eapply grows_trans; [by eapply create_tuning_grows|].
      by eapply create_package_grows.
    - apply bind_Ok_inv in H as (l3 & w3 & Hs & H).
      apply bind_Ok_inv in H as (l4 & w4 & Ht & H).
      apply optional_grows in Hs; [|apply create_script_grows].
      apply optional_grows in Ht; [|apply create_tuning_grows].
      apply optional_grows in H; [|apply create_package_grows].
      eapply grows_trans; [done|]. by eapply grows_trans. }
  destruct (grows_trans _ _ _ _ _ _ H2 H3) as [[k ->] HF]. split.
  - by exists k.
  - apply HF, Forall_singleton. unfold file_in. cbn.
    by rewrite lookup_insert_eq.
Qed.

(** *** A generation in which nothing fails *)

Lemma setting_flag_frame (w w' : world) (k : string) :
  settings_data w' = settings_data w → objs w' = objs w →
  setting_flag w' k = setting_flag w k.
Proof. intros Hs Ho. unfold setting_flag. by rewrite Hs, Ho. Qed.

Lemma backup_always_frame (w w' : world) :
  settings_data w' = settings_data w → objs w' = objs w →
  backup_always w' = backup_always w.
Proof. intros Hs Ho. unfold backup_always. by rewrite Hs, Ho. Qed.

Lemma target_folder_run (w : world) (root cleaned_folder : string) :
  main_mods_folder_is w root →
  target_folder cleaned_folder w = (Ok (path_join root cleaned_folder), w).
Proof.
  intros H. unfold target_folder, bind, get_world, lift, getitem.
  by rewrite H.
Qed.

Lemma written_paths_creation_plan (rq : request) (in_scripts : bool)
    (full cleaned : string) :
  written_paths (creation_plan rq in_scripts full cleaned)
  = path_join full "modinfo.py"
    :: written_paths
         (drop 1 (files_plan rq in_scripts full cleaned)).
Proof. done. Qed.

Lemma reaches_backup_permissive (rq : request) (w : world)
    (rules : naming_rules) (root : string) :
  permissive → names_given rq → rules_of w rules →
  main_mods_folder_is w root →
  let full := path_join root
                (naming_reference rules (strip (folder_name_var rq)) true) in
  let cleaned := naming_reference rules (strip (file_name_var rq)) false in
  let plan := creation_plan rq (setting_flag w "init_py_in_scripts")
                full cleaned in
  reaches_backup rq w full (written_paths plan) (replay plan w).
Proof.
  intros Hperm Hn Hr Hroot full cleaned plan. split; [done|].
  eexists _, _, _. split_and!.
  - by apply apply_naming_rules_run.
  - by apply apply_naming_rules_run.
  - by apply target_folder_run.
  - by apply makedirs_ok.
  - by rewrite (create_files_ok Hperm rules) by by apply rules_of_emit.
Qed.

Lemma generate_mod_permissive (rq : request) (w : world)
    (rules : naming_rules) (root : string) (backup : bool) :
  permissive → names_given rq → settings_readable w rules root backup →
  let full := path_join root
                (naming_reference rules (strip (folder_name_var rq)) true) in
  let cleaned := naming_reference rules (strip (file_name_var rq)) false in
  let in_scripts := setting_flag w "init_py_in_scripts" in
  let prompt := setting_flag w "show_open_location_prompt" in
  generate_mod rq w
  = (Ok (Some (Generated
                 (written_paths (creation_plan rq in_scripts full cleaned)))),
     replay (generation_plan rq in_scripts backup prompt full cleaned) w).
Proof.
  intros Hperm Hn (Hr & Hroot & Hb) full cleaned in_scripts prompt.
  pose proof (reaches_backup_permissive rq w rules root Hperm Hn Hr Hroot)
    as Hreach. cbv zeta in Hreach. fold full cleaned in_scripts in Hreach.
  set (plan := creation_plan rq in_scripts full cleaned) in *.
  destruct (replay_settings plan w) as [Hs2 Ho2].
  assert (Hb2 : backup_always (replay plan w) = Ok backup)
    by (by rewrite (backup_always_frame w)).
  assert (Hne : written_paths plan ≠ [])
    by (subst plan; by rewrite written_paths_creation_plan).
  unfold generation_plan. fold plan. destruct backup.
  - rewrite (generate_mod_after_creation rq w _
               (replay (backup_events full (written_paths plan))
                  (replay plan w)) full _ Hreach Hne).
    2:{ apply backup_files_ok; [done|done|].
        apply Forall_forall. intros p Hp. by apply replay_written. }
    rewrite !replay_app. unfold with_prompt.
    rewrite (setting_flag_frame w).
    + fold prompt. by destruct prompt.
    + by rewrite (proj1 (replay_settings _ _)).
    + by rewrite (proj2 (replay_settings _ _)).
  - rewrite (generate_mod_after_creation rq w _ (replay plan w) full _
               Hreach Hne) by by apply backup_files_off.
    rewrite !replay_app. unfold with_prompt.
    rewrite (setting_flag_frame w) by done.
    fold prompt. by destruct prompt.
Qed.

Lemma init_text_distinct (cleaned : string) :
  init_text ≠ modinfo_text cleaned ∧ init_text ≠ script_text
  ∧ init_text ≠ tuning_text ∧ init_text ≠ package_text.
Proof. split_and!; intros H; cbv in H; discriminate. Qed.

Lemma init_write_in_files_plan (rq : request) (in_scripts : bool)
    (full cleaned p : string) :
  FsWrite p init_text ∈ files_plan rq in_scripts full cleaned
  ↔ all_var rq || script_var rq || in_scripts = true
    ∧ p = init_py_path full in_scripts.
Proof.
  clear DEFAULT_MAIN_MOD_FOLDER basename json_load json_load_raises json_dump
    os_refuses.
  destruct (init_text_distinct cleaned) as (D1 & D2 & D3 & D4).
  unfold files_plan.
  destruct (all_var rq), (script_var rq), (tuning_var rq), (package_var rq),
    in_scripts; cbn [orb app];
    repeat (rewrite elem_of_cons || rewrite elem_of_nil);
    naive_solver.
Qed.

Lemma no_write_in_backup_events (full : string) (created : list string)
    (p text : string) :
  FsWrite p text ∉ backup_events full created.
Proof.
  clear DEFAULT_MAIN_MOD_FOLDER json_load json_load_raises json_dump
    os_refuses.
  unfold backup_events. rewrite elem_of_cons, list_elem_of_fmap.
  naive_solver.
Qed.

(** *** Creation that succeeds, under any operating system

    When a closure returns, every operation in it has succeeded, so the
    world it leaves is known. *)

Lemma create_init_py_exact (full : string) (l l' : list string)
    (w w' : world) :
  create_init_py full l w = (Ok l', w') →
  let in_scripts := setting_flag w "init_py_in_scripts" in
  l' = (l ++ [init_py_path full in_scripts])%list
  ∧ w' = emit (FsWrite (init_py_path full in_scripts) init_text)
           (if in_scripts then emit (FsMakedirs (path_join full "Scripts")) w
            else w).
Proof.
  unfold create_init_py. rewrite logged_eq. intros H. cbv zeta.
  apply bind_Ok_inv in H as (w0 & w1 & [= <- <-] & H).
  apply bind_Ok_inv in H as (p & w1 & H1 & H).
  apply bind_Ok_inv in H as (u & w2 & H2 & [= <- <-]).
  apply write_file_inv in H2 as ->.
  unfold init_py_path. destruct (setting_flag w "init_py_in_scripts").
  - apply bind_Ok_inv in H1 as (u' & w3 & H3 & [= <- <-]).
    by apply makedirs_inv in H3 as ->.
  - by injection H1 as <- <-.
Qed.

Lemma create_script_exact (rules : naming_rules) (full file_name : string)
    (l l' : list string) (w w' : world) :
  rules_of w rules →
  create_script full file_name l w = (Ok l', w') →
  let scripts := path_join full "Scripts" in
  let p := path_join scripts (naming_reference rules file_name false ++ ".py") in
  l' = (l ++ [p])%list
  ∧ w' = emit (FsWrite p script_text) (emit (FsMakedirs scripts) w).
Proof.
  unfold create_script. rewrite logged_eq. intros Hr H. cbv zeta.
  apply bind_Ok_inv in H as (u & w1 & H1 & H).
  apply makedirs_inv in H1 as ->.
  rewrite (bind_Ok _ _ _ _ _
             (apply_naming_rules_run _ rules file_name false
                (rules_of_emit _ _ _ Hr))) in H.
  apply bind_Ok_inv in H as (u' & w3 & H3 & [= <- <-]).
  by apply write_file_inv in H3 as ->.
Qed.

Lemma create_tuning_exact (rules : naming_rules) (full file_name : string)
    (l l' : list string) (w w' : world) :
  rules_of w rules →
  create_tuning full file_name l w = (Ok l', w') →
  let tuning := path_join full "Tuning" in
  let p := path_join tuning (naming_reference rules file_name false ++ ".xml") in
  l' = (l ++ [p])%list
  ∧ w' = emit (FsWrite p tuning_text) (emit (FsMakedirs tuning) w).
Proof.
  unfold create_tuning. rewrite logged_eq. intros Hr H. cbv zeta.
  apply bind_Ok_inv in H as (u & w1 & H1 & H).
  apply makedirs_inv in H1 as ->.
  rewrite (bind_Ok _ _ _ _ _
             (apply_naming_rules_run _ rules file_name false
                (rules_of_emit _ _ _ Hr))) in H.
  apply bind_Ok_inv in H as (u' & w3 & H3 & [= <- <-]).
  by apply write_file_inv in H3 as ->.
Qed.

Lemma create_package_exact (rules : naming_rules) (full file_name : string)
    (l l' : list string) (w w' : world) :
  rules_of w rules →
  create_package full file_name l w = (Ok l', w') →
  let p :=
    path_join full (naming_reference rules file_name false ++ ".package") in
  l' = (l ++ [p])%list ∧ w' = emit (FsWrite p package_text) w.
Proof.
  unfold create_package. rewrite logged_eq. intros Hr H. cbv zeta.
  rewrite (bind_Ok _ _ _ _ _
             (apply_naming_rules_run _ rules file_name false Hr)) in H.
  apply bind_Ok_inv in H as (u' & w3 & H3 & [= <- <-]).
  by apply write_file_inv in H3 as ->.
Qed.

Lemma create_files_exact (rules : naming_rules) (rq : request)
    (full file_name : string) (created : list string) (w w' : world) :
  rules_of w rules →
  let cleaned := naming_reference rules file_name false in
  let plan := files_plan rq (setting_flag w "init_py_in_scripts") full cleaned in
  create_files rq full file_name cleaned w = (Ok created, w') →
  created = written_paths plan ∧ w' = replay plan w.
Proof.
  intros Hr cleaned plan H. subst plan. unfold create_files in H.
  apply bind_Ok_inv in H as (l1 & w1 & H1 & H).
  apply create_modinfo_py_inv in H1 as [-> ->].
  apply bind_Ok_inv in H as (w0 & w1 & [= <- <-] & H).
  change (setting_flag (emit _ w) ?k) with (setting_flag w k) in H.
  unfold files_plan.
  destruct rq as [fo fi sv tv pv av].
  cbn [all_var script_var tuning_var package_var] in *.
  destruct (setting_flag w "init_py_in_scripts") eqn:Hflag;
    destruct av, sv, tv, pv; cbn [orb] in *;
    repeat
      (try (apply bind_Ok_inv in H as (? & ? & Hs & H));
       repeat match goal with
         | Hs : ret _ _ = (Ok _, _) |- _ => injection Hs as <- <-
         | Hs : create_init_py _ _ _ = (Ok _, _) |- _ =>
             apply create_init_py_exact in Hs as [-> ->];
             change (setting_flag (emit _ w) ?k) with (setting_flag w k) in *;
             rewrite ?Hflag in *
         | Hs : create_script _ _ _ _ = (Ok _, _) |- _ =>
             apply (create_script_exact rules) in Hs as [-> ->];
             [|repeat apply rules_of_emit; exact Hr]
         | Hs : create_tuning _ _ _ _ = (Ok _, _) |- _ =>
             apply (create_tuning_exact rules) in Hs as [-> ->];
             [|repeat apply rules_of_emit; exact Hr]
         | Hs : create_package _ _ _ _ = (Ok _, _) |- _ =>
             apply (create_package_exact rules) in Hs as [-> ->];
             [|repeat apply rules_of_emit; exact Hr]
         end);
    split; reflexivity.
Qed.

Lemma backup_events_no_write (full : string) (created : list string) :
  Forall (λ e, is_write e = false) (backup_events full created).
Proof.
  unfold backup_events. apply Forall_cons. split; [done|].
  apply Forall_fmap, Forall_true. done.
Qed.

Lemma backup_files_raise (full : string) (created : list string) (w : world)
    (e : exn) :
  backup_always w = Raise e →
  backup_files full created w = (Raise e, w).
Proof.
  intros Hb. unfold backup_always in Hb.
  unfold backup_files, bind, get_world, lift.
  destruct (getitem (settings_data w) "backup_options") as [s|];
    [|by injection Hb as ->].
  destruct (get_method (objs w) s "always_backup" (JBool true)) as [v|];
    [done|by injection Hb as ->].
Qed.

(** Whatever the backup step does, it writes no file of its own: it makes
    a directory, copies, or warns. *)
Lemma backup_files_Ok_inv (full : string) (created : list string)
    (w w' : world) (u : unit) :
  backup_files full created w = (Ok u, w') →
  ∃ rest, w' = replay rest w ∧ Forall (λ e, is_write e = false) rest.
Proof.
  intros H. destruct (backup_always w) as [[|]|e] eqn:Hb.
  - destruct (backup_files_cases full created w Hb) as (w'' & Hrun & Hc).
    rewrite Hrun in H. injection H as <-.
    destruct Hc as [->|(e & n & _ & ->)].
    + eexists. split; [done|]. apply backup_events_no_write.
    + exists (take n (backup_events full created) ++ [backup_warning e])%list.
      split; [by rewrite replay_snoc|].
      apply Forall_app. split; [|by apply Forall_singleton].
      apply Forall_take, backup_events_no_write.
  - rewrite (backup_files_off full created w Hb) in H. injection H as <-.
    by exists [].
  - by rewrite (backup_files_raise full created w e Hb) in H.
Qed.

(** A generation that succeeds has done what the plan of the specification
    says, in its order; what follows the creation of the files (backup,
    warning, prompt) writes no file. *)
Lemma generate_mod_Generated_events (rq : request) (w w' : world)
    (rules : naming_rules) (root : string) (created : list string) :
  names_given rq → rules_of w rules → main_mods_folder_is w root →
  generate_mod rq w = (Ok (Some (Generated created)), w') →
  let full := path_join root
                (naming_reference rules (strip (folder_name_var rq)) true) in
  let cleaned := naming_reference rules (strip (file_name_var rq)) false in
  let plan := creation_plan rq (setting_flag w "init_py_in_scripts")
                full cleaned in
  created = written_paths plan
  ∧ ∃ rest, w' = replay (plan ++ rest) w
            ∧ Forall (λ e, is_write e = false) rest.
Proof.
  intros Hn Hr Hroot. apply names_given_eqb in Hn as [E1 E2].
  unfold generate_mod, safe_operation. rewrite logged_eq.
  unfold generate_mod_body. rewrite E1, E2.
  rewrite (bind_Ok _ _ _ _ _ (apply_naming_rules_run w rules _ true Hr)),
    (bind_Ok _ _ _ _ _ (apply_naming_rules_run w rules _ false Hr)),
    (bind_Ok _ _ _ _ _ (target_folder_run w root _ Hroot)).
  destruct (bind _ _ w) as [[o|e] w1] eqn:H; [|done].
  intros [= -> <-]. cbv zeta.
  set (full := path_join root
         (naming_reference rules (strip (folder_name_var rq)) true)) in *.
  set (cleaned := naming_reference rules (strip (file_name_var rq)) false)
    in *.
  set (plan := creation_plan rq (setting_flag w "init_py_in_scripts")
                 full cleaned).
  apply bind_Ok_inv in H as (u & w2 & Hm & H).
  apply makedirs_inv in Hm as ->.
  apply bind_Ok_inv in H as (l & w3 & Hc & H).
  apply (create_files_exact rules) in Hc as [-> ->];
    [|by apply rules_of_emit].
  change (setting_flag (emit _ w) ?k) with (setting_flag w k) in H.
  fold full cleaned in H.
  set (fplan := files_plan rq (setting_flag w "init_py_in_scripts")
                  full cleaned) in *.
  apply bind_Ok_inv in H as (u' & w4 & Hb & H).
  apply backup_files_Ok_inv in Hb as (rest & -> & Hrest).
  change (written_paths fplan)
    with (path_join full "modinfo.py" :: written_paths (drop 1 fplan)) in H.
  cbv iota in H.
  apply bind_Ok_inv in H as (w5 & w6 & [= <- <-] & H).
  apply bind_Ok_inv in H as (u'' & w7 & Hp & [= <- <-]).
  split; [done|].
  change (replay fplan (emit (FsMakedirs full) w)) with (replay plan w) in Hp.
  rewrite <- replay_app in Hp.
  unfold when, open_file_location_prompt, modify in Hp.
  destruct (setting_flag _ "show_open_location_prompt").
  - injection Hp as <-.
    exists (rest ++ [OpenLocationPrompt full])%list.
    split; [by rewrite app_assoc, replay_snoc|].
    apply Forall_app. split; [done|by apply Forall_singleton].
  - injection Hp as <-. by exists rest.
Qed.

(** C3. Take a request with both names given and settings whose naming
    rules and main mods folder can be read.  In every generation that
    succeeds, the package marker [__init__.py] is written exactly when
    the "all" box is ticked, or the "script" box is ticked, or the setting
    [init_py_in_scripts] is on (so also when no box is ticked and the
    setting is on).  When written, the marker is "Scripts/__init__.py"
    under the target directory if the setting is on and "__init__.py" in
    the target directory itself if it is off, and its path is in the
    result sequence.  And the generation does succeed when the operating
    system refuses nothing and the backup flag can be read. *)
Theorem init_py_created_iff (rq : request) (w : world)
    (rules : naming_rules) (root : string) :
  names_given rq → rules_of w rules → main_mods_folder_is w root →
  let full := path_join root
                (naming_reference rules (strip (folder_name_var rq)) true) in
  let in_scripts := setting_flag w "init_py_in_scripts" in
  (∀ created w',
     generate_mod rq w = (Ok (Some (Generated created)), w') →
     ((∃ p, FsWrite p init_text ∈ events_since w w')
      ↔ all_var rq || script_var rq || in_scripts = true)
     ∧ (∀ p, FsWrite p init_text ∈ events_since w w' →
             p ∈ created
             ∧ p = if in_scripts
                   then path_join (path_join full "Scripts") "__init__.py"
                   else path_join full "__init__.py"))
  ∧ (permissive →
     ∀ backup, backup_always w = Ok backup →
     ∃ created w', generate_mod rq w = (Ok (Some (Generated created)), w')).
Proof.
  intros Hn Hr Hroot full in_scripts. split.
  2:{ intros Hperm backup Hb. eexists _, _.
      by eapply generate_mod_permissive. }
  intros created w' Hrun.
  destruct (generate_mod_Generated_events rq w w' rules root created
              Hn Hr Hroot Hrun) as (-> & rest & -> & Hrest).
  rewrite events_since_replay. fold full in_scripts.
  set (cleaned := naming_reference rules (strip (file_name_var rq)) false).
  assert (Hin : ∀ p,
    FsWrite p init_text
      ∈ (creation_plan rq in_scripts full cleaned ++ rest)%list
    ↔ all_var rq || script_var rq || in_scripts = true
      ∧ p = init_py_path full in_scripts).
  { intros p.
    rewrite <- (init_write_in_files_plan rq in_scripts full cleaned p).
    unfold creation_plan. rewrite elem_of_app, elem_of_cons.
    split; [|by auto]. intros [[H|H]|H]; [done|done|].
    by apply (proj1 (Forall_forall _ _) Hrest) in H. }
  split.
  - split.
    + intros [p Hp]. by apply Hin in Hp as [? _].
    + intros Hc. exists (init_py_path full in_scripts). by apply Hin.
  - intros p Hp. apply Hin in Hp as [Hc ->]. split; [|done].
    rewrite written_paths_creation_plan. apply elem_of_cons. right.
    unfold files_plan. cbn [drop app]. rewrite Hc.
    rewrite drop_0. unfold written_paths. rewrite omap_app.
    apply elem_of_app. left.
    destruct in_scripts; cbn; apply elem_of_cons; by left.
Qed.


(** C7. When the folder name or the file name is empty once stripped,
    [generate_mod] stops at the error dialog: the file system is exactly
    as before, no directory is made and no file is written, and there is
    no result sequence. *)
Theorem missing_name_no_mutation (rq : request) (w : world) :
  strip (folder_name_var rq) = "" ∨ strip (file_name_var rq) = "" →
  ∃ o m w',
    generate_mod rq w = (Ok (Some o), w')
    ∧ (o = NoFolderName ∨ o = NoFileName)
    ∧ result_sequence o = []
    ∧ fs w' = fs w
    ∧ events_since w w' = [ShowError "Error" (Msg m)]
    ∧ settings_data w' = settings_data w ∧ objs w' = objs w.
Proof.
  intros H. unfold generate_mod, safe_operation. rewrite logged_eq.
  unfold generate_mod_body, events_since.
  destruct (String.eqb_spec (strip (folder_name_var rq)) "") as [E1|E1].
  - exists NoFolderName, "No Folder Name specified.". eexists.
    split; [done|]. cbn. rewrite drop_app_length. by split_and!; auto.
  - destruct H as [H|H]; [done|]. rewrite H.
    exists NoFileName, "No File Name specified.". eexists.
    split; [done|]. cbn. rewrite drop_app_length. by split_and!; auto.
Qed.

Lemma create_files_all (folder file : string) (s t p : bool)
    (full file_name cleaned : string) :
  create_files (Request folder file s t p true) full file_name cleaned
  = create_files (Request folder file true true true false)
      full file_name cleaned.
Proof. reflexivity. Qed.

(** C8. Generating with the "all" box ticked does exactly what generating
    with the three boxes "script", "tuning" and "package" ticked does,
    whatever the three boxes are next to "all": the same outcome, the same
    file system, the same events, for every pair of names, every settings
    record and every operating system. *)
Theorem all_is_script_tuning_package (folder file : string) (s t p : bool)
    (w : world) :
  generate_mod (Request folder file s t p true) w
  = generate_mod (Request folder file true true true false) w.
Proof.
  unfold generate_mod, generate_mod_body.
  cbn [folder_name_var file_name_var].
  (* the two requests differ in [create_files] only, where
     [create_files_all] holds by computation *)
  reflexivity.
Qed.

Lemma emit_keeps_dir (e : event) (w : world) (d : string) :
  d ∈ dirs (fs w) → d ∈ dirs (fs (emit e w)).
Proof.
  intros Hd. destruct e; cbn; try done; [apply elem_of_union; by right|].
  by destruct (files (fs w) !! src).
Qed.

Lemma replay_keeps_dir (es : list event) (w : world) (d : string) :
  d ∈ dirs (fs w) → d ∈ dirs (fs (replay es w)).
Proof.
  revert w. induction es as [|e es IH]; intros w Hd; [done|].
  rewrite replay_cons. by apply IH, emit_keeps_dir.
Qed.

Lemma replay_copies_dst (dst : string → string) (l : list string)
    (w : world) (fpath : string) :
  Forall (file_in w) l → fpath ∈ l →
  file_in (replay ((λ fpath, FsCopy fpath (dst fpath)) <$> l) w) (dst fpath).
Proof.
  revert w. induction l as [|x l IH]; intros w Hl Hin; [by inversion Hin|].
  apply Forall_cons in Hl as [Hx Hl]. rewrite fmap_cons, replay_cons.
  apply elem_of_cons in Hin as [->|Hin].
  - apply replay_keeps_file. destruct Hx as [t Ht]. cbn. rewrite Ht. cbn.
    by rewrite lookup_insert_eq.
  - apply IH; [|done]. eapply Forall_impl; [exact Hl|].
    intros q. apply emit_keeps_file.
Qed.

(** C9. Take a generation that got as far as the backup step with the
    result sequence [created], not empty, while the setting
    [always_backup] is on.  Then the generation succeeds with [created]
    whatever happens during the backup: either the folder
    "<target>_Backup" is made and every created file is copied into it
    under its base name alone, or the backup stops at the first operation
    that fails and a warning is shown.  When the operating system refuses
    nothing it is the former: the backup folder is there and holds, for
    every created file, a file of its base name. *)
Theorem backup_is_flat_and_non_fatal (rq : request) (w w2 : world)
    (full : string) (created : list string) :
  reaches_backup rq w full created w2 →
  backup_always w2 = Ok true →
  created ≠ [] →
  let backup_folder := full ++ "_Backup" in
  let flat fpath := path_join backup_folder (basename fpath) in
  let steps := FsMakedirs backup_folder
               :: ((λ fpath, FsCopy fpath (flat fpath)) <$> created) in
  ∃ w3,
    generate_mod rq w = (Ok (Some (Generated created)), with_prompt full w3)
    ∧ (w3 = replay steps w2
       ∨ ∃ e n, n < length steps
           ∧ w3 = emit (ShowWarning "Warning"
                          (MsgExn "Could not create backup: " e))
                    (replay (take n steps) w2))
    ∧ (permissive →
       w3 = replay steps w2
       ∧ events_since w2 w3 = steps
       ∧ backup_folder ∈ dirs (fs w3)
       ∧ ∀ fpath, fpath ∈ created → file_in w3 (flat fpath)).
Proof.
  intros Hreach Hb Hne backup_folder flat steps.
  destruct (backup_files_cases full created w2 Hb) as (w3 & Hrun & Hcases).
  exists w3. split; [by eapply generate_mod_after_creation|].
  split; [exact Hcases|]. intros Hperm.
  assert (Hall : Forall (file_in w2) created).
  { destruct Hreach as (_ & cfo & cfi & w1 & _ & _ & _ & _ & Hc).
    by apply create_files_inv in Hc as [_ ?]. }
  assert (Hw3 : w3 = replay steps w2).
  { rewrite (backup_files_ok Hperm full created w2 Hb Hall) in Hrun.
    by injection Hrun as <-. }
  clear Hrun Hcases. subst w3.
  split_and!; [done|apply events_since_replay|..].
  - subst steps. rewrite replay_cons. apply replay_keeps_dir. cbn.
    apply elem_of_union. left. by apply elem_of_singleton.
  - intros fpath Hin. subst steps. rewrite replay_cons.
    apply (replay_copies_dst flat); [|done].
    eapply Forall_impl; [exact Hall|]. intros q. apply emit_keeps_file.
Qed.

(** ** Further properties *)

(** Solvers that look through the whole context are run without the
    parts of the environment a statement does not speak about. *)
Local Ltac without_environment :=
  try clear DEFAULT_MAIN_MOD_FOLDER; try clear path_join; try clear basename;
  try clear json_load; try clear json_load_raises; try clear json_dump;
  try clear os_refuses.

(** *** The traces of the main window *)

Lemma act_edit_folder_name (fuel : nat) (s : string) (st : form) :
  settled st → (2 ≤ fuel)%nat →
  act fuel (EditFolderName s) st
  = Some (if match_filename_var st
          then with_vars (put_file_name s) (with_vars (put_folder_name s) st)
          else with_vars (put_folder_name s) st).
Proof.
  intros [Hs Hm] Hf. destruct fuel as [|[|fuel]]; [lia|lia|].
  destruct st as [rq m sy]. cbn in *. subst sy.
  unfold on_folder_name_change. cbn. by destruct m.
Qed.

Lemma act_edit_file_name (fuel : nat) (s : string) (st : form) :
  settled st → (2 ≤ fuel)%nat →
  act fuel (EditFileName s) st
  = Some (if match_filename_var st
          then with_vars (put_folder_name s) (with_vars (put_file_name s) st)
          else with_vars (put_file_name s) st).
Proof.
  intros [Hs Hm] Hf. destruct fuel as [|[|fuel]]; [lia|lia|].
  destruct st as [rq m sy]. cbn in *. subst sy.
  unfold on_file_name_change. cbn. by destruct m.
Qed.

Lemma act_set_match_filename (fuel : nat) (b : bool) (st : form) :
  settled st → (2 ≤ fuel)%nat →
  act fuel (SetMatchFilename b) st
  = Some (with_vars
            (put_file_name (if b then folder_name_var (vars st) else ""))
            (put_match_filename b st)).
Proof.
  intros [Hs Hm] Hf. destruct fuel as [|[|fuel]]; [lia|lia|].
  destruct st as [rq m sy]. cbn in *. subst sy.
  unfold on_match_filename_toggle. cbn. by destruct b.
Qed.

Lemma act_set_all (fuel : nat) (b : bool) (st : form) :
  (1 ≤ fuel)%nat →
  act fuel (SetAll b) st
  = Some (Form (Request (folder_name_var (vars st)) (file_name_var (vars st))
                  b b b b)
            (match_filename_var st) (syncing st)).
Proof.
  intros Hf. destruct fuel as [|fuel]; [lia|].
  destruct st as [rq m sy]. cbn. unfold on_all_toggle. cbn. by destruct b.
Qed.

Lemma act_keeps_settled (fuel : nat) (a : action) (st : form) :
  settled st → (2 ≤ fuel)%nat →
  ∃ st', act fuel a st = Some st' ∧ settled st'.
Proof.
  intros Hst Hf. pose proof Hst as [Hs Hm]. destruct a.
  - rewrite act_edit_folder_name by done. eexists. split; [done|].
    destruct st as [rq m sy]. cbn in *. by destruct m.
  - rewrite act_edit_file_name by done. eexists. split; [done|].
    destruct st as [rq m sy]. cbn in *. by destruct m.
  - rewrite act_set_match_filename by done. eexists. split; [done|].
    destruct st as [rq m sy]. cbn in *. by destruct b.
  - eexists. split; [done|]. by destruct st.
  - eexists. split; [done|]. by destruct st.
  - eexists. split; [done|]. by destruct st.
  - rewrite act_set_all by lia. eexists. split; [done|]. by destruct st.
Qed.

Lemma act_fuel (fuel : nat) (a : action) (st : form) :
  settled st → (2 ≤ fuel)%nat → act fuel a st = act 2 a st.
Proof.
  intros Hst Hf. destruct a; try done.
  - by rewrite !act_edit_folder_name.
  - by rewrite !act_edit_file_name.
  - by rewrite !act_set_match_filename.
  - by rewrite !act_set_all by lia.
Qed.

(** X1. Every session in the main window settles: from the form as the
    window opens, whatever the user edits and ticks, the traces end within
    two levels of nesting (more fuel changes nothing), no trace is left
    running, and while "match file name to folder name" is ticked the
    folder name and the file name are equal. *)
Theorem sessions_settle (fuel : nat) (l : list action) :
  (2 ≤ fuel)%nat →
  ∃ st, acts fuel l initial_form = Some st
        ∧ acts 2 l initial_form = Some st
        ∧ settled st.
Proof.
  intros Hf.
  assert (H : ∀ st0, settled st0 →
            ∃ st, acts fuel l st0 = Some st ∧ acts 2 l st0 = Some st
                  ∧ settled st).
  { induction l as [|a l IH]; intros st0 H0; [by exists st0|].
    destruct (act_keeps_settled fuel a st0 H0 Hf) as (st1 & H1 & Hs1).
    destruct (IH st1 Hs1) as (st & H2 & H3 & Hs).
    exists st. cbn [acts]. rewrite <- (act_fuel fuel a st0 H0 Hf), H1.
    by cbn. }
  by apply H.
Qed.

(** X2. Setting the "All" box sets the three boxes "Script", "Tuning" and
    "Package" to the same value, whatever they were, and leaves the names
    alone: ticking "All" ticks the three, unticking it unticks the three
    even if one of them had been ticked by hand before. *)
Theorem all_box_sets_the_three (fuel : nat) (b : bool) (st : form) :
  (1 ≤ fuel)%nat →
  ∃ st', act fuel (SetAll b) st = Some st'
    ∧ all_var (vars st') = b
    ∧ script_var (vars st') = b
    ∧ tuning_var (vars st') = b
    ∧ package_var (vars st') = b
    ∧ folder_name_var (vars st') = folder_name_var (vars st)
    ∧ file_name_var (vars st') = file_name_var (vars st)
    ∧ match_filename_var st' = match_filename_var st.
Proof.
  intros Hf. rewrite act_set_all by done. eexists. by split_and!.
Qed.

(** X3. Editing one of the two names while "match file name to folder
    name" is ticked gives both names the new text; while it is not
    ticked, the other name is left as it was.  The boxes are not
    touched. *)
Theorem edited_name_is_mirrored (fuel : nat) (s : string) (st : form) :
  settled st → (2 ≤ fuel)%nat →
  (∃ st', act fuel (EditFolderName s) st = Some st'
     ∧ folder_name_var (vars st') = s
     ∧ file_name_var (vars st')
       = (if match_filename_var st then s else file_name_var (vars st))
     ∧ script_var (vars st') = script_var (vars st)
     ∧ tuning_var (vars st') = tuning_var (vars st)
     ∧ package_var (vars st') = package_var (vars st)
     ∧ all_var (vars st') = all_var (vars st))
  ∧ (∃ st', act fuel (EditFileName s) st = Some st'
       ∧ file_name_var (vars st') = s
       ∧ folder_name_var (vars st')
         = (if match_filename_var st then s else folder_name_var (vars st))
       ∧ script_var (vars st') = script_var (vars st)
       ∧ tuning_var (vars st') = tuning_var (vars st)
       ∧ package_var (vars st') = package_var (vars st)
       ∧ all_var (vars st') = all_var (vars st)).
Proof.
  intros Hst Hf. split.
  - rewrite act_edit_folder_name by done. eexists. split; [done|].
    destruct st as [rq m sy]. by destruct m.
  - rewrite act_edit_file_name by done. eexists. split; [done|].
    destruct st as [rq m sy]. by destruct m.
Qed.

Lemma generate_mod_no_file_name (rq : request) (w : world) :
  strip (folder_name_var rq) ≠ "" →
  strip (file_name_var rq) = "" →
  generate_mod rq w
  = (Ok (Some NoFileName),
     emit (ShowError "Error" (Msg "No File Name specified.")) w).
Proof.
  intros H1 H2. unfold generate_mod, safe_operation. rewrite logged_eq.
  unfold generate_mod_body. apply String.eqb_neq in H1. by rewrite H1, H2.
Qed.

(** X4. Ticking "match file name to folder name" copies the folder name
    into the file name.  Unticking it empties the file name and keeps the
    folder name; a generation asked for right after that, with a folder
    name given, stops at the dialog "No File Name specified." and leaves
    the file system as it was. *)
Theorem match_box_copies_or_clears (fuel : nat) (st : form) :
  settled st → (2 ≤ fuel)%nat →
  (∃ st', act fuel (SetMatchFilename true) st = Some st'
     ∧ file_name_var (vars st') = folder_name_var (vars st)
     ∧ folder_name_var (vars st') = folder_name_var (vars st))
  ∧ (∃ st', act fuel (SetMatchFilename false) st = Some st'
       ∧ file_name_var (vars st') = ""
       ∧ folder_name_var (vars st') = folder_name_var (vars st)
       ∧ (strip (folder_name_var (vars st)) ≠ "" →
          ∀ w, ∃ w',
            generate_mod (vars st') w = (Ok (Some NoFileName), w')
            ∧ fs w' = fs w
            ∧ events_since w w'
              = [ShowError "Error" (Msg "No File Name specified.")])).
Proof.
  intros Hst Hf. split.
  - rewrite act_set_match_filename by done. eexists. by split_and!.
  - rewrite act_set_match_filename by done. eexists. split_and!; try done.
    intros Hn w. eexists. split; [by apply generate_mod_no_file_name|].
    split; [done|]. unfold events_since. cbn. by rewrite drop_app_length.
Qed.

(** *** What a statement can do to the world *)

Section Effects.

Variable I : world → Prop.
Variable Ev : event → Prop.
Hypothesis I_emit : ∀ e w, I w → I (emit e w).

Lemma I_replay (es : list event) (w : world) : I w → I (replay es w).
Proof.
  revert w. induction es as [|e es IH]; intros w Hw; [done|].
  rewrite replay_cons. by apply IH, I_emit.
Qed.

Lemma effects_ret {A} (Q : A → Prop) (a : A) : Q a → effects I Ev Q (ret a).
Proof.
  intros Ha w r w' _ [= <- <-]. split; [by exists []|]. by intros ? [= <-].
Qed.

Lemma effects_raise {A} (Q : A → Prop) (e : exn) : effects I Ev Q (raise e).
Proof. intros w r w' _ [= <- <-]. split; [by exists []|done]. Qed.

Lemma effects_lift {A} (Q : A → Prop) (r : result A) :
  (∀ a, r = Ok a → Q a) → effects I Ev Q (lift r).
Proof. intros Hr w r' w' _ [= <- <-]. split; [by exists []|done]. Qed.

Lemma effects_get_world : effects I Ev I get_world.
Proof.
  intros w r w' Hw [= <- <-]. split; [by exists []|]. by intros ? [= <-].
Qed.

Lemma effects_weaken {A} (Q Q' : A → Prop) (m : M A) :
  (∀ a, Q a → Q' a) → effects I Ev Q m → effects I Ev Q' m.
Proof.
  intros HQ Hm w r w' Hw Hrun. destruct (Hm w r w' Hw Hrun) as [Hes Hq].
  split; [done|]. intros a Ha. by apply HQ, Hq.
Qed.

Lemma effects_value {A} (Q Q' : A → Prop) (m : M A) :
  (∀ w a w', m w = (Ok a, w') → Q' a) →
  effects I Ev Q m → effects I Ev Q' m.
Proof.
  intros HQ Hm w r w' Hw Hrun. destruct (Hm w r w' Hw Hrun) as [Hes _].
  split; [done|]. intros a ->. by eapply HQ.
Qed.

Lemma effects_bind {A B} (Q1 : A → Prop) (Q2 : B → Prop) (m : M A)
    (k : A → M B) :
  effects I Ev Q1 m → (∀ a, Q1 a → effects I Ev Q2 (k a)) →
  effects I Ev Q2 (bind m k).
Proof.
  intros Hm Hk w r w' Hw. unfold bind.
  destruct (m w) as [[a|e] w1] eqn:Hrun;
    destruct (Hm w _ w1 Hw Hrun) as [(es1 & -> & Hes1) Hq].
  - intros Hrun2.
    destruct (Hk a (Hq a eq_refl) _ r w' (I_replay es1 w Hw) Hrun2)
      as [(es2 & -> & Hes2) Hq2].
    split; [|done]. exists (es1 ++ es2)%list.
    split; [by rewrite replay_app|by apply Forall_app].
  - intros [= <- <-]. split; [by exists es1|done].
Qed.

Lemma effects_try_except {A} (Q : A → Prop) (m : M A) (h : exn → M A) :
  effects I Ev Q m → (∀ e, effects I Ev Q (h e)) →
  effects I Ev Q (try_except m h).
Proof.
  intros Hm Hh w r w' Hw. unfold try_except.
  destruct (m w) as [[a|e] w1] eqn:Hrun;
    destruct (Hm w _ w1 Hw Hrun) as [(es1 & -> & Hes1) Hq].
  - intros [= <- <-]. split; [by exists es1|done].
  - intros Hrun2.
    destruct (Hh e _ r w' (I_replay es1 w Hw) Hrun2)
      as [(es2 & -> & Hes2) Hq2].
    split; [|done]. exists (es1 ++ es2)%list.
    split; [by rewrite replay_app|by apply Forall_app].
Qed.

Lemma effects_logged {A} (Q : A → Prop) (m : M A) :
  effects I Ev Q m → effects I Ev Q (logged m).
Proof. intros Hm w r w' Hw. rewrite logged_eq. by apply Hm. Qed.

Lemma effects_when (b : bool) (m : M unit) :
  effects I Ev (λ _, True) m → effects I Ev (λ _, True) (when b m).
Proof. intros Hm. destruct b; [done|]. by apply effects_ret. Qed.

Lemma effects_emit (e : event) :
  Ev e → effects I Ev (λ _, True) (modify (emit e)).
Proof.
  intros He w r w' _ [= <- <-]. split; [|done].
  exists [e]. split; [done|by apply Forall_singleton].
Qed.

Lemma effects_makedirs (p : string) :
  Ev (FsMakedirs p) → effects I Ev (λ _, True) (makedirs p).
Proof.
  intros He w r w' _. unfold makedirs.
  destruct (os_refuses (fs w) (OpMakedirs p)); intros [= <- <-].
  - split; [by exists []|done].
  - split; [|done]. exists [FsMakedirs p]. split; [done|].
    by apply Forall_singleton.
Qed.

Lemma effects_write_file (p text : string) :
  Ev (FsWrite p text) → effects I Ev (λ _, True) (write_file p text).
Proof.
  intros He w r w' _. unfold write_file.
  destruct (os_refuses (fs w) (OpWrite p)); intros [= <- <-].
  - split; [by exists []|done].
  - split; [|done]. exists [FsWrite p text]. split; [done|].
    by apply Forall_singleton.
Qed.

Lemma effects_copyfile (src dst : string) :
  Ev (FsCopy src dst) → effects I Ev (λ _, True) (copyfile src dst).
Proof.
  intros He w r w' _.
  destruct (copyfile_cases src dst w) as [-> | ->]; intros [= <- <-].
  - split; [|done]. exists [FsCopy src dst]. split; [done|].
    by apply Forall_singleton.
  - split; [by exists []|done].
Qed.

Lemma effects_for_each {A} (l : list A) (body : A → M unit) :
  (∀ x, effects I Ev (λ _, True) (body x)) →
  effects I Ev (λ _, True) (for_each l body).
Proof.
  intros Hb. induction l as [|x l IH]; [by apply effects_ret|].
  cbn [for_each]. eapply effects_bind; [apply Hb|]. by intros _ _.
Qed.

Lemma effects_safe_operation {A} (Q : A → Prop) (m : M A) :
  (∀ e, Ev (failed_dialog e)) →
  effects I Ev Q m →
  effects I Ev (λ o, ∀ a, o = Some a → Q a) (safe_operation m).
Proof.
  intros Hd Hm w r w' Hw. unfold safe_operation.
  destruct (m w) as [[a|e] w1] eqn:Hrun;
    destruct (Hm w _ w1 Hw Hrun) as [(es1 & -> & Hes1) Hq];
    intros [= <- <-].
  - split; [by exists es1|]. intros ? [= <-] ? [= <-]. by apply Hq.
  - split; [|by intros ? [= <-]].
    exists (es1 ++ [failed_dialog e])%list. split; [by rewrite replay_snoc|].
    apply Forall_app. split; [done|]. by apply Forall_singleton.
Qed.

Lemma effects_apply_naming_rules (name : string) (is_folder : bool) :
  effects I Ev (λ _, True) (apply_naming_rules name is_folder).
Proof.
  intros w r w' _ Hrun. apply apply_naming_rules_world in Hrun as ->.
  split; [by exists []|done].
Qed.

End Effects.

Section GenerationEffects.

Variable I : world → Prop.
Variable Ev : event → Prop.
Hypothesis I_emit : ∀ e w, I w → I (emit e w).
Hypothesis Ev_makedirs : ∀ p, Ev (FsMakedirs p).
Hypothesis Ev_write : ∀ p text, Ev (FsWrite p text).
Hypothesis Ev_copy : ∀ src dst, Ev (FsCopy src dst).
Hypothesis Ev_error : ∀ title m, Ev (ShowError title m).
Hypothesis Ev_warning : ∀ title m, Ev (ShowWarning title m).
Hypothesis Ev_prompt :
  ∀ w p, I w → setting_flag w "show_open_location_prompt" = true →
         Ev (OpenLocationPrompt p).

Local Ltac bind_with Q tac :=
  eapply (effects_bind I Ev I_emit Q); [tac|intros ? ?].
Local Ltac unit_ret := by apply effects_ret.

Lemma effects_create_init_py (full : string) (l : list string) :
  effects I Ev (λ _, True) (create_init_py full l).
Proof.
  unfold create_init_py. apply effects_logged.
  bind_with I ltac:(apply effects_get_world).
  bind_with (λ _ : string, True) idtac.
  { destruct (setting_flag _ _); [|unit_ret].
    bind_with (λ _ : unit, True) ltac:(apply effects_makedirs, Ev_makedirs).
    unit_ret. }
  bind_with (λ _ : unit, True) ltac:(apply effects_write_file, Ev_write).
  unit_ret.
Qed.

Lemma effects_create_modinfo_py (full cleaned : string) (l : list string) :
  effects I Ev (λ _, True) (create_modinfo_py full cleaned l).
Proof.
  unfold create_modinfo_py. apply effects_logged.
  bind_with (λ _ : unit, True) ltac:(apply effects_write_file, Ev_write).
  unit_ret.
Qed.

Lemma effects_create_script (full file_name : string) (l : list string) :
  effects I Ev (λ _, True) (create_script full file_name l).
Proof.
  unfold create_script. apply effects_logged.
  bind_with (λ _ : unit, True) ltac:(apply effects_makedirs, Ev_makedirs).
  bind_with (λ _ : string, True) ltac:(apply effects_apply_naming_rules).
  bind_with (λ _ : unit, True) ltac:(apply effects_write_file, Ev_write).
  unit_ret.
Qed.

Lemma effects_create_tuning (full file_name : string) (l : list string) :
  effects I Ev (λ _, True) (create_tuning full file_name l).
Proof.
  unfold create_tuning. apply effects_logged.
  bind_with (λ _ : unit, True) ltac:(apply effects_makedirs, Ev_makedirs).
  bind_with (λ _ : string, True) ltac:(apply effects_apply_naming_rules).
  bind_with (λ _ : unit, True) ltac:(apply effects_write_file, Ev_write).
  unit_ret.
Qed.

Lemma effects_create_package (full file_name : string) (l : list string) :
  effects I Ev (λ _, True) (create_package full file_name l).
Proof.
  unfold create_package. apply effects_logged.
  bind_with (λ _ : string, True) ltac:(apply effects_apply_naming_rules).
  bind_with (λ _ : unit, True) ltac:(apply effects_write_file, Ev_write).
  unit_ret.
Qed.

Lemma effects_create_files (rq : request) (full file_name cleaned : string) :
  effects I Ev (λ created, created ≠ [])
    (create_files rq full file_name cleaned).
Proof.
  apply (effects_value I Ev (λ _, True)).
  { intros w a w' H. by apply create_files_inv in H as [[rest ->] _]. }
  unfold create_files.
  eapply effects_bind; [exact I_emit|apply effects_create_modinfo_py|].
  intros l1 _. eapply effects_bind; [exact I_emit|apply effects_get_world|].
  intros w0 _.
  eapply (effects_bind I Ev I_emit (λ _, True)); [|intros l2 _].
  { destruct (_ || _ || _); [apply effects_create_init_py|by apply effects_ret]. }
  destruct (all_var rq).
  - eapply effects_bind; [exact I_emit|apply effects_create_script|].
    intros l3 _.
    eapply effects_bind; [exact I_emit|apply effects_create_tuning|].
    intros l4 _. apply effects_create_package.
  - eapply (effects_bind I Ev I_emit (λ _, True)); [|intros l3 _].
    { destruct (script_var rq);
        [apply effects_create_script|by apply effects_ret]. }
    eapply (effects_bind I Ev I_emit (λ _, True)); [|intros l4 _].
    { destruct (tuning_var rq);
        [apply effects_create_tuning|by apply effects_ret]. }
    destruct (package_var rq);
      [apply effects_create_package|by apply effects_ret].
Qed.

Lemma effects_backup_files (full : string) (created : list string) :
  effects I Ev (λ _, True) (backup_files full created).
Proof.
  unfold backup_files.
  eapply effects_bind; [exact I_emit|apply effects_get_world|].
  intros w0 _.
  eapply (effects_bind I Ev I_emit (λ _, True));
    [by apply effects_lift|intros s _].
  eapply (effects_bind I Ev I_emit (λ _, True));
    [by apply effects_lift|intros v _].
  apply effects_when, effects_try_except; [exact I_emit| |].
  - eapply effects_bind; [exact I_emit|apply effects_makedirs, Ev_makedirs|].
    intros _ _. apply effects_for_each; [exact I_emit|].
    intros x. apply effects_copyfile, Ev_copy.
  - intros e. apply effects_emit, Ev_warning.
Qed.

Lemma effects_target_folder (cleaned_folder : string) :
  effects I Ev (λ _, True) (target_folder cleaned_folder).
Proof.
  unfold target_folder.
  eapply effects_bind; [exact I_emit|apply effects_get_world|].
  intros w0 _.
  eapply (effects_bind I Ev I_emit (λ _, True));
    [by apply effects_lift|intros s _].
  destruct s as [[]|]; first [by apply effects_ret|apply effects_raise].
Qed.

Lemma effects_generate_mod (rq : request) :
  effects I Ev (λ _, True) (generate_mod rq).
Proof.
  eapply effects_weaken; [|apply (effects_safe_operation I Ev (λ _, True))];
    [done|intros e; apply Ev_error|].
  apply effects_logged. unfold generate_mod_body.
  destruct (String.eqb _ "").
  { eapply effects_bind; [exact I_emit|apply effects_emit, Ev_error|].
    intros _ _. by apply effects_ret. }
  destruct (String.eqb _ "").
  { eapply effects_bind; [exact I_emit|apply effects_emit, Ev_error|].
    intros _ _. by apply effects_ret. }
  eapply effects_bind; [exact I_emit|apply effects_apply_naming_rules|].
  intros cfo _.
  eapply effects_bind; [exact I_emit|apply effects_apply_naming_rules|].
  intros cfi _.
  eapply effects_bind; [exact I_emit|apply effects_target_folder|].
  intros full _.
  eapply effects_bind; [exact I_emit|apply effects_makedirs, Ev_makedirs|].
  intros _ _.
  eapply effects_bind; [exact I_emit|apply effects_create_files|].
  intros created Hne.
  eapply effects_bind; [exact I_emit|apply effects_backup_files|].
  intros _ _. destruct created as [|c created]; [done|].
  eapply effects_bind; [exact I_emit|apply effects_get_world|].
  intros w0 Hw0.
  eapply (effects_bind I Ev I_emit (λ _, True)); [|intros _ _].
  - destruct (setting_flag w0 "show_open_location_prompt") eqn:Hflag;
      [|by apply effects_ret].
    apply effects_emit. by eapply Ev_prompt.
  - by apply effects_ret.
Qed.

End GenerationEffects.

(** *** The settings window *)

Lemma bind_assoc {A B C} (m : M A) (k : A → M B) (h : B → M C) (w : world) :
  bind (bind m k) h w = bind m (λ a, bind (k a) h) w.
Proof. unfold bind. by destruct (m w) as [[a|e] w1]. Qed.

Lemma save_settings_local_body_split (v : settings_vars) (d : bool)
    (w : world) :
  save_settings_local_body v d w
  = bind (store_settings_vars v) (λ _, save_and_confirm d) w.
Proof.
  unfold save_settings_local_body. rewrite logged_eq.
  unfold store_settings_vars, bind.
  repeat match goal with
         | |- context [match ?m ?w0 with _ => _ end] =>
             destruct (m w0) as [[?|?] ?]; try reflexivity
         end.
Qed.

(** The settings are read through what each key denotes. *)

Lemma setting2_view (w : world) (k1 k2 : string) :
  setting2 w k1 k2
  = match setting w k1 with
    | Some (JObj d) =>
        match d !! k2 with
        | Some v => Ok v
        | None => Raise (KeyError k2)
        end
    | Some _ => Raise TypeError
    | None => Raise (KeyError k1)
    end.
Proof.
  unfold setting2, setting, getitem, subscript.
  by destruct (settings_data w !! k1) as [s|].
Qed.

Lemma setting_flag_view (w : world) (k : string) :
  setting_flag w k = truthy (default (JBool true) (setting w k)).
Proof.
  unfold setting_flag, setting.
  by destruct (settings_data w !! k) as [[x|l]|].
Qed.

Lemma backup_always_view (w : world) :
  backup_always w
  = match setting w "backup_options" with
    | Some (JObj d) =>
        Ok (truthy (default (JBool true) (d !! "always_backup")))
    | Some _ => Raise AttributeError
    | None => Raise (KeyError "backup_options")
    end.
Proof.
  unfold backup_always, setting, getitem, get_method.
  destruct (settings_data w !! "backup_options") as [s|]; [|done].
  cbn. by destruct (resolve (objs w) s).
Qed.

Lemma main_mods_folder_view (w : world) (root : string) :
  main_mods_folder_is w root ↔ setting w "main_mods_folder" = Some (JStr root).
Proof.
  unfold main_mods_folder_is, setting. split.
  - by intros ->.
  - destruct (settings_data w !! "main_mods_folder") as [[x|l]|]; try done.
    cbn. by intros [= ->].
Qed.

Lemma holds_dict_view (w : world) (k : string) :
  holds_dict w k ↔ ∃ d, setting w k = Some (JObj d).
Proof.
  unfold holds_dict, setting. split.
  - intros (s & -> & Hs). destruct s as [[]|l]; try done; by eexists.
  - intros [d Hd]. destruct (settings_data w !! k) as [s|]; [|done].
    exists s. split; [done|]. cbn in Hd. by destruct s as [[]|l].
Qed.

Lemma assigned_refl (w : world) : refs_in_place w → assigned w w.
Proof. intros H. by split_and!. Qed.

Lemma assigned_trans (w w1 w2 : world) :
  assigned w w1 → assigned w1 w2 → assigned w w2.
Proof.
  intros (F1 & T1 & R1 & S1 & G1) (F2 & T2 & R2 & S2 & G2).
  split_and!; [congruence|congruence|done|auto|auto].
Qed.

Lemma setitem_view (k : string) (v : jval) (w : world) :
  refs_in_place w → (∀ l, k ≠ ref_key l) →
  ∃ w1, setitem k v w = (Ok tt, w1)
    ∧ assigned w w1
    ∧ ∀ k', setting w1 k' = if decide (k' = k) then Some v else setting w k'.
Proof.
  intros Hrefs Hk. eexists. split; [done|]. split.
  - split_and!; try done.
    + intros k' l. cbn. rewrite lookup_insert. case_decide; [done|]. apply Hrefs.
    + intros l Hl. cbn. by rewrite lookup_insert_ne.
  - intros k'. unfold setting. cbn. rewrite lookup_insert.
    repeat case_decide; by subst.
Qed.

Lemma setitem2_view (k1 k2 : string) (v : jval) (w : world)
    (d : gmap string jval) :
  refs_in_place w → setting w k1 = Some (JObj d) →
  ∃ w1, setitem2 k1 k2 v w = (Ok tt, w1)
    ∧ assigned w w1
    ∧ ∀ k', setting w1 k'
            = if decide (k' = k1) then Some (JObj (<[k2:=v]> d))
              else setting w k'.
Proof.
  intros Hrefs Hd. unfold setting in Hd. unfold setitem2.
  destruct (settings_data w !! k1) as [[x|l]|] eqn:Hk1; [| |done].
  - cbn in Hd. injection Hd as ->. eexists. split; [done|]. split.
    + split_and!; try done.
      * intros k' l. cbn. rewrite lookup_insert. case_decide; [done|].
        apply Hrefs.
      * intros l Hl. cbn. rewrite lookup_insert. case_decide; [|done].
        congruence.
    + intros k'. unfold setting. cbn. rewrite lookup_insert.
      repeat case_decide; by subst.
  - cbn in Hd. injection Hd as <-. pose proof (Hrefs _ _ Hk1) as ->.
    eexists. split; [done|]. split.
    + split_and!; try done. intros l' k2'. cbn. rewrite deref_store_set.
      case_decide; [subst l'|done]. rewrite lookup_insert.
      by case_decide.
    + intros k'. unfold setting. cbn. case_decide as Hk.
      * subst k'. rewrite Hk1. cbn. by rewrite deref_store_set, decide_True.
      * destruct (settings_data w !! k') as [[x|l']|] eqn:Hk'; try done.
        cbn. rewrite deref_store_set. case_decide; [|done]. subst l'.
        by apply Hrefs in Hk'.
Qed.

Lemma store_settings_vars_run (v : settings_vars) (w : world)
    (d1 d2 : gmap string jval) :
  refs_in_place w →
  setting w "naming_rules" = Some (JObj d1) →
  setting w "backup_options" = Some (JObj d2) →
  ∃ w1, store_settings_vars v w = (Ok tt, w1)
    ∧ assigned w w1
    ∧ ∀ k, setting w1 k = window_view v d1 d2 (setting w) k.
Proof.
  intros R0 H1 H2. unfold store_settings_vars.
  destruct (setitem_view "generated_mods_enabled"
              (JBool (generated_mods_var v)) w R0)
    as (wa & Ea & Aa & Va); [by intros []|].
  pose proof Aa as (_ & _ & Ra & _).
  destruct (setitem_view "temp_mod_timer" (JStr (temp_mod_timer_var v)) wa Ra)
    as (wb & Eb & Ab & Vb); [by intros []|].
  pose proof Ab as (_ & _ & Rb & _).
  destruct (setitem_view "main_mods_folder"
              (JStr (main_mods_folder_var v)) wb Rb)
    as (wc & Ec & Ac & Vc); [by intros []|].
  pose proof Ac as (_ & _ & Rc & _).
  destruct (setitem2_view "naming_rules" "no_spaces_folders"
              (JBool (no_spaces_folders_var v)) wc d1 Rc)
    as (wd & Ed & Ad & Vd).
  { rewrite Vc, Vb, Va. by repeat (case_decide; [done|]). }
  pose proof Ad as (_ & _ & Rd & _).
  destruct (setitem2_view "naming_rules" "no_spaces_files"
              (JBool (no_spaces_files_var v)) wd
              (<[ "no_spaces_folders" := JBool (no_spaces_folders_var v) ]> d1)
              Rd)
    as (we & Ee & Ae & Ve).
  { rewrite Vd. by rewrite decide_True. }
  pose proof Ae as (_ & _ & Re & _).
  destruct (setitem2_view "naming_rules" "convert_spaces_underscores"
              (JBool (convert_spaces_underscores_var v)) we
              (<[ "no_spaces_files" := JBool (no_spaces_files_var v) ]>
                 (<[ "no_spaces_folders" :=
                       JBool (no_spaces_folders_var v) ]> d1))
              Re)
    as (wf & Ef & Af & Vf).
  { rewrite Ve. by rewrite decide_True. }
  pose proof Af as (_ & _ & Rf & _).
  destruct (setitem2_view "backup_options" "always_backup"
              (JBool (always_backup_var v)) wf d2 Rf)
    as (wg & Eg & Ag & Vg).
  { rewrite Vf, Ve, Vd, Vc, Vb, Va. by repeat (case_decide; [done|]). }
  pose proof Ag as (_ & _ & Rg & _).
  destruct (setitem_view "init_py_in_scripts"
              (JBool (init_py_in_scripts_var v)) wg Rg)
    as (wh & Eh & Ah & Vh); [by intros []|].
  exists wh. split_and!.
  - rewrite (bind_Ok _ _ _ _ _ Ea), (bind_Ok _ _ _ _ _ Eb),
      (bind_Ok _ _ _ _ _ Ec), (bind_Ok _ _ _ _ _ Ed), (bind_Ok _ _ _ _ _ Ee),
      (bind_Ok _ _ _ _ _ Ef), (bind_Ok _ _ _ _ _ Eg). exact Eh.
  - do 7 (eapply assigned_trans; [eassumption|]). exact Ah.
  - intros k. unfold window_view.
    rewrite Vh, Vg, Vf, Ve, Vd, Vc, Vb, Va.
    repeat (case_decide; [done|]). done.
Qed.

Lemma window_view_readings (v : settings_vars) (d1 d2 : gmap string jval)
    (w w1 : world) :
  (∀ k, setting w1 k = window_view v d1 d2 (setting w) k) →
  rules_of w1 (rules_of_vars v)
  ∧ main_mods_folder_is w1 (main_mods_folder_var v)
  ∧ backup_always w1 = Ok (always_backup_var v)
  ∧ setting_flag w1 "init_py_in_scripts" = init_py_in_scripts_var v
  ∧ setting_flag w1 "show_save_success" = setting_flag w "show_save_success"
  ∧ setting_flag w1 "show_open_location_prompt"
    = setting_flag w "show_open_location_prompt".
Proof.
  intros V. split_and!.
  - exists (JBool (no_spaces_folders_var v)), (JBool (no_spaces_files_var v)),
      (JBool (convert_spaces_underscores_var v)).
    rewrite !setting2_view, V. unfold window_view. cbn.
    by simplify_map_eq.
  - apply main_mods_folder_view. by rewrite V.
  - rewrite backup_always_view, V. unfold window_view. cbn.
    by simplify_map_eq.
  - by rewrite setting_flag_view, V.
  - by rewrite !setting_flag_view, V.
  - by rewrite !setting_flag_view, V.
Qed.

(** *** Saving, from the windows *)

(** [save_settings] never raises, and does nothing but copy, write and
    report. *)
Lemma save_settings_returns (w : world) :
  ∃ r es, save_settings w = (Ok r, replay es w) ∧ Forall save_event es.
Proof.
  unfold save_settings, safe_operation, save_settings_body, try_except, bind,
    get_world, when, copyfile, write_file, raise, ret.
  destruct (path_exists (fs w) SETTINGS_FILE).
  - destruct (os_refuses (fs w) (OpCopy _ _)).
    { eexists _, [_]. split; [done|]. by apply Forall_singleton. }
    destruct (files (fs w) !! SETTINGS_FILE).
    + destruct (os_refuses _ (OpWrite _)).
      * eexists _, [_; _]. split; [done|]. by repeat constructor.
      * eexists _, [_; _]. split; [done|]. by repeat constructor.
    + eexists _, [_]. split; [done|]. by apply Forall_singleton.
  - destruct (os_refuses _ (OpWrite _)).
    + eexists _, [_]. split; [done|]. by apply Forall_singleton.
    + eexists _, [_]. split; [done|]. by apply Forall_singleton.
Qed.

Lemma setting_replay (es : list event) (w : world) (k : string) :
  setting (replay es w) k = setting w k.
Proof.
  unfold setting. by destruct (replay_settings es w) as [-> ->].
Qed.

Lemma setting_flag_replay (es : list event) (w : world) (k : string) :
  setting_flag (replay es w) k = setting_flag w k.
Proof.
  destruct (replay_settings es w) as [Hs Ho]. by apply setting_flag_frame.
Qed.

Lemma refs_in_place_replay (es : list event) (w : world) :
  refs_in_place w → refs_in_place (replay es w).
Proof.
  intros R k l. destruct (replay_settings es w) as [-> _]. apply R.
Qed.

Lemma replay_fs (es : list event) (w w0 : world) :
  fs w = fs w0 → fs (replay es w) = fs (replay es w0).
Proof.
  revert w w0. induction es as [|e es IH]; intros w w0 H; [done|].
  rewrite !replay_cons. apply IH. cbn. by rewrite H.
Qed.

Lemma evolved_assigned (w w1 : world) : assigned w w1 → evolved [] w w1.
Proof.
  intros (Hfs & Htr & R & Hk & Hs). split_and!; try done.
  by rewrite app_nil_r.
Qed.

Lemma evolved_replay (es : list event) (w : world) :
  refs_in_place w → evolved es w (replay es w).
Proof.
  intros R. destruct (replay_settings es w) as [Hs Ho].
  split_and!; [done|apply replay_trace|by apply refs_in_place_replay|..].
  - intros l. by rewrite Hs.
  - intros l k2. by rewrite Ho.
Qed.

Lemma evolved_trans (es1 es2 : list event) (w w1 w2 : world) :
  evolved es1 w w1 → evolved es2 w1 w2 → evolved (es1 ++ es2) w w2.
Proof.
  intros (Hfs1 & Htr1 & R1 & Hk1 & Hs1) (Hfs2 & Htr2 & R2 & Hk2 & Hs2).
  split_and!; [| |done|intros l Hl; by apply Hk2, Hk1
              |intros l k2 Hl; by apply Hs2, Hs1].
  - rewrite Hfs2, replay_app. by apply replay_fs.
  - by rewrite Htr2, Htr1, app_assoc.
Qed.

(** Ticking "Don't show again": the flag is cleared in memory, and a save
    is attempted. *)
Lemma dont_show_again_run (k : string) (w : world) :
  refs_in_place w → (∀ l, k ≠ ref_key l) →
  ∃ w' es,
    try_except
      (when true (setitem k (JBool false) ;; _ <- save_settings ;; ret tt))
      (λ _, ret tt) w
    = (Ok tt, w')
    ∧ Forall save_event es
    ∧ evolved es w w'
    ∧ ∀ k', setting w' k'
            = if decide (k' = k) then Some (JBool false) else setting w k'.
Proof.
  intros R Hk.
  destruct (setitem_view k (JBool false) w R Hk) as (w1 & E1 & A1 & V1).
  pose proof A1 as (_ & _ & R1 & _).
  destruct (save_settings_returns w1) as (r & es & E2 & Hes).
  exists (replay es w1), es. split_and!; [|done|..].
  - unfold try_except, when. rewrite (bind_Ok _ _ _ _ _ E1).
    by rewrite (bind_Ok _ _ _ _ _ E2).
  - apply (evolved_trans [] es w w1); [by apply evolved_assigned|].
    by apply evolved_replay.
  - intros k'. by rewrite setting_replay.
Qed.

Lemma evolved_refl (w : world) : refs_in_place w → evolved [] w w.
Proof. intros R. by apply evolved_assigned, assigned_refl. Qed.

Lemma close_save_prompt_run (d : bool) (w : world) :
  refs_in_place w →
  ∃ w' es, close_save_prompt d w = (Ok tt, w')
    ∧ Forall save_event es
    ∧ evolved es w w'
    ∧ ∀ k, setting w' k
           = if decide (k = "show_save_success") then
               if d then Some (JBool false) else setting w k
             else setting w k.
Proof.
  intros R. destruct d.
  - unfold close_save_prompt.
    destruct (dont_show_again_run "show_save_success" w R)
      as (w1 & es & E & Hes & A & V); [by intros []|].
    by exists w1, es.
  - exists w, []. split_and!; [done|done|by apply evolved_refl|].
    intros k. by case_decide.
Qed.

Lemma close_prompt_run (d : bool) (w : world) :
  refs_in_place w →
  ∃ w' es, close_prompt d w = (Ok tt, w')
    ∧ Forall save_event es
    ∧ evolved es w w'
    ∧ ∀ k, setting w' k
           = if decide (k = "show_open_location_prompt") then
               if d then Some (JBool false) else setting w k
             else setting w k.
Proof.
  intros R. destruct d.
  - unfold close_prompt.
    destruct (dont_show_again_run "show_open_location_prompt" w R)
      as (w1 & es & E & Hes & A & V); [by intros []|].
    by exists w1, es.
  - exists w, []. split_and!; [done|done|by apply evolved_refl|].
    intros k. by case_decide.
Qed.

(** The whole of [save_settings_local], in terms of what the settings
    denote afterwards. *)
Lemma save_settings_local_run (v : settings_vars) (d : bool) (w : world)
    (d1 d2 : gmap string jval) :
  refs_in_place w →
  setting w "naming_rules" = Some (JObj d1) →
  setting w "backup_options" = Some (JObj d2) →
  ∃ w' es,
    save_settings_local v d w
    = (Ok (Some (setting_flag w "show_save_success")), w')
    ∧ Forall save_event es
    ∧ evolved es w w'
    ∧ ∀ k, setting w' k
           = if decide (k = "show_save_success") then
               if setting_flag w "show_save_success" && d
               then Some (JBool false) else setting w k
             else window_view v d1 d2 (setting w) k.
Proof.
  intros R H1 H2.
  destruct (store_settings_vars_run v w d1 d2 R H1 H2) as (wa & Ea & Aa & Va).
  pose proof Aa as (_ & _ & Ra & _).
  destruct (save_settings_returns wa) as (r & es1 & Eb & Hes1).
  assert (setting_flag (replay es1 wa) "show_save_success"
          = setting_flag w "show_save_success") as Hflag.
  { rewrite setting_flag_replay, !setting_flag_view. by rewrite Va. }
  assert (evolved es1 w (replay es1 wa)) as Hev1.
  { apply (evolved_trans [] es1 w wa); [by apply evolved_assigned|].
    by apply evolved_replay. }
  unfold save_settings_local, safe_operation.
  rewrite save_settings_local_body_split.
  rewrite (bind_Ok _ _ _ _ _ Ea). unfold save_and_confirm.
  rewrite (bind_Ok _ _ _ _ _ Eb).
  rewrite (bind_Ok get_world _ _ _ (replay es1 wa) eq_refl).
  rewrite Hflag.
  destruct (setting_flag w "show_save_success") eqn:Hf.
  - destruct (close_save_prompt_run d (replay es1 wa))
      as (wb & es2 & Ec & Hes2 & Ab & Vb);
      [by apply refs_in_place_replay|].
    rewrite (bind_Ok _ _ _ _ _ Ec). cbn.
    exists wb, (es1 ++ es2)%list. split_and!; [done| | |].
    + by apply Forall_app.
    + by apply (evolved_trans es1 es2 w (replay es1 wa)).
    + intros k. rewrite Vb, setting_replay, Va.
      case_decide; [subst k|done]. by destruct d.
  - exists (replay es1 wa), es1. split_and!; [done..|].
    intros k. rewrite setting_replay, Va. cbn. case_decide; [|done].
    by subst k.
Qed.

(** X5. Pressing "Save" in the settings window, with the naming rules and
    the backup options being dictionaries, never fails as a whole and
    puts the values of the window in force in memory: the naming rules,
    the main mods folder, the backup flag and the place of [__init__.py]
    read afterwards are the ones of the window.  This holds whatever the
    operating system does to the settings file.  The prompt "Settings
    saved successfully." is shown exactly when [show_save_success] was
    on, and the flag is off afterwards when the prompt was left with
    "Don't show again" ticked; the prompt of the generation is not
    touched. *)
Theorem save_settings_local_takes_effect (v : settings_vars)
    (dont_show_again : bool) (w : world) (d1 d2 : gmap string jval) :
  refs_in_place w →
  setting w "naming_rules" = Some (JObj d1) →
  setting w "backup_options" = Some (JObj d2) →
  ∃ w',
    save_settings_local v dont_show_again w
    = (Ok (Some (setting_flag w "show_save_success")), w')
    ∧ settings_readable w' (rules_of_vars v) (main_mods_folder_var v)
        (always_backup_var v)
    ∧ setting_flag w' "init_py_in_scripts" = init_py_in_scripts_var v
    ∧ setting_flag w' "show_save_success"
      = setting_flag w "show_save_success" && negb dont_show_again
    ∧ setting_flag w' "show_open_location_prompt"
      = setting_flag w "show_open_location_prompt".
Proof.
  intros R H1 H2.
  destruct (save_settings_local_run v dont_show_again w d1 d2 R H1 H2)
    as (w' & es & E & _ & _ & V).
  exists w'. split; [done|].
  assert (∀ k, k ≠ "show_save_success" →
               setting w' k = window_view v d1 d2 (setting w) k) as V'.
  { intros k Hk. rewrite V. by rewrite decide_False. }
  unfold settings_readable. split_and!.
  - exists (JBool (no_spaces_folders_var v)), (JBool (no_spaces_files_var v)),
      (JBool (convert_spaces_underscores_var v)).
    rewrite !setting2_view, V'; [|done]. unfold window_view. cbn.
    by simplify_map_eq.
  - apply main_mods_folder_view. by rewrite V'.
  - rewrite backup_always_view, V'; [|done]. unfold window_view. cbn.
    by simplify_map_eq.
  - by rewrite setting_flag_view, V'.
  - rewrite (setting_flag_view w'), V, decide_True by done.
    destruct (setting_flag w "show_save_success") eqn:Hf, dont_show_again;
      cbn [andb negb]; try done; by rewrite <- setting_flag_view.
  - rewrite !setting_flag_view, V'; [|done]. done.
Qed.

Lemma emit_leaves (e : event) (w : world) (p : string) :
  leaves p e → files (fs (emit e w)) !! p = files (fs w) !! p.
Proof.
  destruct e; cbn; try done.
  - intros Hp. by rewrite lookup_insert_ne.
  - intros Hp. destruct (files (fs w) !! src); [|done]. cbn.
    by rewrite lookup_insert_ne.
Qed.

Lemma replay_leaves (es : list event) (w : world) (p : string) :
  Forall (leaves p) es → files (fs (replay es w)) !! p = files (fs w) !! p.
Proof.
  revert w. induction es as [|e es IH]; intros w Hes; [done|].
  apply Forall_cons in Hes as [He Hes].
  rewrite replay_cons, IH by done. by apply emit_leaves.
Qed.

Lemma evolved_events (es : list event) (w w' : world) :
  evolved es w w' → events_since w w' = es.
Proof.
  intros (_ & Htr & _). unfold events_since.
  by rewrite Htr, drop_app_length.
Qed.

(** A save whose write is refused: the backup copy at most, then the
    dialog. *)
Lemma save_settings_refused (w : world) :
  (∀ f, os_refuses f (OpWrite SETTINGS_FILE) = true) →
  ∃ e es, save_settings w = (Ok None, replay (es ++ [failed_dialog e]) w)
    ∧ Forall (leaves SETTINGS_FILE) es.
Proof.
  intros Hos.
  unfold save_settings, safe_operation, save_settings_body, try_except,
    bind, get_world, when, copyfile, write_file, raise, ret.
  destruct (path_exists (fs w) SETTINGS_FILE).
  - destruct (os_refuses (fs w) (OpCopy _ _)).
    { by eexists _, []. }
    destruct (files (fs w) !! SETTINGS_FILE).
    + rewrite Hos. eexists _, [_]. split; [done|].
      by apply Forall_singleton.
    + by eexists _, [].
  - rewrite Hos. by eexists _, [].
Qed.

(** X6. When the operating system refuses to write the settings file,
    "Save" in the settings window still shows "Settings saved
    successfully." (the prompt being on): [save_settings] has reported
    its failure in a dialog of its own and returned, and
    [save_settings_local] goes on.  No write of the settings file has
    taken place. *)
Theorem failed_save_is_confirmed (v : settings_vars)
    (dont_show_again : bool) (w : world) (d1 d2 : gmap string jval) :
  refs_in_place w →
  setting w "naming_rules" = Some (JObj d1) →
  setting w "backup_options" = Some (JObj d2) →
  setting_flag w "show_save_success" = true →
  (∀ f, os_refuses f (OpWrite SETTINGS_FILE) = true) →
  ∃ w',
    save_settings_local v dont_show_again w = (Ok (Some true), w')
    ∧ (∀ text, FsWrite SETTINGS_FILE text ∉ events_since w w')
    ∧ ∃ e, failed_dialog e ∈ events_since w w'.
Proof.
  intros R H1 H2 Hflag Hos.
  destruct (store_settings_vars_run v w d1 d2 R H1 H2) as (wa & Ea & Aa & Va).
  pose proof Aa as (_ & _ & Ra & _).
  destruct (save_settings_refused wa Hos) as (e1 & es1 & Eb & Hes1).
  set (ES1 := (es1 ++ [failed_dialog e1])%list) in *.
  assert (Forall (leaves SETTINGS_FILE) ES1) as HES1.
  { apply Forall_app. split; [done|]. by apply Forall_singleton. }
  assert (evolved ES1 w (replay ES1 wa)) as Hev1.
  { apply (evolved_trans [] ES1 w wa); [by apply evolved_assigned|].
    by apply evolved_replay. }
  assert (setting_flag (replay ES1 wa) "show_save_success" = true) as Hflag1.
  { rewrite setting_flag_replay, setting_flag_view, Va.
    rewrite setting_flag_view in Hflag. exact Hflag. }
  assert (∃ w' ES2, close_save_prompt dont_show_again (replay ES1 wa)
                    = (Ok tt, w')
                    ∧ evolved ES2 (replay ES1 wa) w'
                    ∧ Forall (leaves SETTINGS_FILE) ES2)
    as (w' & ES2 & Ec & Hev2 & HES2).
  { pose proof (refs_in_place_replay ES1 wa Ra) as Rb.
    destruct dont_show_again.
    - destruct (setitem_view "show_save_success" (JBool false) _ Rb)
        as (wc & Ecs & Ac & _); [by intros []|].
      pose proof Ac as (_ & _ & Rc & _).
      destruct (save_settings_refused wc Hos) as (e2 & es2 & Ed & Hes2).
      eexists _, (es2 ++ [failed_dialog e2])%list. split_and!.
      + unfold close_save_prompt, try_except, when.
        rewrite (bind_Ok _ _ _ _ _ Ecs). by rewrite (bind_Ok _ _ _ _ _ Ed).
      + apply (evolved_trans [] _ _ wc); [by apply evolved_assigned|].
        by apply evolved_replay.
      + apply Forall_app. split; [done|]. by apply Forall_singleton.
    - exists (replay ES1 wa), []. split_and!; [done| |done].
      by apply evolved_refl. }
  pose proof (evolved_trans _ _ _ _ _ Hev1 Hev2) as Hev.
  exists w'. split_and!.
  - unfold save_settings_local, safe_operation.
    rewrite save_settings_local_body_split.
    rewrite (bind_Ok _ _ _ _ _ Ea). unfold save_and_confirm.
    rewrite (bind_Ok _ _ _ _ _ Eb).
    rewrite (bind_Ok get_world _ _ _ (replay ES1 wa) eq_refl).
    rewrite Hflag1. by rewrite (bind_Ok _ _ _ _ _ Ec).
  - intros text Hin. rewrite (evolved_events _ _ _ Hev) in Hin.
    assert (Forall (leaves SETTINGS_FILE) (ES1 ++ ES2)) as Hall
      by (apply Forall_app; by split).
    rewrite Forall_forall in Hall. by apply (Hall _ Hin).
  - exists e1. rewrite (evolved_events _ _ _ Hev). unfold ES1.
    rewrite !elem_of_app, elem_of_cons. by left; right; left.
Qed.

Lemma default_value_shared (w : world) (l : loc) :
  settings_data w !! ref_key l = Some (Ref l) →
  default_value (objs w) (ref_key l) = setting w (ref_key l).
Proof.
  intros H. unfold default_value, setting.
  by rewrite H, DEFAULT_SETTINGS_ref.
Qed.

(** X7. [settings_data] is a shallow copy of [DEFAULT_SETTINGS]: as long
    as its naming rules and backup options are the dictionaries of
    [DEFAULT_SETTINGS] themselves, "Save" in the settings window writes
    the ticks of the window into [DEFAULT_SETTINGS].  Afterwards the
    defaults denote the values of the window, and resetting the settings
    to [DEFAULT_SETTINGS.copy()] gives the window's naming rules and
    backup flag again, not those of the literal. *)
Theorem save_settings_local_rewrites_defaults (v : settings_vars)
    (dont_show_again : bool) (w : world) :
  refs_in_place w →
  settings_data w !! "naming_rules" = Some (Ref NamingRulesObj) →
  settings_data w !! "backup_options" = Some (Ref BackupOptionsObj) →
  ∃ r w' w'',
    save_settings_local v dont_show_again w = (Ok r, w')
    ∧ default_value (objs w') "naming_rules"
      = Some (JObj
                (<[ "convert_spaces_underscores" :=
                      JBool (convert_spaces_underscores_var v) ]>
                   (<[ "no_spaces_files" := JBool (no_spaces_files_var v) ]>
                      (<[ "no_spaces_folders" :=
                            JBool (no_spaces_folders_var v) ]>
                         (deref (objs w) NamingRulesObj)))))
    ∧ default_value (objs w') "backup_options"
      = Some (JObj (<[ "always_backup" := JBool (always_backup_var v) ]>
                      (deref (objs w) BackupOptionsObj)))
    ∧ reset_to_defaults w' = (Ok tt, w'')
    ∧ rules_of w'' (rules_of_vars v)
    ∧ backup_always w'' = Ok (always_backup_var v).
Proof.
  intros R H1 H2.
  assert (setting w "naming_rules"
          = Some (JObj (deref (objs w) NamingRulesObj))) as S1.
  { unfold setting. by rewrite H1. }
  assert (setting w "backup_options"
          = Some (JObj (deref (objs w) BackupOptionsObj))) as S2.
  { unfold setting. by rewrite H2. }
  destruct (save_settings_local_run v dont_show_again w _ _ R S1 S2)
    as (w' & es & E & _ & (_ & _ & _ & Hk & _) & V).
  pose proof (Hk NamingRulesObj H1) as K1.
  pose proof (Hk BackupOptionsObj H2) as K2.
  pose proof (default_value_shared w' NamingRulesObj K1) as D1.
  pose proof (default_value_shared w' BackupOptionsObj K2) as D2.
  cbn [ref_key] in D1, D2. rewrite V in D1, D2.
  rewrite decide_False in D1 by done. rewrite decide_False in D2 by done.
  unfold window_view in D1, D2.
  rewrite decide_False, decide_False, decide_True in D1 by done.
  rewrite decide_False, decide_True in D2 by done.
  eexists _, w', _. split_and!; [exact E|exact D1|exact D2|done|..].
  - exists (JBool (no_spaces_folders_var v)), (JBool (no_spaces_files_var v)),
      (JBool (convert_spaces_underscores_var v)).
    rewrite !setting2_view.
    change (setting (set_settings_data DEFAULT_SETTINGS w') "naming_rules")
      with (default_value (objs w') "naming_rules").
    rewrite D1. by simplify_map_eq.
  - rewrite backup_always_view.
    change (setting (set_settings_data DEFAULT_SETTINGS w') "backup_options")
      with (default_value (objs w') "backup_options").
    rewrite D2. by simplify_map_eq.
Qed.

(** *** Saving and starting again *)

Lemma save_settings_Some (w w1 : world) :
  save_settings w = (Ok (Some tt), w1) →
  files (fs w1) !! SETTINGS_FILE = Some (json_dump (settings_json w)).
Proof.
  unfold save_settings, safe_operation, save_settings_body, try_except,
    bind, get_world, when, copyfile, write_file, raise, ret.
  destruct (path_exists (fs w) SETTINGS_FILE).
  - destruct (os_refuses (fs w) (OpCopy _ _)); [done|].
    destruct (files (fs w) !! SETTINGS_FILE); [|done].
    destruct (os_refuses _ (OpWrite _)); [done|].
    intros [= <-]. cbn. by rewrite lookup_insert_eq.
  - destruct (os_refuses _ (OpWrite _)); [done|].
    intros [= <-]. cbn. by rewrite lookup_insert_eq.
Qed.

(** X8. What a successful save has written is what the next start of the
    program loads: when the settings have every default key, and the
    text written is read back by [json.load] as the value dumped, then
    [load_settings] in a fresh process finds every setting as it was in
    memory at the time of the save. *)
Theorem saved_settings_are_loaded_back (w w1 : world) :
  has_defaults w →
  json_load (json_dump (settings_json w)) = Some (settings_json w) →
  save_settings w = (Ok (Some tt), w1) →
  os_refuses (fs w1) (OpRead SETTINGS_FILE) = false →
  ∃ w2, load_settings (initial_world (fs w1)) = (Ok (Some tt), w2)
    ∧ ∀ k, setting w2 k = setting w k.
Proof.
  intros [Htop Hnested] Hcodec Hsave Hread.
  apply save_settings_Some in Hsave.
  set (m := resolve (objs w) <$> settings_data w).
  assert (settings_file_holds (fs (initial_world (fs w1))) m) as Hholds.
  { split; [done|]. by eexists. }
  rewrite (load_settings_object _ _ Hholds). eexists. split; [done|].
  destruct (merge_loop (initial_world (fs w1)) m) as (_ & _ & Hst & Hsd).
  intros k. unfold setting at 1. rewrite Hsd.
  assert (m !! k = setting w k) as -> by apply lookup_fmap.
  destruct (setting w k) as [x|] eqn:Hx.
  - destruct (DEFAULT_SETTINGS !! k) as [s|] eqn:Hd; [|done].
    apply DEFAULT_SETTINGS_cases in Hd as [(l & -> & ->)|(v0 & -> & _)];
      [|done].
    destruct x as [| | | | | |dv]; try done. cbn. rewrite Hst.
    assert (m !! ref_key l = Some (JObj dv)) as ->.
    { unfold m. rewrite lookup_fmap. exact Hx. }
    do 2 f_equal. apply map_eq. intros i. rewrite lookup_union.
    destruct (dv !! i) as [y|] eqn:Hy.
    + by destruct (deref _ l !! i).
    + destruct (deref (objs (initial_world (fs w1))) l !! i) as [z|] eqn:Hz;
        [|done].
      destruct (Hnested l dv i Hx) as [y' Hy']; [by eexists|]. congruence.
  - destruct (DEFAULT_SETTINGS !! k) as [s|] eqn:Hd; [|done].
    destruct (Htop k) as [s' Hs']; [by eexists|]. congruence.
Qed.

(** *** What a generation can do *)

Lemma safe_operation_returns {A} (m : M A) (w : world) :
  ∃ o w', safe_operation m w = (Ok o, w').
Proof.
  unfold safe_operation. destruct (m w) as [[a|e] w']; by eexists _, _.
Qed.

Lemma generate_mod_events (rq : request) (w : world) :
  ∃ o es, generate_mod rq w = (Ok o, replay es w)
    ∧ Forall (generation_event w) es.
Proof.
  destruct (safe_operation_returns (logged (generate_mod_body rq)) w)
    as (o & w' & E).
  fold (generate_mod rq) in E.
  pose proof (effects_generate_mod
                (λ w0, settings_data w0 = settings_data w
                       ∧ objs w0 = objs w)
                (generation_event w)) as H.
  destruct (H (λ e w0 Hw0, Hw0)) with (rq := rq) (w := w) (r := Ok o) (w' := w')
    as [(es & -> & Hes) _]; try done.
  - intros w0 p [Hs Ho] Hflag. cbn.
    by rewrite <- (setting_flag_frame w w0).
  - by exists o, es.
Qed.

(** X9. [generate_mod] never shows an information dialog: the branch
    "No file type selected. No files created." cannot be reached,
    because [modinfo.py] is always in the list of created files when that
    list is inspected.  And the prompt "Open file location?" appears only
    when [show_open_location_prompt] is on. *)
Theorem generate_mod_dialogs (rq : request) (w : world) :
  let w' := (generate_mod rq w).2 in
  (∀ title m, ShowInfo title m ∉ events_since w w')
  ∧ (∀ folder, OpenLocationPrompt folder ∈ events_since w w' →
               setting_flag w "show_open_location_prompt" = true).
Proof.
  destruct (generate_mod_events rq w) as (o & es & E & Hes).
  rewrite E. cbn. rewrite events_since_replay.
  rewrite Forall_forall in Hes. split.
  - intros title m Hin. exact (Hes _ Hin).
  - intros folder Hin. exact (Hes _ Hin).
Qed.

(** X10. A generation never raises to its caller, and it changes the
    outside world by adding only: what was in the trace stays, every
    file that was there is still there, and so is every directory. *)
Theorem generate_mod_only_adds (rq : request) (w : world) :
  let w' := (generate_mod rq w).2 in
  (∃ o, (generate_mod rq w).1 = Ok o)
  ∧ trace w `prefix_of` trace w'
  ∧ (∀ p, file_in w p → file_in w' p)
  ∧ (∀ d, d ∈ dirs (fs w) → d ∈ dirs (fs w')).
Proof.
  destruct (generate_mod_events rq w) as (o & es & E & _).
  rewrite E. cbn. split_and!; [by exists o|..].
  - rewrite replay_trace. by apply prefix_app_r.
  - intros p. apply replay_keeps_file.
  - intros d. apply replay_keeps_dir.
Qed.

(** X11. Leaving the prompt "Open file location?" with "Don't show
    again" ticked switches the prompt off in memory at once, whether or
    not the settings could be written to disk: the generation that
    follows does not show it.  Leaving it without the tick changes
    nothing. *)
Theorem dont_show_again_silences_prompt (rq : request) (w : world) :
  refs_in_place w →
  (∃ w1, close_prompt true w = (Ok tt, w1)
     ∧ setting_flag w1 "show_open_location_prompt" = false
     ∧ ∀ folder,
         OpenLocationPrompt folder ∉ events_since w1 (generate_mod rq w1).2)
  ∧ close_prompt false w = (Ok tt, w).
Proof.
  intros R. split; [|done].
  destruct (close_prompt_run true w R) as (w1 & es & E & _ & _ & V).
  exists w1.
  assert (setting_flag w1 "show_open_location_prompt" = false) as Hflag.
  { rewrite setting_flag_view, V. by rewrite decide_True. }
  split_and!; [done..|].
  intros folder Hin.
  destruct (generate_mod_events rq w1) as (o & es1 & E1 & Hes1).
  rewrite E1 in Hin. cbn in Hin. rewrite events_since_replay in Hin.
  rewrite Forall_forall in Hes1. apply Hes1 in Hin. cbn in Hin. congruence.
Qed.

(** *** Settings of the wrong type *)

Lemma load_settings_value (w : world) (d : gmap string jval) (k : string)
    (x : jval) :
  settings_file_holds (fs w) d →
  d !! k = Some x → is_dict x = false →
  ∃ w', load_settings w = (Ok (Some tt), w')
    ∧ fs w' = fs w ∧ trace w' = trace w
    ∧ settings_data w' !! k = Some (Imm x).
Proof.
  intros Hholds Hk Hx. rewrite (load_settings_object _ _ Hholds).
  eexists. split; [done|].
  destruct (merge_loop w d) as (Hfs & Htr & _ & Hsd).
  split_and!; [done..|]. rewrite Hsd, Hk.
  destruct (DEFAULT_SETTINGS !! k) as [[v|l]|]; [done| |done].
  by rewrite Hx.
Qed.

Lemma generate_mod_raises_at_once (rq : request) (w : world) (x : jval) :
  names_given rq →
  settings_data w !! "naming_rules" = Some (Imm x) → is_dict x = false →
  generate_mod rq w = (Ok None, emit (failed_dialog TypeError) w).
Proof.
  intros Hn Hk Hx. apply names_given_eqb in Hn as [E1 E2].
  assert (∀ name is_folder,
            apply_naming_rules name is_folder w = (Raise TypeError, w)) as Hr.
  { intros name is_folder.
    unfold apply_naming_rules, bind, get_world, lift, setting2, getitem,
      subscript.
    rewrite Hk. cbn. by destruct x. }
  unfold generate_mod, safe_operation. rewrite logged_eq.
  unfold generate_mod_body. rewrite E1, E2.
  by rewrite (bind_Raise _ _ _ _ _ (Hr _ _)).
Qed.

(** X12. [load_settings] takes the value of a settings file as it comes.
    When the file gives [naming_rules] a value that is not an object, the
    load succeeds without a word, and from then on every generation with
    both names given fails with "Operation failed" before anything is
    created: nothing is written, no directory is made. *)
Theorem ill_typed_naming_rules_block_generation (w : world)
    (d : gmap string jval) (x : jval) (rq : request) :
  settings_file_holds (fs w) d →
  d !! "naming_rules" = Some x → is_dict x = false →
  names_given rq →
  ∃ w', load_settings w = (Ok (Some tt), w')
    ∧ trace w' = trace w
    ∧ generate_mod rq w' = (Ok None, emit (failed_dialog TypeError) w')
    ∧ fs (emit (failed_dialog TypeError) w') = fs w.
Proof.
  intros Hholds Hk Hx Hn.
  destruct (load_settings_value w d _ x Hholds Hk Hx)
    as (w' & E & Hfs & Htr & Hs).
  exists w'. split_and!; [done|done| |done].
  by apply (generate_mod_raises_at_once rq w' x).
Qed.

(** X13. When [backup_options] is not a dictionary, a generation that
    the operating system does not hinder creates the directory and all
    its files and then fails where the backup flag is read: the user is
    told "Operation failed", nothing is backed up and the folder is not
    offered for opening. *)
Theorem ill_typed_backup_options_fail_late (rq : request) (w : world)
    (rules : naming_rules) (root : string) (x : jval) :
  permissive → names_given rq → rules_of w rules →
  main_mods_folder_is w root →
  setting w "backup_options" = Some x → is_dict x = false →
  let full := path_join root
                (naming_reference rules (strip (folder_name_var rq)) true) in
  let cleaned := naming_reference rules (strip (file_name_var rq)) false in
  let plan := creation_plan rq (setting_flag w "init_py_in_scripts")
                full cleaned in
  generate_mod rq w
  = (Ok None, emit (failed_dialog AttributeError) (replay plan w)).
Proof.
  intros Hperm Hn Hr Hroot Hb Hx full cleaned plan.
  pose proof (reaches_backup_permissive rq w rules root Hperm Hn Hr Hroot)
    as (_ & cfo & cfi & w1 & H1 & H2 & H3 & H4 & H5).
  fold full cleaned plan in H3, H4, H5.
  assert (backup_always (replay plan w) = Raise AttributeError) as Hraise.
  { rewrite backup_always_view, setting_replay, Hb. by destruct x. }
  apply names_given_eqb in Hn as [E1 E2].
  unfold generate_mod, safe_operation. rewrite logged_eq.
  unfold generate_mod_body. rewrite E1, E2.
  rewrite (bind_Ok _ _ _ _ _ H1), (bind_Ok _ _ _ _ _ H2),
    (bind_Ok _ _ _ _ _ H3), (bind_Ok _ _ _ _ _ H4), (bind_Ok _ _ _ _ _ H5).
  by rewrite (bind_Raise _ _ _ _ _
                (backup_files_raise _ _ _ _ Hraise)).
Qed.

(** X14. A settings file that holds JSON which is not an object (a list,
    a number, a string) is not treated as corrupted: the defaults are put
    in place first, then reading the items fails, and [load_settings]
    ends with the dialog "Operation failed" instead of "Settings file is
    corrupted".  The file is left as it is. *)
Theorem load_settings_not_an_object (w : world) (text : string) (x : jval) :
  os_refuses (fs w) (OpRead SETTINGS_FILE) = false →
  files (fs w) !! SETTINGS_FILE = Some text →
  json_load text = Some x → is_dict x = false →
  load_settings w
  = (Ok None,
     emit (failed_dialog AttributeError)
       (set_settings_data DEFAULT_SETTINGS w)).
Proof.
  intros Hos Hf Hj Hx.
  unfold load_settings, safe_operation, load_settings_body.
  rewrite (path_exists_file _ _ _ Hf).
  unfold try_except, bind, read_file. rewrite Hos, Hf, Hj. cbn.
  by destruct x.
Qed.

(** *** Cleaned names *)

Lemma remove_spaces_no_space (s : string) : no_space (remove_spaces s).
Proof.
  unfold no_space, remove_spaces.
  rewrite list_ascii_of_string_of_list_ascii.
  intros [H _]%list_elem_of_filter. by apply H.
Qed.

Lemma spaces_to_underscores_no_space (s : string) :
  no_space (spaces_to_underscores s).
Proof.
  unfold no_space, spaces_to_underscores.
  rewrite list_ascii_of_string_of_list_ascii.
  intros (c & Hc & _)%list_elem_of_fmap. revert Hc.
  destruct (Ascii.eqb_spec c space) as [->|Hne]; [done|]. by intros <-.
Qed.

Lemma remove_spaces_id (s : string) : no_space s → remove_spaces s = s.
Proof.
  unfold no_space, remove_spaces. intros H.
  rewrite <- (string_of_list_ascii_of_string s) at 2. f_equal.
  induction (list_ascii_of_string s) as [|c l IH]; [done|].
  apply not_elem_of_cons in H as [Hc Hl].
  rewrite filter_cons, decide_True by done. by rewrite IH.
Qed.

Lemma spaces_to_underscores_id (s : string) :
  no_space s → spaces_to_underscores s = s.
Proof.
  unfold no_space, spaces_to_underscores. intros H.
  rewrite <- (string_of_list_ascii_of_string s) at 2. f_equal.
  induction (list_ascii_of_string s) as [|c l IH]; [done|].
  apply not_elem_of_cons in H as [Hc Hl].
  rewrite fmap_cons, IH by done.
  destruct (Ascii.eqb_spec c space) as [->|_]; [done|done].
Qed.

Lemma naming_reference_id (rules : naming_rules) (s : string)
    (is_folder : bool) :
  no_space s → naming_reference rules s is_folder = s.
Proof.
  intros H. unfold naming_reference.
  destruct is_folder, (no_spaces_folders rules), (no_spaces_files rules),
    (convert_spaces_underscores rules); cbn [andb negb];
    rewrite ?(remove_spaces_id s H), ?(spaces_to_underscores_id s H); done.
Qed.

Lemma naming_reference_no_space (rules : naming_rules) (s : string)
    (is_folder : bool) :
  removes_spaces rules is_folder || convert_spaces_underscores rules = true →
  no_space (naming_reference rules s is_folder).
Proof.
  unfold naming_reference, removes_spaces.
  destruct is_folder, (no_spaces_folders rules), (no_spaces_files rules),
    (convert_spaces_underscores rules); cbn [andb negb orb]; try done;
    intros _;
    first [ apply spaces_to_underscores_no_space
          | apply remove_spaces_no_space ].
Qed.

Lemma naming_reference_off (rules : naming_rules) (s : string)
    (is_folder : bool) :
  removes_spaces rules is_folder || convert_spaces_underscores rules = false →
  naming_reference rules s is_folder = s.
Proof.
  unfold naming_reference, removes_spaces.
  by destruct is_folder, (no_spaces_folders rules), (no_spaces_files rules),
    (convert_spaces_underscores rules).
Qed.

Lemma lstrip_head (s : string) :
  lstrip s = "" ∨ ∃ c t, lstrip s = String c t ∧ is_space c = false.
Proof.
  induction s as [|c s IH]; [by left|]. cbn.
  destruct (is_space c) eqn:Hc; [done|]. right. by exists c, s.
Qed.

Lemma rstrip_head (c : ascii) (t : string) :
  is_space c = false → ∃ t', rstrip (String c t) = String c t'.
Proof.
  intros Hc. cbn. destruct (rstrip t); rewrite ?Hc; by eexists.
Qed.

Lemma strip_head (s : string) :
  strip s ≠ "" → ∃ c t, strip s = String c t ∧ c ≠ space.
Proof.
  unfold strip. intros Hne.
  destruct (lstrip_head s) as [E|(c & t & E & Hc)].
  - by rewrite E in Hne.
  - rewrite E. destruct (rstrip_head c t Hc) as [t' ->].
    exists c, t'. split; [done|]. by intros ->.
Qed.

Lemma naming_reference_head (rules : naming_rules) (c : ascii) (t : string)
    (is_folder : bool) :
  c ≠ space → ∃ t', naming_reference rules (String c t) is_folder = String c t'.
Proof.
  intros Hc.
  assert (∀ t0, ∃ t', remove_spaces (String c t0) = String c t') as Hrs.
  { intros t0. unfold remove_spaces. cbn [list_ascii_of_string].
    rewrite filter_cons, decide_True by done. by eexists. }
  assert (∀ t0, ∃ t', spaces_to_underscores (String c t0) = String c t')
    as Hsu.
  { intros t0. unfold spaces_to_underscores. cbn [list_ascii_of_string].
    rewrite fmap_cons. cbn [string_of_list_ascii].
    destruct (Ascii.eqb_spec c space) as [->|_]; [done|]. by eexists. }
  unfold naming_reference.
  destruct (is_folder && _).
  - destruct (Hrs t) as [t1 ->]. destruct (negb is_folder && _).
    + destruct (Hrs t1) as [t2 ->].
      destruct (convert_spaces_underscores rules); [apply Hsu|by eexists].
    + destruct (convert_spaces_underscores rules); [apply Hsu|by eexists].
  - destruct (negb is_folder && _).
    + destruct (Hrs t) as [t2 ->].
      destruct (convert_spaces_underscores rules); [apply Hsu|by eexists].
    + destruct (convert_spaces_underscores rules); [apply Hsu|by eexists].
Qed.

(** X15. The name [apply_naming_rules] gives for a name as [generate_mod]
    passes it (stripped and not empty) is never empty and begins with the
    same character.  It has no space left as soon as the rule on spaces
    for its kind or the rule on underscores is on, it is the name itself
    when both are off, and applying the rules to it once more changes
    nothing. *)
Theorem cleaned_name_is_sound (w : world) (rules : naming_rules)
    (name : string) (is_folder : bool) :
  rules_of w rules → strip name ≠ "" →
  ∃ cleaned c t t',
    apply_naming_rules (strip name) is_folder w = (Ok cleaned, w)
    ∧ strip name = String c t ∧ cleaned = String c t'
    ∧ apply_naming_rules cleaned is_folder w = (Ok cleaned, w)
    ∧ (if removes_spaces rules is_folder || convert_spaces_underscores rules
       then no_space cleaned else cleaned = strip name).
Proof.
  intros Hr Hne.
  destruct (strip_head name Hne) as (c & t & E & Hc).
  destruct (naming_reference_head rules c t is_folder Hc) as [t' E'].
  exists (naming_reference rules (strip name) is_folder), c, t, t'.
  rewrite !(apply_naming_rules_run w rules) by done.
  split_and!; [done|done|by rewrite E| |].
  - destruct (removes_spaces rules is_folder
              || convert_spaces_underscores rules) eqn:Hon.
    + by rewrite naming_reference_id by by apply naming_reference_no_space.
    + by rewrite !naming_reference_off.
  - destruct (removes_spaces rules is_folder
              || convert_spaces_underscores rules) eqn:Hon.
    + by apply naming_reference_no_space.
    + by apply naming_reference_off.
Qed.

(** *** Well-formed settings *)

Lemma well_formed_view (w w' : world) :
  refs_in_place w' →
  (∀ k, setting w' k = setting w k) →
  has_defaults w → has_defaults w'.
Proof.
  intros R V [Htop Hnested]. split.
  - intros k. rewrite V. apply Htop.
  - intros l dv k2. rewrite V. apply Hnested.
Qed.

Lemma well_formed_replay (es : list event) (w : world) :
  well_formed w → well_formed (replay es w).
Proof.
  intros [R H]. split; [by apply refs_in_place_replay|].
  apply (well_formed_view w); [by apply refs_in_place_replay| |done].
  intros k. apply setting_replay.
Qed.

Lemma well_formed_emit (e : event) (w : world) :
  well_formed w → well_formed (emit e w).
Proof. apply (well_formed_replay [e]). Qed.

Lemma preserves_bind {A B} (J : world → Prop) (m : M A) (k : A → M B) :
  preserves J m → (∀ a, preserves J (k a)) → preserves J (bind m k).
Proof.
  intros Hm Hk w r w' HJ. unfold bind.
  destruct (m w) as [[a|e] w1] eqn:E.
  - apply (Hk a). by apply (Hm w _ _ HJ E).
  - intros [= <- <-]. by apply (Hm w _ _ HJ E).
Qed.

Lemma preserves_try_except {A} (J : world → Prop) (m : M A)
    (h : exn → M A) :
  preserves J m → (∀ e, preserves J (h e)) → preserves J (try_except m h).
Proof.
  intros Hm Hh w r w' HJ. unfold try_except.
  destruct (m w) as [[a|e] w1] eqn:E.
  - intros [= <- <-]. by apply (Hm w _ _ HJ E).
  - apply (Hh e). by apply (Hm w _ _ HJ E).
Qed.

Lemma preserves_ret {A} (J : world → Prop) (a : A) : preserves J (ret a).
Proof. by intros w r w' HJ [= <- <-]. Qed.

Lemma preserves_raise {A} (J : world → Prop) (e : exn) :
  preserves J (raise e : M A).
Proof. by intros w r w' HJ [= <- <-]. Qed.

Lemma preserves_get_world (J : world → Prop) : preserves J get_world.
Proof. by intros w r w' HJ [= <- <-]. Qed.

Lemma preserves_when (J : world → Prop) (b : bool) (m : M unit) :
  preserves J m → preserves J (when b m).
Proof. intros Hm. destruct b; [done|]. apply preserves_ret. Qed.

Lemma preserves_safe_operation {A} (m : M A) :
  preserves well_formed m → preserves well_formed (safe_operation m).
Proof.
  intros Hm w r w' HJ. unfold safe_operation.
  destruct (m w) as [[a|e] w1] eqn:E; intros [= <- <-].
  - by apply (Hm w _ _ HJ E).
  - apply well_formed_emit. by apply (Hm w _ _ HJ E).
Qed.

Lemma preserves_save_settings : preserves well_formed save_settings.
Proof.
  intros w r w' HJ E.
  destruct (save_settings_returns w) as (r0 & es & E0 & _).
  rewrite E0 in E. injection E as _ <-. by apply well_formed_replay.
Qed.

Lemma preserves_generate_mod (rq : request) :
  preserves well_formed (generate_mod rq).
Proof.
  intros w r w' HJ E.
  destruct (generate_mod_events rq w) as (r0 & es & E0 & _).
  rewrite E0 in E. injection E as _ <-. by apply well_formed_replay.
Qed.

Lemma preserves_setitem (k : string) (v : jval) :
  (∀ l, k ≠ ref_key l) → preserves well_formed (setitem k v).
Proof.
  intros Hk w r w' [R [Htop Hnested]] E.
  destruct (setitem_view k v w R Hk) as (w1 & E1 & (_ & _ & R1 & _) & V).
  rewrite E1 in E. injection E as _ <-. split; [done|]. split.
  - intros k' Hk'. rewrite V. case_decide; [done|]. by apply Htop.
  - intros l dv k2. rewrite V. rewrite decide_False by apply not_eq_sym, Hk.
    apply Hnested.
Qed.

Lemma setitem2_raises (k1 k2 : string) (v : jval) (w w' : world) (e : exn) :
  setitem2 k1 k2 v w = (Raise e, w') → w' = w.
Proof.
  unfold setitem2.
  destruct (settings_data w !! k1) as [[x|l]|]; [|done|by intros [= _ <-]].
  by destruct x; intros [= _ <-].
Qed.

Lemma setitem2_Ok (k1 k2 : string) (v : jval) (w w' : world) :
  setitem2 k1 k2 v w = (Ok tt, w') → ∃ d, setting w k1 = Some (JObj d).
Proof.
  unfold setitem2, setting.
  destruct (settings_data w !! k1) as [[x|l]|]; [|by eexists|done].
  destruct x; try done. by eexists.
Qed.

Lemma preserves_setitem2 (k1 k2 : string) (v : jval) :
  preserves well_formed (setitem2 k1 k2 v).
Proof.
  intros w r w' [R [Htop Hnested]] E. destruct r as [[]|e].
  - destruct (setitem2_Ok _ _ _ _ _ E) as [d Hd].
    destruct (setitem2_view k1 k2 v w d R Hd)
      as (w1 & E1 & (_ & _ & R1 & _) & V).
    rewrite E1 in E. injection E as <-. split; [done|]. split.
    + intros k' Hk'. rewrite V. case_decide; [done|]. by apply Htop.
    + intros l dv k. rewrite V. case_decide as Hl.
      * intros [= <-] Hp. apply lookup_insert_is_Some'. right.
        apply (Hnested l d k); [by rewrite Hl|done].
      * apply Hnested.
  - apply setitem2_raises in E as ->. by split.
Qed.

Lemma merged_into_defaults (w : world) :
  merged_into w ∅ (set_settings_data DEFAULT_SETTINGS w).
Proof. repeat split; intros; by rewrite ?lookup_empty. Qed.

Lemma merged_into_emit (e : event) (w r : world) (d : gmap string jval) :
  merged_into w d r → merged_into (emit e w) d (emit e r).
Proof.
  intros (Hfs & Htr & Hst & Hsd). split_and!; cbn; [|by rewrite Htr|done..].
  by rewrite Hfs.
Qed.

(** Where [load_settings] ends, on every path: a copy of the defaults
    into which some items have been merged, after one dialog at most; or,
    when [json.load] raises what the handler does not name, the settings
    as they were and the dialog of [safe_operation]. *)
Lemma load_settings_cases (w : world) :
  (∃ w0 d, merged_into w0 d (load_settings w).2 ∧ objs w0 = objs w
     ∧ (w0 = w ∨ ∃ title m, w0 = emit (ShowError title m) w))
  ∨ (∃ e, (load_settings w).2 = emit (failed_dialog e) w).
Proof.
  unfold load_settings, safe_operation, load_settings_body.
  destruct (path_exists (fs w) SETTINGS_FILE);
    [|left; exists w, ∅; split_and!; [apply merged_into_defaults|done|by left]].
  unfold try_except, bind, read_file.
  assert (∃ w0 d,
            merged_into w0 d
              (set_settings_data DEFAULT_SETTINGS (emit corrupt_dialog w))
            ∧ objs w0 = objs w
            ∧ (w0 = w ∨ ∃ title m, w0 = emit (ShowError title m) w))
    as Hcorrupt.
  { exists (emit corrupt_dialog w), ∅.
    split_and!; [apply merged_into_defaults|done|]. right. by eexists _, _. }
  destruct (os_refuses (fs w) (OpRead SETTINGS_FILE)); [by left|].
  destruct (files (fs w) !! SETTINGS_FILE) as [text|]; [|by left].
  destruct (json_load text) as [x|].
  2:{ cbn. destruct (json_load_raises text);
        first [ by left | right; by eexists ]. }
  cbn.
  assert (∃ w0 d,
            merged_into w0 d
              (emit (failed_dialog AttributeError)
                 (set_settings_data DEFAULT_SETTINGS w))
            ∧ objs w0 = objs w
            ∧ (w0 = w ∨ ∃ title m, w0 = emit (ShowError title m) w))
    as Hnot.
  { exists (emit (failed_dialog AttributeError) w), ∅. split_and!; [|done|].
    - apply (merged_into_emit _ w), merged_into_defaults.
    - right. by eexists _, _. }
  destruct x as [| | | | | |d]; try (by left).
  left. exists w, d. split_and!; [apply merge_loop|done|by left].
Qed.

Lemma merged_into_well_formed (w0 r : world) (d : gmap string jval) :
  merged_into w0 d r → objs w0 = pristine_store → well_formed r.
Proof.
  intros (_ & _ & Hst & Hsd) Ho.
  assert (refs_in_place r) as R.
  { intros k l. rewrite Hsd.
    destruct (d !! k) as [v|].
    - destruct (DEFAULT_SETTINGS !! k) as [[x|l']|] eqn:Hd; try done.
      destruct (is_dict v); [|done]. intros [= ->].
      apply DEFAULT_SETTINGS_cases in Hd as [(l0 & [= <-] & ->)|(? & ? & _)];
        done.
    - intros Hd.
      apply DEFAULT_SETTINGS_cases in Hd as [(l0 & [= <-] & ->)|(? & ? & _)];
        done. }
  split; [done|]. split.
  - intros k [s Hs]. unfold setting. rewrite Hsd, Hs.
    destruct (d !! k) as [v|]; [|by eexists].
    destruct s; by eexists.
  - intros l dv k2. unfold setting. rewrite Hsd, DEFAULT_SETTINGS_ref.
    assert (is_Some (deref pristine_store l !! k2) →
            is_Some (deref (objs r) l !! k2)) as Hkeep.
    { rewrite Hst, Ho. destruct (d !! ref_key l) as [[| | | | | |dv0]|];
        try done.
      intros [y Hy]. rewrite lookup_union, Hy.
      destruct (dv0 !! k2); by eexists. }
    destruct (d !! ref_key l) as [v|] eqn:Hv.
    + destruct v; cbn; try done. by intros [= <-].
    + cbn. by intros [= <-].
Qed.

(** X16. However the settings file is found at the start (absent,
    unreadable, not JSON, JSON that is not an object, or an object of
    any content), [load_settings] leaves settings in which no default key
    is missing, neither at the top level nor inside the naming rules and
    backup options as long as these are dictionaries. *)
Theorem startup_settings_have_defaults (f : filesystem) :
  well_formed (load_settings (initial_world f)).2.
Proof.
  destruct (load_settings_cases (initial_world f))
    as [(w0 & d & H & Ho & _)|(e & ->)].
  - by apply (merged_into_well_formed w0 _ d).
  - apply well_formed_emit.
    apply (merged_into_well_formed (initial_world f) _ ∅); [|done].
    apply (merged_into_defaults (initial_world f)).
Qed.

(** X24. [load_settings] only reads: on every path it returns without
    raising, leaves the file system exactly as it was, and shows one
    error dialog at most. *)
Theorem load_settings_reads_only (w : world) :
  let w' := (load_settings w).2 in
  (∃ o, (load_settings w).1 = Ok o)
  ∧ fs w' = fs w
  ∧ (events_since w w' = []
     ∨ ∃ title m, events_since w w' = [ShowError title m]).
Proof.
  cbv zeta. split.
  { destruct (safe_operation_returns load_settings_body w) as (o & w' & E).
    fold load_settings in E. rewrite E. by exists o. }
  destruct (load_settings_cases w)
    as [(w0 & d & (Hfs & Htr & _) & _ & Hw0)|(e & ->)].
  - rewrite Hfs. unfold events_since. rewrite Htr.
    destruct Hw0 as [->|(title & m & ->)].
    + split; [done|]. left. by rewrite drop_all.
    + split; [done|]. right. exists title, m. cbn.
      by rewrite drop_app_length.
  - split; [done|]. right. eexists _, _. unfold events_since. cbn.
    by rewrite drop_app_length.
Qed.

Lemma preserves_dont_show_again (k : string) (d : bool) :
  (∀ l, k ≠ ref_key l) →
  preserves well_formed
    (try_except
       (when d (setitem k (JBool false) ;; _ <- save_settings ;; ret tt))
       (λ _, ret tt)).
Proof.
  intros Hk. apply preserves_try_except; [|intros; apply preserves_ret].
  apply preserves_when, preserves_bind; [by apply preserves_setitem|].
  intros _. apply preserves_bind; [apply preserves_save_settings|].
  intros _. apply preserves_ret.
Qed.

Lemma preserves_save_settings_local (v : settings_vars) (d : bool) :
  preserves well_formed (save_settings_local v d).
Proof.
  apply preserves_safe_operation.
  apply preserves_try_except; [|intros; apply preserves_raise].
  repeat (apply preserves_bind;
          [first [ apply preserves_setitem; by intros []
                 | apply preserves_setitem2 ]
          |intros _]).
  apply preserves_bind; [apply preserves_save_settings|]. intros _.
  apply preserves_bind; [apply preserves_get_world|]. intros w0.
  destruct (setting_flag w0 "show_save_success"); [|apply preserves_ret].
  apply preserves_bind; [|intros; apply preserves_ret].
  apply preserves_dont_show_again. by intros [].
Qed.

(** X17. Nothing the windows do loses a default key: after "Save" in the
    settings window (whether it succeeds or fails half way), after
    either prompt is left, after a generation and after a save, the
    settings are well formed if they were before. *)
Theorem windows_keep_defaults (w : world) (v : settings_vars)
    (dont_show_again : bool) (rq : request) :
  well_formed w →
  well_formed (save_settings_local v dont_show_again w).2
  ∧ well_formed (close_save_prompt dont_show_again w).2
  ∧ well_formed (close_prompt dont_show_again w).2
  ∧ well_formed (generate_mod rq w).2
  ∧ well_formed (save_settings w).2.
Proof.
  intros HJ. split_and!.
  - eapply preserves_save_settings_local; [exact HJ|apply surjective_pairing].
  - eapply (preserves_dont_show_again "show_save_success");
      [by intros []|exact HJ|apply surjective_pairing].
  - eapply (preserves_dont_show_again "show_open_location_prompt");
      [by intros []|exact HJ|apply surjective_pairing].
  - eapply preserves_generate_mod; [exact HJ|apply surjective_pairing].
  - eapply preserves_save_settings; [exact HJ|apply surjective_pairing].
Qed.

(** X18. With well-formed settings, a generation can read all it needs
    as soon as the three values have the right type: when the naming
    rules and the backup options are dictionaries and the main mods
    folder is a string, the three naming flags and the backup flag are
    found. *)
Theorem well_formed_settings_are_readable (w : world)
    (d1 d2 : gmap string jval) (root : string) :
  well_formed w →
  setting w "naming_rules" = Some (JObj d1) →
  setting w "backup_options" = Some (JObj d2) →
  setting w "main_mods_folder" = Some (JStr root) →
  ∃ rules backup, settings_readable w rules root backup.
Proof.
  intros [_ [_ Hnested]] H1 H2 H3.
  destruct (Hnested NamingRulesObj d1 "no_spaces_folders" H1) as [v1 E1];
    [by eexists|].
  destruct (Hnested NamingRulesObj d1 "no_spaces_files" H1) as [v2 E2];
    [by eexists|].
  destruct (Hnested NamingRulesObj d1 "convert_spaces_underscores" H1)
    as [v3 E3]; [by eexists|].
  exists (NamingRules (truthy v1) (truthy v2) (truthy v3)),
    (truthy (default (JBool true) (d2 !! "always_backup"))).
  split_and!.
  - exists v1, v2, v3. rewrite !setting2_view, H1, E1, E2, E3. done.
  - by apply main_mods_folder_view.
  - by rewrite backup_always_view, H2.
Qed.

(** *** The backup of the settings file *)


(** *** Generating again *)

Lemma replay_overlay (es : list event) (o o' m : gmap string string)
    (w : world) :
  overlay es o = Some o' → files (fs w) = o ∪ m →
  files (fs (replay es w)) = o' ∪ m.
Proof.
  revert o w. induction es as [|e es IH]; intros o w Ho Hw.
  - cbn in Ho. by injection Ho as <-.
  - rewrite replay_cons. destruct e; cbn in Ho; try by apply (IH o).
    + apply (IH _ _ Ho). cbn. by rewrite Hw, insert_union_l.
    + destruct (o !! src) as [text|] eqn:Hsrc; [|done].
      apply (IH _ _ Ho). cbn.
      assert (files (fs w) !! src = Some text) as ->.
      { rewrite Hw. by apply lookup_union_Some_l. }
      cbn. by rewrite Hw, insert_union_l.
Qed.

Lemma replay_made_dirs (es : list event) (w : world) :
  dirs (fs (replay es w)) = made_dirs es ∪ dirs (fs w).
Proof.
  revert w. induction es as [|e es IH]; intros w.
  - cbn. by rewrite (left_id_L ∅ (∪)).
  - rewrite replay_cons, IH. destruct e; cbn; try done.
    + without_environment. set_solver.
    + by destruct (files (fs w) !! src).
Qed.

Lemma replay_twice (es : list event) (o' : gmap string string) (w : world) :
  overlay es ∅ = Some o' → fs (replay es (replay es w)) = fs (replay es w).
Proof.
  intros Ho.
  assert (∀ w0, files (fs (replay es w0)) = o' ∪ files (fs w0)) as Hfiles.
  { intros w0. apply (replay_overlay es ∅); [done|].
    by rewrite (left_id_L ∅ (∪)). }
  assert (∀ f1 f2, files f1 = files f2 → dirs f1 = dirs f2 → f1 = f2) as Heq.
  { intros [] []. cbn. by intros -> ->. }
  apply Heq.
  - rewrite (Hfiles (replay es w)), (Hfiles w).
    by rewrite (assoc_L (∪)), (idemp_L (∪)).
  - rewrite !replay_made_dirs.
    by rewrite (assoc_L (∪)), (idemp_L (∪)).
Qed.

Lemma overlay_app (es1 es2 : list event) (o : gmap string string) :
  overlay (es1 ++ es2) o = overlay es1 o ≫= overlay es2.
Proof.
  revert o. induction es1 as [|e es1 IH]; intros o; [done|].
  destruct e; cbn; try apply IH. by destruct (o !! src).
Qed.

Lemma overlay_no_copy (es : list event) (o : gmap string string) :
  Forall (λ e, is_copy e = false) es →
  ∃ o', overlay es o = Some o'
    ∧ (∀ p, is_Some (o !! p) → is_Some (o' !! p))
    ∧ (∀ p, p ∈ written_paths es → is_Some (o' !! p)).
Proof.
  revert o. induction es as [|e es IH]; intros o Hes.
  - exists o. split_and!; [done|done|]. intros p Hp. by inversion Hp.
  - apply Forall_cons in Hes as [He Hes].
    destruct e; try done; cbn;
      try (destruct (IH o Hes) as (o' & E & K & W); by exists o').
    destruct (IH (<[p:=text]> o) Hes) as (o' & E & K & W).
    exists o'. split_and!; [done| |].
    + intros q Hq. apply K, lookup_insert_is_Some'. by right.
    + intros q. unfold written_paths. cbn.
      intros [->|Hq]%elem_of_cons; [|by apply W].
      apply K. by rewrite lookup_insert_eq.
Qed.

Lemma overlay_copies (dst : string → string) (l : list string)
    (o : gmap string string) :
  Forall (λ p, is_Some (o !! p)) l →
  is_Some (overlay ((λ p, FsCopy p (dst p)) <$> l) o).
Proof.
  revert o. induction l as [|x l IH]; intros o Hl; [by eexists|].
  apply Forall_cons in Hl as [[text Hx] Hl]. cbn. rewrite Hx.
  apply IH. eapply Forall_impl; [exact Hl|]. intros q Hq.
  apply lookup_insert_is_Some'. by right.
Qed.

Lemma creation_plan_no_copy (rq : request) (in_scripts : bool)
    (full cleaned : string) :
  Forall (λ e, is_copy e = false)
    (creation_plan rq in_scripts full cleaned).
Proof.
  unfold creation_plan, files_plan.
  destruct (all_var rq), (script_var rq), (tuning_var rq), (package_var rq),
    in_scripts; cbn; by repeat constructor.
Qed.

Lemma generation_plan_overlay (rq : request)
    (in_scripts backup prompt : bool) (full cleaned : string) :
  is_Some (overlay (generation_plan rq in_scripts backup prompt full cleaned)
             ∅).
Proof.
  unfold generation_plan. cbv zeta. rewrite overlay_app.
  destruct (overlay_no_copy _ ∅
              (creation_plan_no_copy rq in_scripts full cleaned))
    as (o1 & -> & _ & W).
  cbn [mbind option_bind]. rewrite overlay_app.
  assert (∃ o2, overlay
                  (if backup
                   then backup_events full
                          (written_paths
                             (creation_plan rq in_scripts full cleaned))
                   else []) o1 = Some o2) as [o2 ->].
  { destruct backup; [|by eexists]. unfold backup_events. cbn [overlay].
    apply overlay_copies, Forall_forall. exact W. }
  cbn [mbind option_bind]. by destruct prompt; eexists.
Qed.

(** X20. With an operating system that refuses nothing, generating the
    same mod again adds nothing, as long as the settings are those of the
    first generation (its prompt was not left with "Don't show again",
    nothing was saved in between) and the file system is as the first
    generation left it: the second generation gives the same list of
    files, carries out the same operations and opens the same dialogs up
    to its prompt, and leaves the file system exactly as it found it. *)
Theorem generating_twice_adds_nothing (rq : request) (w w1 : world)
    (rules : naming_rules) (root : string) (backup : bool) :
  permissive → names_given rq → settings_readable w rules root backup →
  let first := generate_mod rq w in
  fs w1 = fs first.2 →
  settings_data w1 = settings_data w → objs w1 = objs w →
  let second := generate_mod rq w1 in
  second.1 = first.1
  ∧ events_since w1 second.2 = events_since w first.2
  ∧ fs second.2 = fs w1.
Proof.
  intros Hperm Hn Hread. cbv zeta.
  rewrite (generate_mod_permissive rq w rules root backup Hperm Hn Hread).
  cbv zeta. cbn [fst snd].
  set (plan := generation_plan _ _ _ _ _ _).
  intros Hfs Hs Ho.
  assert (settings_readable w1 rules root backup) as Hread'.
  { destruct Hread as (Hr & Hroot & Hb). split_and!.
    - by apply (rules_of_frame w).
    - unfold main_mods_folder_is. by rewrite Hs.
    - by rewrite (backup_always_frame w). }
  rewrite (generate_mod_permissive rq _ rules root backup Hperm Hn Hread').
  cbv zeta. cbn [fst snd].
  rewrite !(setting_flag_frame w w1) by done. fold plan.
  rewrite !events_since_replay. split_and!; [done|done|].
  destruct (generation_plan_overlay rq
              (setting_flag w "init_py_in_scripts") backup
              (setting_flag w "show_open_location_prompt")
              (path_join root
                 (naming_reference rules (strip (folder_name_var rq)) true))
              (naming_reference rules (strip (file_name_var rq)) false))
    as [o' Ho'].
  rewrite (replay_fs plan w1 (replay plan w) Hfs), Hfs.
  by apply (replay_twice plan o').
Qed.

(** *** The files of a generation *)

Lemma elem_of_made_dirs (p : string) (es : list event) :
  p ∈ made_dirs es ↔ FsMakedirs p ∈ es.
Proof.
  without_environment.
  induction es as [|e es IH]; [by rewrite elem_of_nil|].
  rewrite elem_of_cons.
  destruct e; cbn; rewrite ?elem_of_union, ?elem_of_singleton, IH;
    naive_solver.
Qed.

Lemma replay_made (es : list event) (w : world) (p : string) :
  FsMakedirs p ∈ es → p ∈ dirs (fs (replay es w)).
Proof.
  intros H. rewrite replay_made_dirs, elem_of_union. left.
  by apply elem_of_made_dirs.
Qed.

(** X21. Under any operating system, a generation that succeeds has
    created exactly the files the boxes and the setting select, in this
    order: [modinfo.py]; [__init__.py] if "all" or "script" is ticked or
    the setting [init_py_in_scripts] is on; the script in [Scripts] if
    "all" or "script" is ticked; the tuning file in [Tuning] if "all" or
    "tuning" is ticked; the package if "all" or "package" is ticked.  All
    of them are on disk at the end, and so are the directories they are
    in: the target directory, [Scripts] whenever the script or a marker
    in [Scripts] is created, [Tuning] whenever the tuning file is. *)
Theorem created_files_follow_the_boxes (rq : request) (w w' : world)
    (rules : naming_rules) (root : string) (created : list string) :
  names_given rq → rules_of w rules → main_mods_folder_is w root →
  generate_mod rq w = (Ok (Some (Generated created)), w') →
  let full := path_join root
                (naming_reference rules (strip (folder_name_var rq)) true) in
  let cleaned := naming_reference rules (strip (file_name_var rq)) false in
  let in_scripts := setting_flag w "init_py_in_scripts" in
  let scripts := path_join full "Scripts" in
  let tuning := path_join full "Tuning" in
  created
  = ([path_join full "modinfo.py"]
     ++ (if all_var rq || script_var rq || in_scripts
         then [init_py_path full in_scripts] else [])
     ++ (if all_var rq || script_var rq
         then [path_join scripts (cleaned ++ ".py")] else [])
     ++ (if all_var rq || tuning_var rq
         then [path_join tuning (cleaned ++ ".xml")] else [])
     ++ (if all_var rq || package_var rq
         then [path_join full (cleaned ++ ".package")] else []))%list
  ∧ Forall (file_in w') created
  ∧ full ∈ dirs (fs w')
  ∧ (all_var rq || script_var rq || in_scripts = true →
     scripts ∈ dirs (fs w'))
  ∧ (all_var rq || tuning_var rq = true → tuning ∈ dirs (fs w')).
Proof.
  intros Hn Hr Hroot Hrun full cleaned in_scripts scripts tuning.
  destruct (generate_mod_Generated_events rq w w' rules root created
              Hn Hr Hroot Hrun) as (-> & rest & -> & _).
  fold full cleaned in_scripts.
  set (plan := creation_plan rq in_scripts full cleaned).
  split_and!.
  - unfold plan, creation_plan, files_plan.
    by destruct (all_var rq), (script_var rq), (tuning_var rq),
      (package_var rq), in_scripts.
  - apply Forall_forall. intros p Hp. rewrite replay_app.
    by apply replay_keeps_file, replay_written.
  - apply replay_made, elem_of_app. left. apply elem_of_cons. by left.
  - intros Hc. apply replay_made, elem_of_app. left.
    unfold plan, creation_plan, files_plan. fold scripts.
    destruct (all_var rq), (script_var rq), in_scripts; try done;
      cbn [orb app];
      rewrite !elem_of_cons, ?elem_of_app, ?elem_of_cons; by auto 10.
  - intros Hc. apply replay_made, elem_of_app. left.
    unfold plan, creation_plan, files_plan. rewrite Hc. fold tuning.
    rewrite !elem_of_cons, !elem_of_app, !elem_of_cons. by auto 10.
Qed.

(** *** Placing a window *)

(** X22. A window that is not larger than the screen is placed entirely
    on the screen by [center_window], with left and right margins that
    differ by one pixel at most, and likewise above and below; when Tk
    fails, the window gets its size and no position. *)
Theorem center_window_centres (screen_width screen_height width height : Z)
    (e : exn) :
  (0 ≤ width ≤ screen_width)%Z → (0 ≤ height ≤ screen_height)%Z →
  (∃ x y,
     center_window (Ok (screen_width, screen_height)) width height
     = Geometry width height (Some (x, y))
     ∧ centred screen_width width x ∧ centred screen_height height y)
  ∧ center_window (Raise e) width height = Geometry width height None.
Proof.
  without_environment.
  intros Hw Hh. split; [|done]. eexists _, _. split; [done|].
  unfold centred. split; Z.div_mod_to_equations; lia.
Qed.

(** *** A generation that fails *)

Section Performs.

Variable I : world → Prop.
Hypothesis I_emit : ∀ e w, I w → I (emit e w).

Lemma I_replay' (es : list event) (w : world) : I w → I (replay es w).
Proof.
  revert w. induction es as [|e es IH]; intros w Hw; [done|].
  rewrite replay_cons. by apply IH, I_emit.
Qed.

Lemma performs_ret {A} (Q : A → Prop) (a : A) :
  Q a → performs I [] Q (ret a).
Proof. by intros Ha w r w' _ [= <- <-]. Qed.

Lemma performs_get_world : performs I [] I get_world.
Proof. by intros w r w' Hw [= <- <-]. Qed.

Lemma performs_makedirs (p : string) :
  performs I [FsMakedirs p] (λ _, True) (makedirs p).
Proof.
  intros w r w' _. unfold makedirs.
  destruct (os_refuses (fs w) (OpMakedirs p)); intros [= <- <-]; [|done].
  exists 0%nat. split; [cbn; lia|done].
Qed.

Lemma performs_write_file (p text : string) :
  performs I [FsWrite p text] (λ _, True) (write_file p text).
Proof.
  intros w r w' _. unfold write_file.
  destruct (os_refuses (fs w) (OpWrite p)); intros [= <- <-]; [|done].
  exists 0%nat. split; [cbn; lia|done].
Qed.

Lemma performs_logged {A} (plan : list event) (Q : A → Prop) (m : M A) :
  performs I plan Q m → performs I plan Q (logged m).
Proof. intros H w r w' Hw. rewrite logged_eq. by apply H. Qed.

Lemma performs_weaken {A} (plan : list event) (Q Q' : A → Prop) (m : M A) :
  (∀ a, Q a → Q' a) → performs I plan Q m → performs I plan Q' m.
Proof.
  intros HQ H w r w' Hw E. specialize (H w r w' Hw E).
  destruct r; [|done]. destruct H as [-> Ha]. split; [done|]. by apply HQ.
Qed.

Lemma performs_bind {A B} (plan p1 p2 : list event) (Q1 : A → Prop)
    (Q2 : B → Prop) (m : M A) (k : A → M B) :
  performs I p1 Q1 m →
  (∀ a, Q1 a → performs I p2 Q2 (k a)) →
  plan = (p1 ++ p2)%list →
  performs I plan Q2 (bind m k).
Proof.
  intros Hm Hk -> w r w' Hw. unfold bind.
  destruct (m w) as [[a|e] w1] eqn:E; specialize (Hm w _ _ Hw E); cbn in Hm.
  - destruct Hm as [-> Ha]. intros E2.
    specialize (Hk a Ha _ _ _ (I_replay' p1 w Hw) E2).
    destruct r as [b|e].
    + destruct Hk as [-> Hb]. by rewrite replay_app.
    + destruct Hk as (n & Hn & ->). exists (length p1 + n)%nat. split.
      * rewrite length_app. lia.
      * by rewrite take_app_add, replay_app.
  - intros [= <- <-]. destruct Hm as (n & Hn & ->).
    exists n. split; [rewrite length_app; lia|].
    by rewrite take_app_le by lia.
Qed.

Lemma performs_optional {A} (b : bool) (plan : list event) (m : M A)
    (a : A) :
  performs I plan (λ _, True) m →
  performs I (if b then plan else []) (λ _, True) (if b then m else ret a).
Proof. intros H. destruct b; [done|]. by apply performs_ret. Qed.

Lemma performs_if {A} (b : bool) (pa pb : list event) (Q : A → Prop)
    (ma mb : M A) :
  (b = true → performs I pa Q ma) →
  (b = false → performs I pb Q mb) →
  performs I (if b then pa else pb) Q (if b then ma else mb).
Proof. intros Ha Hb. destruct b; auto. Qed.

Lemma fails_within_performs {A} (plan : list event) (Q : A → Prop)
    (m : M A) :
  performs I plan Q m → fails_within I plan m.
Proof. intros H w e w' Hw E. exact (H w _ _ Hw E). Qed.

Lemma fails_within_bind {A B} (plan p1 p2 : list event) (Q1 : A → Prop)
    (m : M A) (k : A → M B) :
  performs I p1 Q1 m →
  (∀ a, Q1 a → fails_within I p2 (k a)) →
  plan = (p1 ++ p2)%list →
  fails_within I plan (bind m k).
Proof.
  intros Hm Hk -> w e w' Hw. unfold bind.
  destruct (m w) as [[a|e1] w1] eqn:E; specialize (Hm w _ _ Hw E); cbn in Hm.
  - destruct Hm as [-> Ha]. intros E2.
    destruct (Hk a Ha _ _ _ (I_replay' p1 w Hw) E2) as (n & Hn & ->).
    exists (length p1 + n)%nat. split.
    + rewrite length_app. lia.
    + by rewrite take_app_add, replay_app.
  - intros [= <- <-]. destruct Hm as (n & Hn & ->).
    exists n. split; [rewrite length_app; lia|].
    by rewrite take_app_le by lia.
Qed.

End Performs.

Section GenerationPlan.

Variable rules : naming_rules.
Variable root : string.
Variables backup in_scripts : bool.

Local Abbreviation I := (generation_settings rules root backup in_scripts).

Lemma generation_settings_emit (e : event) (w : world) : I w → I (emit e w).
Proof.
  intros [(Hr & Hroot & Hb) Hf]. split; [|done]. split_and!; [|done..].
  by apply rules_of_emit.
Qed.

Local Ltac then_do tac :=
  eapply (performs_bind I generation_settings_emit);
    [tac|intros ? ?; cbv beta in *; subst|try reflexivity].

Lemma performs_apply_naming_rules (name : string) (is_folder : bool) :
  performs I [] (λ r, r = naming_reference rules name is_folder)
    (apply_naming_rules name is_folder).
Proof.
  intros w r w' [(Hr & _) _].
  rewrite (apply_naming_rules_run w rules name is_folder Hr).
  by intros [= <- <-].
Qed.

Lemma performs_target_folder (cleaned_folder : string) :
  performs I [] (λ r, r = path_join root cleaned_folder)
    (target_folder cleaned_folder).
Proof.
  intros w r w' [(_ & Hroot & _) _].
  rewrite (target_folder_run w root cleaned_folder Hroot).
  by intros [= <- <-].
Qed.

Lemma performs_create_modinfo_py (full cleaned : string) (l : list string) :
  performs I [FsWrite (path_join full "modinfo.py") (modinfo_text cleaned)]
    (λ _, True) (create_modinfo_py full cleaned l).
Proof.
  apply performs_logged. cbv zeta.
  then_do ltac:(apply performs_write_file). by apply performs_ret.
Qed.

Lemma performs_create_init_py (full : string) (l : list string) :
  performs I
    ((if in_scripts then [FsMakedirs (path_join full "Scripts")] else [])
     ++ [FsWrite (init_py_path full in_scripts) init_text])
    (λ _, True) (create_init_py full l).
Proof.
  apply performs_logged.
  eapply (performs_bind I generation_settings_emit _ [] _ I);
    [apply performs_get_world| |reflexivity].
  intros w0 [_ ->].
  eapply (performs_bind I generation_settings_emit _ _ _
            (λ p, p = init_py_path full in_scripts)); [| |reflexivity].
  - apply performs_if; intros Hb.
    + eapply (performs_weaken I _
                (λ p, p = path_join (path_join full "Scripts") "__init__.py")).
      { intros p ->. unfold init_py_path. by rewrite Hb. }
      then_do ltac:(apply performs_makedirs). by apply performs_ret.
    + apply performs_ret. unfold init_py_path. by rewrite Hb.
  - intros p ->. then_do ltac:(apply performs_write_file).
    by apply performs_ret.
Qed.

Lemma performs_create_script (full file_name : string) (l : list string) :
  let scripts := path_join full "Scripts" in
  let cleaned := naming_reference rules file_name false in
  performs I
    [FsMakedirs scripts;
     FsWrite (path_join scripts (cleaned ++ ".py")) script_text]
    (λ _, True) (create_script full file_name l).
Proof.
  cbv zeta. apply performs_logged.
  then_do ltac:(apply performs_makedirs).
  then_do ltac:(apply performs_apply_naming_rules).
  then_do ltac:(apply performs_write_file). by apply performs_ret.
Qed.

Lemma performs_create_tuning (full file_name : string) (l : list string) :
  let tuning := path_join full "Tuning" in
  let cleaned := naming_reference rules file_name false in
  performs I
    [FsMakedirs tuning;
     FsWrite (path_join tuning (cleaned ++ ".xml")) tuning_text]
    (λ _, True) (create_tuning full file_name l).
Proof.
  cbv zeta. apply performs_logged.
  then_do ltac:(apply performs_makedirs).
  then_do ltac:(apply performs_apply_naming_rules).
  then_do ltac:(apply performs_write_file). by apply performs_ret.
Qed.

Lemma performs_create_package (full file_name : string) (l : list string) :
  let cleaned := naming_reference rules file_name false in
  performs I
    [FsWrite (path_join full (cleaned ++ ".package")) package_text]
    (λ _, True) (create_package full file_name l).
Proof.
  cbv zeta. apply performs_logged.
  then_do ltac:(apply performs_apply_naming_rules).
  then_do ltac:(apply performs_write_file). by apply performs_ret.
Qed.

Lemma performs_create_files (rq : request) (full file_name : string) :
  let cleaned := naming_reference rules file_name false in
  performs I (files_plan rq in_scripts full cleaned) (λ _, True)
    (create_files rq full file_name cleaned).
Proof.
  cbv zeta. unfold create_files, files_plan.
  then_do ltac:(apply performs_create_modinfo_py).
  eapply (performs_bind I generation_settings_emit _ [] _ I);
    [apply performs_get_world| |reflexivity].
  intros w0 [_ ->].
  then_do ltac:(apply performs_optional, performs_create_init_py).
  destruct (all_var rq); cbn [orb].
  - then_do ltac:(apply performs_create_script).
    then_do ltac:(apply performs_create_tuning).
    eapply performs_weaken; [|apply performs_create_package]. done.
  - then_do ltac:(apply performs_optional, performs_create_script).
    then_do ltac:(apply performs_optional, performs_create_tuning).
    apply performs_optional, performs_create_package.
Qed.

Lemma generation_tail_returns (full : string) (created : list string)
    (w : world) :
  I w →
  ∃ o w',
    (backup_files full created ;;
     match created with
     | [] =>
         showinfo "Generate Mod"
           (Msg "No file type selected. No files created.") ;;
         ret (Generated created)
     | _ =>
         w <- get_world ;;
         when (setting_flag w "show_open_location_prompt")
           (open_file_location_prompt full) ;;
         ret (Generated created)
     end)%py w = (Ok o, w').
Proof.
  intros [(_ & _ & Hb) _].
  assert (∃ w1, backup_files full created w = (Ok tt, w1)) as [w1 E].
  { destruct backup.
    - destruct (backup_files_cases full created w Hb) as (w1 & E & _).
      by exists w1.
    - exists w. by apply backup_files_off. }
  rewrite (bind_Ok _ _ _ _ _ E). destruct created as [|c created].
  - by eexists _, _.
  - unfold bind, get_world, when, open_file_location_prompt, modify.
    destruct (setting_flag w1 "show_open_location_prompt"); by eexists _, _.
Qed.

Lemma fails_within_generate_mod_body (rq : request) :
  names_given rq →
  let full := path_join root
                (naming_reference rules (strip (folder_name_var rq)) true) in
  let cleaned := naming_reference rules (strip (file_name_var rq)) false in
  fails_within I (creation_plan rq in_scripts full cleaned)
    (generate_mod_body rq).
Proof.
  intros Hn full cleaned. apply names_given_eqb in Hn as [E1 E2].
  unfold generate_mod_body. rewrite E1, E2.
  eapply (fails_within_bind I generation_settings_emit);
    [apply performs_apply_naming_rules|intros ? ->|reflexivity].
  eapply (fails_within_bind I generation_settings_emit);
    [apply performs_apply_naming_rules|intros ? ->|reflexivity].
  eapply (fails_within_bind I generation_settings_emit);
    [apply performs_target_folder|intros ? ->|reflexivity].
  eapply (fails_within_bind I generation_settings_emit);
    [apply performs_makedirs|intros _ _|reflexivity].
  eapply (fails_within_bind I generation_settings_emit _ _ []);
    [apply performs_create_files|intros created _|by rewrite app_nil_r].
  intros w e w' Hw E.
  destruct (generation_tail_returns full created w Hw) as (o & w1 & E').
  fold full in E. congruence.
Qed.

End GenerationPlan.

(** X23. A generation that fails is not undone.  With both names given
    and settings that can be read, a generation that ends in "Operation
    failed" has carried out the plan of creation from its beginning up to
    the operation that failed, which is one of the plan: the operations
    that took place are an initial part of the plan, not all of it, and
    the dialog follows them.  Every file that part has written and every
    directory it has made is still there.  In particular a failure never
    comes from the backup step or after it. *)
Theorem failed_generation_is_not_undone (rq : request) (w w' : world)
    (rules : naming_rules) (root : string) (backup : bool) :
  names_given rq → settings_readable w rules root backup →
  generate_mod rq w = (Ok None, w') →
  let full := path_join root
                (naming_reference rules (strip (folder_name_var rq)) true) in
  let cleaned := naming_reference rules (strip (file_name_var rq)) false in
  let plan := creation_plan rq (setting_flag w "init_py_in_scripts")
                full cleaned in
  ∃ e n, (n < length plan)%nat
    ∧ events_since w w' = (take n plan ++ [failed_dialog e])%list
    ∧ (∀ p, p ∈ written_paths (take n plan) → file_in w' p)
    ∧ (∀ d, FsMakedirs d ∈ take n plan → d ∈ dirs (fs w')).
Proof.
  intros Hn Hread Hrun full cleaned plan.
  unfold generate_mod, safe_operation in Hrun. rewrite logged_eq in Hrun.
  destruct (generate_mod_body rq w) as [[o|e] w1] eqn:E; [done|].
  injection Hrun as <-.
  destruct (fails_within_generate_mod_body rules root backup
              (setting_flag w "init_py_in_scripts") rq Hn w e w1)
    as (n & Hlt & ->); [by split|exact E|].
  exists e, n. fold full cleaned plan. split_and!; [done|..].
  - rewrite <- replay_snoc. apply events_since_replay.
  - intros p Hp. by apply emit_keeps_file, replay_written.
  - intros d Hd. by apply emit_keeps_dir, replay_made.
Qed.

(** *** The settings as the module sets them up *)

Lemma well_formed_initial (f : filesystem) : well_formed (initial_world f).
Proof.
  apply (merged_into_well_formed (initial_world f) _ ∅); [|done].
  apply (merged_into_defaults (initial_world f)).
Qed.

Lemma rules_of_initial (f : filesystem) :
  rules_of (initial_world f) (NamingRules false false false).
Proof.
  exists (JBool false), (JBool false), (JBool false). by repeat split.
Qed.
End Program.

(** ** Examples

    The theorems above, run on concrete settings files and requests. *)

(** The settings file overrides one naming flag: the loaded flag is there,
    and the flags and keys the file does not mention keep their defaults. *)
Lemma load_settings_merges_defaults_witness :
  ∃ w' m,
    load_settings "Mods" demo_json_load demo_json_raises never_refuses
      (initial_world "Mods" (fs_with_settings no_spaces_folders_text))
    = (Ok (Some tt), w')
    ∧ setting w' "naming_rules" = Some (JObj m)
    ∧ m !! "no_spaces_folders" = Some (JBool true)
    ∧ m !! "no_spaces_files" = Some (JBool false)
    ∧ setting w' "temp_mod_timer" = Some (JStr "Disabled").
Proof.
  pose (d := {[ "naming_rules" :=
                  JObj {[ "no_spaces_folders" := JBool true ]} ]}
             : gmap string jval).
  destruct (load_settings_merges_defaults "Mods" demo_json_load
              demo_json_raises never_refuses
              (initial_world "Mods" (fs_with_settings no_spaces_folders_text))
              d)
    as (w' & Hrun & _ & _ & _ & Hfile & Hkeep & _).
  { split; [reflexivity|].
    exists no_spaces_folders_text. split; reflexivity. }
  specialize (Hfile "naming_rules"
                (JObj {[ "no_spaces_folders" := JBool true ]}) eq_refl).
  destruct Hfile as (m & Hm & Hk).
  exists w', m. split; [exact Hrun|]. split; [exact Hm|].
  split; [exact (Hk "no_spaces_folders")|].
  split; [exact (Hk "no_spaces_files")|].
  exact (Hkeep "temp_mod_timer" eq_refl).
Defined.

(** Folder and file names under the rules "no spaces in folders" and
    "spaces to underscores". *)
Lemma apply_naming_rules_reference_witness :
  let w :=
    World
      (Store {[ "no_spaces_folders" := JBool true;
                "no_spaces_files" := JBool false;
                "convert_spaces_underscores" := JBool true ]}
             {[ "always_backup" := JBool true ]})
      (DEFAULT_SETTINGS "Mods") empty_fs [] in
  apply_naming_rules "My Mod" true w = (Ok "MyMod", w)
  ∧ apply_naming_rules "My Mod" false w = (Ok "My_Mod", w).
Proof.
  intros w.
  assert (H : rules_of w (NamingRules true false true)).
  { exists (JBool true), (JBool false), (JBool true).
    repeat split; reflexivity. }
  split.
  - exact (proj1 (apply_naming_rules_reference w _ "My Mod" true H)).
  - exact (proj1 (apply_naming_rules_reference w _ "My Mod" false H)).
Defined.

(** The example of the specification: folder "Test Mod", file
    "Test File", only "package" ticked, default settings. *)
Lemma init_py_created_iff_witness :
  let rq := Request "Test Mod" "Test File" false false true false in
  let w := initial_world "Mods" empty_fs in
  ∃ created w' p,
    generate_mod posix_join posix_basename never_refuses rq w
    = (Ok (Some (Generated created)), w')
    ∧ FsWrite p init_text ∈ events_since w w'
    ∧ p ∈ created
    ∧ p = "Mods/Test Mod/Scripts/__init__.py".
Proof.
  intros rq w.
  destruct (init_py_created_iff posix_join posix_basename never_refuses rq w
              (NamingRules false false false) "Mods")
    as [Hany Hperm].
  - split; intros H; vm_compute in H; discriminate H.
  - exists (JBool false), (JBool false), (JBool false).
    repeat split; reflexivity.
  - reflexivity.
  - destruct (Hperm (λ f op, eq_refl) true eq_refl) as (created & w' & Hrun).
    destruct (Hany created w' Hrun) as [Hiff Hloc].
    destruct (proj2 Hiff eq_refl) as [p Hp].
    exists created, w', p. split; [exact Hrun|]. split; [exact Hp|].
    exact (Hloc p Hp).
Defined.




(** A settings file saved as UTF-16: "Operation failed", and not the
    dialog of a corrupted file. *)
Lemma load_settings_misses_decode_errors_witness :
  let w := initial_world "Mods" (fs_with_settings not_utf8_text) in
  ∃ w',
    load_settings "Mods" demo_json_load demo_json_raises never_refuses w
    = (Ok None, w')
    ∧ events_since w w' = [failed_dialog UnicodeDecodeError]
    ∧ corrupt_dialog ∉ events_since w w'.
Proof.
  intros w.
  destruct (load_settings_misses_decode_errors "Mods" demo_json_load
              demo_json_raises never_refuses w not_utf8_text)
    as (w' & Hrun & Hev & Hnot & _).
  - reflexivity.
  - reflexivity.
  - reflexivity.
  - reflexivity.
  - exists w'. split; [exact Hrun|]. split; [exact Hev|exact Hnot].
Defined.

Lemma load_settings_corrupt_gives_defaults_witness :
  let w := initial_world "Mods" (fs_with_settings "not json") in
  ∃ w',
    load_settings "Mods" demo_json_load demo_json_raises never_refuses w = (Ok (Some tt), w')
    ∧ settings_json w' = JObj (default_record "Mods")
    ∧ trace w' = [corrupt_dialog].
Proof.
  intros w.
  destruct (load_settings_corrupt_gives_defaults "Mods" demo_json_load
              demo_json_raises never_refuses w)
    as (w' & Hrun & _ & _ & _ & Htr & Hdef).
  - split; [reflexivity|]. right. right.
    exists "not json". repeat split; reflexivity.
  - exists w'. split; [exact Hrun|]. split; [exact (Hdef eq_refl)|exact Htr].
Defined.

Lemma missing_name_no_mutation_witness :
  let rq := Request "   " "Test File" true false false false in
  let w := initial_world "Mods" empty_fs in
  ∃ o m w',
    generate_mod posix_join posix_basename never_refuses rq w
    = (Ok (Some o), w')
    ∧ result_sequence o = []
    ∧ fs w' = fs w
    ∧ events_since w w' = [ShowError "Error" (Msg m)].
Proof.
  intros rq w.
  destruct (missing_name_no_mutation posix_join posix_basename never_refuses
              rq w)
    as (o & m & w' & Hrun & _ & Hseq & Hfs & Hev & _).
  - left. reflexivity.
  - exists o, m, w'. split; [exact Hrun|]. split; [exact Hseq|].
    split; [exact Hfs|exact Hev].
Defined.

(** The example of the specification again: the three created files are
    copied flat into "Mods/Test Mod_Backup". *)
Lemma backup_is_flat_and_non_fatal_witness :
  let rq := Request "Test Mod" "Test File" false false true false in
  let w := initial_world "Mods" empty_fs in
  let created := ["Mods/Test Mod/modinfo.py";
                  "Mods/Test Mod/Scripts/__init__.py";
                  "Mods/Test Mod/Test File.package"] in
  ∃ w3,
    generate_mod posix_join posix_basename never_refuses rq w
    = (Ok (Some (Generated created)), with_prompt "Mods/Test Mod" w3)
    ∧ "Mods/Test Mod_Backup" ∈ dirs (fs w3)
    ∧ file_in w3 "Mods/Test Mod_Backup/modinfo.py"
    ∧ file_in w3 "Mods/Test Mod_Backup/__init__.py"
    ∧ file_in w3 "Mods/Test Mod_Backup/Test File.package".
Proof.
  intros rq w created.
  pose (w2 := replay (creation_plan posix_join rq true
                        "Mods/Test Mod" "Test File") w).
  destruct (backup_is_flat_and_non_fatal posix_join posix_basename
              never_refuses rq w w2 "Mods/Test Mod" created)
    as (w3 & Hrun & _ & Hperm).
  - split; [split; intros H; vm_compute in H; discriminate H|].
    exists "Test Mod", "Test File", (emit (FsMakedirs "Mods/Test Mod") w).
    repeat split; vm_compute; reflexivity.
  - reflexivity.
  - discriminate.
  - destruct Hperm as (_ & _ & Hdir & Hfiles).
    { intros f op. reflexivity. }
    exists w3. split; [exact Hrun|]. split; [exact Hdir|].
    split; [|split].
    + apply (Hfiles "Mods/Test Mod/modinfo.py"). vm_compute.
      apply list_elem_of_here.
    + apply (Hfiles "Mods/Test Mod/Scripts/__init__.py").
      apply list_elem_of_further, list_elem_of_here.
    + apply (Hfiles "Mods/Test Mod/Test File.package").
      apply list_elem_of_further, list_elem_of_further, list_elem_of_here.
Defined.

(** A first load reads "no_spaces_folders": true; a second load then finds
    no settings file, and still answers true where the literal says
    false. *)
Lemma load_settings_shares_nested_defaults_witness :
  let w := initial_world "Mods" (fs_with_settings no_spaces_folders_text) in
  ∃ w1 w2 m,
    load_settings "Mods" demo_json_load demo_json_raises never_refuses w = (Ok (Some tt), w1)
    ∧ load_settings "Mods" demo_json_load demo_json_raises never_refuses (set_fs empty_fs w1)
      = (Ok (Some tt), w2)
    ∧ setting w2 "naming_rules" = Some (JObj m)
    ∧ m !! "no_spaces_folders" = Some (JBool true)
    ∧ setting w2 "naming_rules" ≠ default_record "Mods" !! "naming_rules".
Proof.
  intros w.
  pose (dv := {[ "no_spaces_folders" := JBool true ]} : gmap string jval).
  pose (d := {[ "naming_rules" := JObj dv ]} : gmap string jval).
  destruct (load_settings_shares_nested_defaults "Mods" demo_json_load
              demo_json_raises never_refuses w d dv NamingRulesObj "no_spaces_folders"
              (JBool true) empty_fs)
    as (w1 & w2 & m & H1 & _ & _ & _ & H2 & Hm & _ & Hk & Hne).
  - split; [reflexivity|].
    exists no_spaces_folders_text. split; reflexivity.
  - reflexivity.
  - reflexivity.
  - left. reflexivity.
  - exists w1, w2, m. split; [exact H1|]. split; [exact H2|].
    split; [exact Hm|]. split; [exact Hk|].
    apply (Hne _ eq_refl). intros H. vm_compute in H. discriminate H.
Defined.

(** The same request when the operating system refuses to make the backup
    folder: the three files are created all the same, a warning is shown,
    and the prompt to open the folder follows as after any success. *)
Example backup_refused_is_warning :
  let rq := Request "Test Mod" "Test File" false false true false in
  let os := refuses_makedirs_of "Mods/Test Mod_Backup" in
  let r := generate_mod posix_join posix_basename os rq
             (initial_world "Mods" empty_fs) in
  r.1 = Ok (Some (Generated ["Mods/Test Mod/modinfo.py";
                             "Mods/Test Mod/Scripts/__init__.py";
                             "Mods/Test Mod/Test File.package"]))
  ∧ drop 5 (trace r.2)
    = [ShowWarning "Warning"
         (MsgExn "Could not create backup: "
            (OSError (OpMakedirs "Mods/Test Mod_Backup")));
       OpenLocationPrompt "Mods/Test Mod"]
  ∧ "Mods/Test Mod_Backup" ∉ dirs (fs r.2).
Proof.
  split; [vm_compute; reflexivity|]. split; [vm_compute; reflexivity|].
  apply (bool_decide_eq_false_1 _). vm_compute. reflexivity.
Qed.

(** ** Examples: the windows

    The theorems on the main window, the settings window and the
    prompts, run on concrete sessions and settings. *)

(** A session: a folder name is typed, the names are tied, the file name
    is edited, "all" is ticked. *)
Lemma sessions_settle_witness :
  let session := [EditFolderName "My Mod"; SetMatchFilename true;
                  EditFileName "Other"; SetAll true] in
  ∃ st, acts 5 session initial_form = Some st
        ∧ acts 2 session initial_form = Some st
        ∧ settled st.
Proof.
  intros session. apply (sessions_settle 5 session). repeat constructor.
Defined.

Lemma all_box_sets_the_three_witness :
  ∃ st', act 1 (SetAll true) initial_form = Some st'
    ∧ script_var (vars st') = true
    ∧ tuning_var (vars st') = true
    ∧ package_var (vars st') = true.
Proof.
  destruct (all_box_sets_the_three 1 true initial_form)
    as (st' & Hrun & _ & Hs & Ht & Hp & _).
  - repeat constructor.
  - exists st'. split; [exact Hrun|]. split; [exact Hs|].
    split; [exact Ht|exact Hp].
Defined.

(** With the names tied, typing a folder name sets the file name too. *)
Lemma edited_name_is_mirrored_witness :
  let st := Form (Request "" "" false false false false) true false in
  ∃ st', act 2 (EditFolderName "My Mod") st = Some st'
    ∧ folder_name_var (vars st') = "My Mod"
    ∧ file_name_var (vars st') = "My Mod".
Proof.
  intros st.
  destruct (edited_name_is_mirrored 2 "My Mod" st)
    as [(st' & Hrun & Hfo & Hfi & _) _].
  - split; reflexivity.
  - repeat constructor.
  - exists st'. split; [exact Hrun|]. split; [exact Hfo|exact Hfi].
Defined.

(** Unticking the box empties the file name, and the generation asked
    for next stops at the dialog. *)
Lemma match_box_copies_or_clears_witness :
  let st := Form (Request "My Mod" "My Mod" false false false false)
              true false in
  let w := initial_world "Mods" empty_fs in
  ∃ st' w',
    act 2 (SetMatchFilename false) st = Some st'
    ∧ file_name_var (vars st') = ""
    ∧ generate_mod posix_join posix_basename never_refuses (vars st') w
      = (Ok (Some NoFileName), w')
    ∧ fs w' = fs w.
Proof.
  intros st w.
  destruct (match_box_copies_or_clears posix_join posix_basename
              never_refuses 2 st)
    as [_ (st' & Hrun & Hfi & _ & Hgen)].
  - split; reflexivity.
  - repeat constructor.
  - destruct (Hgen (λ H, eq_ind "My Mod" (λ s, match s with
                                               | "" => False
                                               | _ => True
                                               end) Logic.I "" H) w)
      as (w' & Hg & Hfs & _).
    exists st', w'. split; [exact Hrun|]. split; [exact Hfi|].
    split; [exact Hg|exact Hfs].
Defined.

(** "Save" with new ticks, the prompt left with "Don't show again": the
    naming rules of the window are in force and the prompt is off. *)
Lemma save_settings_local_takes_effect_witness :
  let v := SettingsVars false "Disabled" "D:/Mods" true false true false
             false in
  let w := initial_world "Mods" empty_fs in
  ∃ w',
    save_settings_local demo_json_dump never_refuses v true w
    = (Ok (Some true), w')
    ∧ settings_readable w' (NamingRules true false true) "D:/Mods" false
    ∧ setting_flag w' "init_py_in_scripts" = false
    ∧ setting_flag w' "show_save_success" = false.
Proof.
  intros v w.
  destruct (save_settings_local_takes_effect demo_json_dump never_refuses
              v true w
              {[ "no_spaces_folders" := JBool false;
                 "no_spaces_files" := JBool false;
                 "convert_spaces_underscores" := JBool false ]}
              {[ "always_backup" := JBool true ]})
    as (w' & Hrun & Hread & Hinit & Hshow & _).
  - apply (well_formed_initial "Mods" empty_fs).
  - reflexivity.
  - reflexivity.
  - exists w'. split; [exact Hrun|]. split; [exact Hread|].
    split; [exact Hinit|exact Hshow].
Defined.

(** The settings file cannot be written: the error is reported, and the
    success prompt follows. *)
Lemma failed_save_is_confirmed_witness :
  let v := SettingsVars false "Disabled" "D:/Mods" true false true false
             false in
  let w := initial_world "Mods" empty_fs in
  ∃ w' e,
    save_settings_local demo_json_dump (refuses_writes_of "settings.json")
      v false w
    = (Ok (Some true), w')
    ∧ (∀ text, FsWrite "settings.json" text ∉ events_since w w')
    ∧ failed_dialog e ∈ events_since w w'.
Proof.
  intros v w.
  destruct (failed_save_is_confirmed demo_json_dump
              (refuses_writes_of "settings.json") v false w
              {[ "no_spaces_folders" := JBool false;
                 "no_spaces_files" := JBool false;
                 "convert_spaces_underscores" := JBool false ]}
              {[ "always_backup" := JBool true ]})
    as (w' & Hrun & Hfile & e & He).
  - apply (well_formed_initial "Mods" empty_fs).
  - reflexivity.
  - reflexivity.
  - reflexivity.
  - intros f. reflexivity.
  - exists w', e. split; [exact Hrun|]. split; [exact Hfile|exact He].
Defined.

(** After "Save" with "no spaces in folder names" ticked, the defaults
    themselves say so. *)
Lemma save_settings_local_rewrites_defaults_witness :
  let v := SettingsVars false "Disabled" "Mods" true false false true true in
  let w := initial_world "Mods" empty_fs in
  ∃ r w',
    save_settings_local demo_json_dump never_refuses v false w = (Ok r, w')
    ∧ rules_of (set_settings_data (DEFAULT_SETTINGS "Mods") w')
        (NamingRules true false false).
Proof.
  intros v w.
  destruct (save_settings_local_rewrites_defaults "Mods" demo_json_dump
              never_refuses v false w)
    as (r & w' & w'' & Hrun & _ & _ & Hreset & Hrules & _).
  - apply (well_formed_initial "Mods" empty_fs).
  - reflexivity.
  - reflexivity.
  - exists r, w'. split; [exact Hrun|].
    injection Hreset as <-. exact Hrules.
Defined.

(** The defaults are saved, the program is started again, and the
    settings are back. *)
Lemma saved_settings_are_loaded_back_witness :
  let w := initial_world "Mods" empty_fs in
  ∃ w1 w2,
    save_settings mods_json_dump never_refuses w = (Ok (Some tt), w1)
    ∧ load_settings "Mods" mods_json_load demo_json_raises never_refuses
        (initial_world "Mods" (fs w1))
      = (Ok (Some tt), w2)
    ∧ setting w2 "naming_rules" = setting w "naming_rules"
    ∧ setting w2 "main_mods_folder" = Some (JStr "Mods").
Proof.
  intros w.
  pose (w1 := emit (FsWrite "settings.json" mods_defaults_text) w).
  destruct (saved_settings_are_loaded_back "Mods" mods_json_load
              demo_json_raises mods_json_dump never_refuses w w1)
    as (w2 & Hload & Hsame).
  - apply (well_formed_initial "Mods" empty_fs).
  - reflexivity.
  - reflexivity.
  - reflexivity.
  - exists w1, w2. split; [reflexivity|]. split; [exact Hload|].
    split; [exact (Hsame "naming_rules")|exact (Hsame "main_mods_folder")].
Defined.

(** "Don't show again" with an operating system that refuses to write
    the settings: the prompt is off all the same. *)
Lemma dont_show_again_silences_prompt_witness :
  let rq := Request "Test Mod" "Test File" false false true false in
  let w := initial_world "Mods" empty_fs in
  let os := refuses_writes_of "settings.json" in
  ∃ w1,
    close_prompt demo_json_dump os true w = (Ok tt, w1)
    ∧ setting_flag w1 "show_open_location_prompt" = false
    ∧ ∀ folder,
        OpenLocationPrompt folder
        ∉ events_since w1 (generate_mod posix_join posix_basename os rq w1).2.
Proof.
  intros rq w os.
  destruct (dont_show_again_silences_prompt posix_join posix_basename
              demo_json_dump os rq w)
    as [(w1 & Hrun & Hflag & Hnone) _].
  - apply (well_formed_initial "Mods" empty_fs).
  - exists w1. split; [exact Hrun|]. split; [exact Hflag|exact Hnone].
Defined.

(** ** Examples: settings of the wrong type *)

(** The settings file says ["naming_rules": 5]: it is loaded without a
    word, and the generation fails before the directory is made. *)
Lemma ill_typed_naming_rules_block_generation_witness :
  let rq := Request "Test Mod" "Test File" false false true false in
  let w := initial_world "Mods" (fs_with_settings naming_rules_5_text) in
  ∃ w',
    load_settings "Mods" odd_json_load demo_json_raises never_refuses w = (Ok (Some tt), w')
    ∧ trace w' = []
    ∧ generate_mod posix_join posix_basename never_refuses rq w'
      = (Ok None, emit (failed_dialog TypeError) w')
    ∧ fs (emit (failed_dialog TypeError) w') = fs w.
Proof.
  intros rq w.
  destruct (ill_typed_naming_rules_block_generation "Mods" posix_join
              posix_basename odd_json_load demo_json_raises never_refuses w
              {[ "naming_rules" := JInt 5 ]} (JInt 5) rq)
    as (w' & Hload & Htrace & Hgen & Hfs).
  - split; [reflexivity|].
    exists naming_rules_5_text. split; reflexivity.
  - reflexivity.
  - reflexivity.
  - split; intros H; vm_compute in H; discriminate H.
  - exists w'. split; [exact Hload|]. split; [exact Htrace|].
    split; [exact Hgen|exact Hfs].
Defined.

(** [backup_options] is a string: the two files are created, then the
    generation fails. *)
Lemma ill_typed_backup_options_fail_late_witness :
  let rq := Request "Test Mod" "Test File" false false true false in
  let w :=
    World pristine_store
      (<[ "backup_options" := Imm (JStr "always") ]>
         (<[ "init_py_in_scripts" := Imm (JBool false) ]>
            (DEFAULT_SETTINGS "Mods")))
      empty_fs [] in
  ∃ w',
    generate_mod posix_join posix_basename never_refuses rq w = (Ok None, w')
    ∧ events_since w w'
      = [FsMakedirs "Mods/Test Mod";
         FsWrite "Mods/Test Mod/modinfo.py" (modinfo_text "Test File");
         FsWrite "Mods/Test Mod/Test File.package" package_text;
         failed_dialog AttributeError].
Proof.
  intros rq w.
  pose proof (ill_typed_backup_options_fail_late posix_join posix_basename
                never_refuses rq w (NamingRules false false false) "Mods"
                (JStr "always")) as Hrun.
  cbv zeta in Hrun. eexists. split.
  - apply Hrun.
    + intros f op. reflexivity.
    + split; intros H; vm_compute in H; discriminate H.
    + exists (JBool false), (JBool false), (JBool false).
      repeat split; reflexivity.
    + reflexivity.
    + reflexivity.
    + reflexivity.
  - vm_compute. reflexivity.
Defined.

(** The settings file holds [[]]. *)
Lemma load_settings_not_an_object_witness :
  let w := initial_world "Mods" (fs_with_settings "[]") in
  load_settings "Mods" demo_json_load demo_json_raises never_refuses w
  = (Ok None,
     emit (failed_dialog AttributeError)
       (set_settings_data (DEFAULT_SETTINGS "Mods") w)).
Proof.
  intros w.
  apply (load_settings_not_an_object "Mods" demo_json_load demo_json_raises
           never_refuses w "[]" (JList [])); reflexivity.
Defined.

(** ** Examples: names, files and windows *)

(** A folder name with spaces around and inside, under "no spaces in
    folder names". *)
Lemma cleaned_name_is_sound_witness :
  let w :=
    World
      (Store {[ "no_spaces_folders" := JBool true;
                "no_spaces_files" := JBool false;
                "convert_spaces_underscores" := JBool false ]}
             {[ "always_backup" := JBool true ]})
      (DEFAULT_SETTINGS "Mods") empty_fs [] in
  ∃ cleaned,
    apply_naming_rules "My Test Mod" true w = (Ok cleaned, w)
    ∧ no_space cleaned
    ∧ apply_naming_rules cleaned true w = (Ok cleaned, w).
Proof.
  intros w.
  destruct (cleaned_name_is_sound w (NamingRules true false false)
              "  My Test Mod " true)
    as (cleaned & c & t & t' & Hrun & _ & _ & Hagain & Hspace).
  - exists (JBool true), (JBool false), (JBool false).
    repeat split; reflexivity.
  - intros H. vm_compute in H. discriminate H.
  - exists cleaned. split; [exact Hrun|]. split; [exact Hspace|exact Hagain].
Defined.

Lemma windows_keep_defaults_witness :
  let v := SettingsVars false "Disabled" "D:/Mods" true false true false
             false in
  let rq := Request "Test Mod" "Test File" false false true false in
  let w := initial_world "Mods" empty_fs in
  well_formed "Mods"
    (save_settings_local demo_json_dump never_refuses v true w).2
  ∧ well_formed "Mods"
      (generate_mod posix_join posix_basename never_refuses rq w).2.
Proof.
  intros v rq w.
  destruct (windows_keep_defaults "Mods" posix_join posix_basename
              demo_json_dump never_refuses w v true rq)
    as (Hsave & _ & _ & Hgen & _).
  - apply (well_formed_initial "Mods" empty_fs).
  - split; [exact Hsave|exact Hgen].
Defined.

Lemma well_formed_settings_are_readable_witness :
  ∃ rules backup,
    settings_readable (initial_world "Mods" empty_fs) rules "Mods" backup.
Proof.
  apply (well_formed_settings_are_readable "Mods"
           (initial_world "Mods" empty_fs)
           {[ "no_spaces_folders" := JBool false;
              "no_spaces_files" := JBool false;
              "convert_spaces_underscores" := JBool false ]}
           {[ "always_backup" := JBool true ]} "Mods").
  - apply (well_formed_initial "Mods" empty_fs).
  - reflexivity.
  - reflexivity.
  - reflexivity.
Defined.


(** The example of the specification, generated twice. *)
Lemma generating_twice_adds_nothing_witness :
  let rq := Request "Test Mod" "Test File" false false true false in
  let w := initial_world "Mods" empty_fs in
  let first := generate_mod posix_join posix_basename never_refuses rq w in
  let second :=
    generate_mod posix_join posix_basename never_refuses rq first.2 in
  second.1 = first.1 ∧ fs second.2 = fs first.2.
Proof.
  intros rq w.
  destruct (generating_twice_adds_nothing posix_join posix_basename
              never_refuses rq w
              (generate_mod posix_join posix_basename never_refuses rq w).2
              (NamingRules false false false) "Mods" true)
    as (Hsame & _ & Hfs).
  - intros f op. reflexivity.
  - split; intros H; vm_compute in H; discriminate H.
  - split; [|split; reflexivity].
    exists (JBool false), (JBool false), (JBool false).
    repeat split; reflexivity.
  - reflexivity.
  - vm_compute. reflexivity.
  - vm_compute. reflexivity.
  - split; [exact Hsame|exact Hfs].
Defined.

(** The example of the specification: only "package" is ticked, and the
    marker alone makes [Scripts]. *)
Lemma created_files_follow_the_boxes_witness :
  let rq := Request "Test Mod" "Test File" false false true false in
  let w := initial_world "Mods" empty_fs in
  ∃ w',
    generate_mod posix_join posix_basename never_refuses rq w
    = (Ok (Some (Generated ["Mods/Test Mod/modinfo.py";
                            "Mods/Test Mod/Scripts/__init__.py";
                            "Mods/Test Mod/Test File.package"])), w')
    ∧ file_in w' "Mods/Test Mod/Scripts/__init__.py"
    ∧ "Mods/Test Mod/Scripts" ∈ dirs (fs w').
Proof.
  intros rq w.
  pose (r := generate_mod posix_join posix_basename never_refuses rq w).
  assert (Hrun : generate_mod posix_join posix_basename never_refuses rq w
                 = (Ok (Some (Generated
                                ["Mods/Test Mod/modinfo.py";
                                 "Mods/Test Mod/Scripts/__init__.py";
                                 "Mods/Test Mod/Test File.package"])),
                    r.2)).
  { vm_compute. reflexivity. }
  destruct (created_files_follow_the_boxes posix_join posix_basename
              never_refuses rq w r.2 (NamingRules false false false) "Mods"
              _ (conj (λ H, eq_ind "Test Mod"
                              (λ s, match s with "" => False | _ => True end)
                              Logic.I "" H)
                      (λ H, eq_ind "Test File"
                              (λ s, match s with "" => False | _ => True end)
                              Logic.I "" H))
              (ex_intro _ (JBool false)
                 (ex_intro _ (JBool false)
                    (ex_intro _ (JBool false)
                       (conj eq_refl (conj eq_refl (conj eq_refl
                          (conj eq_refl (conj eq_refl eq_refl))))))))
              eq_refl Hrun)
    as (_ & Hfiles & _ & Hscripts & _).
  exists r.2. split; [exact Hrun|]. split.
  - apply (proj1 (Forall_forall _ _) Hfiles).
    apply list_elem_of_further, list_elem_of_here.
  - exact (Hscripts eq_refl).
Defined.

(** The main window, 400 by 350, on a screen of 1366 by 768. *)
Lemma center_window_centres_witness :
  center_window (Ok (1366, 768)%Z) 400 350
  = Geometry 400 350 (Some (483, 209)%Z)
  ∧ centred 1366 400 483 ∧ centred 768 350 209.
Proof.
  destruct (center_window_centres 1366 768 400 350 TypeError)
    as [(x & y & Hgeo & Hx & Hy) _].
  - split; intros H; discriminate H.
  - split; intros H; discriminate H.
  - injection Hgeo as <- <-. split; [reflexivity|]. split; [exact Hx|exact Hy].
Defined.

(** The operating system refuses to make [Scripts]: the target directory
    has been made, [modinfo.py] has been written, and both stay. *)
Lemma failed_generation_is_not_undone_witness :
  let rq := Request "Test Mod" "Test File" true false false false in
  let w := initial_world "Mods" empty_fs in
  let os := refuses_makedirs_of "Mods/Test Mod/Scripts" in
  ∃ w' e n,
    generate_mod posix_join posix_basename os rq w = (Ok None, w')
    ∧ events_since w w'
      = (take n (creation_plan posix_join rq true "Mods/Test Mod"
                   "Test File")
         ++ [failed_dialog e])%list
    ∧ file_in w' "Mods/Test Mod/modinfo.py".
Proof.
  intros rq w os.
  pose (r := generate_mod posix_join posix_basename os rq w).
  assert (Hrun : generate_mod posix_join posix_basename os rq w
                 = (Ok None, r.2)).
  { vm_compute. reflexivity. }
  destruct (failed_generation_is_not_undone posix_join posix_basename os
              rq w r.2 (NamingRules false false false) "Mods" true)
    as (e & n & _ & Hev & _).
  - split; intros H; vm_compute in H; discriminate H.
  - split; [|split; reflexivity].
    exists (JBool false), (JBool false), (JBool false).
    repeat split; reflexivity.
  - exact Hrun.
  - exists r.2, e, n. split; [exact Hrun|]. split; [exact Hev|].
    vm_compute. eexists. reflexivity.
Defined.
